(** * GridStore and Cursor of the legacy MongoDB driver: a shallow embedding

    The development follows [lib/gridfs/grid_store.js] (the chunked file
    handle) and the driver's [Cursor] wrapper.  Callback-passing code is
    written in direct style: a function that ends by invoking
    [callback(err, value)] returns the pair it would pass, together with the
    updated handle and database.  Numbers are integers ([Z]); byte buffers
    are lists of bytes. *)

From Stdlib Require Import ZArith Lia Ascii String.
From stdpp Require Import gmap strings list.

Local Open Scope Z_scope.

(** ** JavaScript values as far as the driver inspects them *)

Inductive JsVal : Type :=
  | JUndefined
  | JNull
  | JBool (b : bool)
  | JNum (n : Z)
  | JStr (s : string).

(** [v != null] (loose): false exactly for [null] and [undefined]. *)
Definition not_nullish (v : JsVal) : bool :=
  match v with
  | JUndefined | JNull => false
  | _ => true
  end.

(** [typeof v == 'boolean'] *)
Definition typeof_boolean (v : JsVal) : bool :=
  match v with
  | JBool _ => true
  | _ => false
  end.

Inductive JsError : Type :=
  | TypeError
  | Error (msg : string)
  | MongoError (msg : string).

(** A call that ends in an exception. *)
Definition throws {A : Type} (r : JsError + A) : Prop := exists e, r = inl e.

Module WriteConcern.

Section WithToNumber.

(** The numeric value JavaScript assigns to a string ([None] stands for
    NaN); it belongs to the language runtime, not to the driver. *)
Variable StringToNumber : string -> option Z.

(** ToNumber on the values above; [None] is NaN. *)
Definition ToNumber (v : JsVal) : option Z :=
  match v with
  | JUndefined => None
  | JNull => Some 0
  | JBool b => Some (if b then 1 else 0)
  | JNum n => Some n
  | JStr s => StringToNumber s
  end.

(** [v == true] (loose equality against a boolean). *)
Definition loose_eq_true (v : JsVal) : bool :=
  match v with
  | JUndefined | JNull => false
  | _ => match ToNumber v with
         | Some n => n =? 1
         | None => false
         end
  end.

(** [v < 1] *)
Definition lt_one (v : JsVal) : bool :=
  match ToNumber v with
  | Some n => n <? 1
  | None => false
  end.

(** The write-concern keys of an options object. *)
Record Source : Type := mkSource {
  src_w : JsVal;
  src_j : JsVal;
  src_journal : JsVal;
  src_fsync : JsVal;
  src_wtimeout : JsVal
}.

Definition no_source : Source :=
  mkSource JUndefined JUndefined JUndefined JUndefined JUndefined.

(** The value of a [safe] property. *)
Inductive SafeVal : Type :=
  | SafeUndefined
  | SafeNull
  | SafeBool (b : bool)
  | SafeObject (o : Source).

(** The object built by [_setWriteConcernHash] / [_getWriteConcern]. *)
Record Final : Type := mkFinal {
  w : JsVal;
  j : JsVal;
  journal : JsVal;
  fsync : JsVal;
  wtimeout : JsVal
}.

Definition only_w (n : Z) : Final :=
  mkFinal (JNum n) JUndefined JUndefined JUndefined JUndefined.

Definition _setWriteConcernHash (options : Source) : Final :=
  {| w := if not_nullish (src_w options) then src_w options else JUndefined;
     j := if loose_eq_true (src_j options) then src_j options
          else if loose_eq_true (src_journal options) then src_journal options
          else JUndefined;
     journal := JUndefined;
     fsync := if loose_eq_true (src_fsync options) then src_fsync options else JUndefined;
     wtimeout := if not_nullish (src_wtimeout options) then src_wtimeout options
                 else JUndefined |}.

(** The [Db] object as [_getWriteConcern] reads it: its [options] and
    [safe] properties ([None]: the property is undefined). *)
Record DbConfig : Type := mkDbConfig {
  db_options : option Source;
  db_safe : SafeVal
}.

(** One link of the [if / else if] chain tests this on an options object. *)
Definition has_concern (o : Source) : bool :=
  not_nullish (src_w o) || typeof_boolean (src_j o)
  || typeof_boolean (src_journal o) || typeof_boolean (src_fsync o).

Definition invalid_combination (f : Final) : bool :=
  lt_one (w f)
  && (loose_eq_true (journal f) || loose_eq_true (j f) || loose_eq_true (fsync f)).

Definition ConfigError : JsError :=
  Error "No acknowledgement using w < 1 cannot be combined with journal:true or fsync:true".

(** The selection of [finalOptions]; [inl] is a thrown exception (reading a
    property of an undefined [self.options] or [self.safe]). *)
Definition select_final (self : DbConfig) (options : Source) (safe : SafeVal)
  : JsError + Final :=
  if has_concern options then inr (_setWriteConcernHash options)
  else match safe with
  | SafeObject o => inr (_setWriteConcernHash o)
  | SafeBool b => inr (only_w (if b then 1 else 0))
  | SafeUndefined | SafeNull =>
    match db_options self with
    | None => inl TypeError
    | Some dbo =>
      if has_concern dbo then inr (_setWriteConcernHash dbo)
      else match db_safe self with
      | SafeUndefined | SafeNull => inl TypeError
      | SafeObject o =>
        if has_concern o then inr (_setWriteConcernHash o) else inr (only_w 1)
      | SafeBool b => inr (only_w (if b then 1 else 0))
      end
    end
  end.

Definition _getWriteConcern (self : DbConfig) (options : Source) (safe : SafeVal)
  : JsError + Final :=
  match select_final self options safe with
  | inl e => inl e
  | inr finalOptions =>
    if invalid_combination finalOptions then inl ConfigError
    else inr finalOptions
  end.

End WithToNumber.

End WriteConcern.

(** ** Byte buffers *)

Abbreviation byte := Byte.byte.
Abbreviation Buffer := (list Byte.byte).

Module Buf.

(** An index argument of [Buffer.prototype.slice]: negative indices count
    from the end, and the result is clamped to the buffer. *)
Definition index (len i : Z) : Z :=
  if i <? 0 then Z.max 0 (len + i) else Z.min i len.

(** [b.slice(start, end)]; [None] for an omitted [end]. *)
Definition slice (b : Buffer) (start : Z) (end_ : option Z) : Buffer :=
  let len := Z.of_nat (length b) in
  let s := index len start in
  let e := match end_ with Some e => index len e | None => len end in
  take (Z.to_nat (e - s)) (drop (Z.to_nat s) b).

(** [new Buffer(n)]: [n] bytes whose content the caller must not rely on
    (written as zero bytes); a negative size gives the empty buffer. *)
Definition alloc (n : Z) : Buffer := replicate (Z.to_nat n) Byte.x00.

(** [source.copy(target, targetStart)]: the target keeps its length; bytes
    of the source that do not fit are dropped. *)
Definition copy (source target : Buffer) (targetStart : Z) : Buffer :=
  let s := Z.to_nat targetStart in
  take s target ++ take (length target - s)%nat source
    ++ drop (s + length source)%nat target.

End Buf.

(** ** Chunk

    [lib/gridfs/chunk.js] is not among the sources at hand; the handle uses
    a chunk only through the operations below, written after section 4.1
    of the specification. *)
Module Chunk.

(** Modelled from the spec: the Chunk object of chunk.js, "a byte buffer
    plus an internal read/write cursor"; [chunkNumber] is the sequence
    index [n] of the chunk document. *)
Record t : Type := mk {
  chunkNumber : Z;
  data : Buffer;
  position : Z
}.

(** Modelled from the spec: the constructor [new Chunk(file, mongoObject)]
    of chunk.js, from the [n] and [data] of a chunk document; a document
    without them (the [{}] that [nthChunk] passes for a missing chunk) gives
    an empty chunk, numbered 0 like a fresh one; the cursor starts at 0. *)
Definition new (n : option Z) (d : option Buffer) : t :=
  mk (default 0 n) (default [] d) 0.

(** Modelled from the spec: [Chunk.prototype.length] of chunk.js, the
    number of bytes the chunk holds. *)
Definition length (c : t) : Z := Z.of_nat (List.length (data c)).

(** Modelled from the spec: [Chunk.prototype.write] of chunk.js,
    "appends at the internal cursor, growing the buffer"; the bytes go into
    the buffer at the cursor, over the bytes it holds there, and what the
    buffer holds after them stays: the buffer grows when the bytes reach
    past its end and never shrinks. With the cursor past the end of the
    buffer the bytes follow what the buffer holds. The cursor moves past
    the bytes written. *)
Definition write (c : t) (bytes : Buffer) : t :=
  let at_cursor := Z.to_nat (position c) in
  mk (chunkNumber c)
     (take at_cursor (data c) ++ bytes
        ++ drop (at_cursor + List.length bytes) (data c))
     (position c + Z.of_nat (List.length bytes)).

(** Modelled from the spec: [Chunk.prototype.readSlice] of chunk.js,
    "returns bytes from cursor forward, advancing cursor; requesting more
    than available yields only what remains". *)
Definition readSlice (c : t) (n : Z) : Buffer * t :=
  let s := take (Z.to_nat n) (drop (Z.to_nat (position c)) (data c)) in
  (s, mk (chunkNumber c) (data c) (position c + Z.of_nat (List.length s))).

(** Modelled from the spec: [Chunk.prototype.eof] of chunk.js, "reports
    cursor == buffer length". *)
Definition eof (c : t) : bool := position c =? length c.

(** Modelled from the spec: [Chunk.prototype.rewind] of chunk.js, "resets
    cursor to 0". *)
Definition rewind (c : t) : t := mk (chunkNumber c) (data c) 0.

(** Modelled from the spec: [Chunk.prototype.save] of chunk.js, "persists
    (upsert) the chunk document keyed by (filesId, n)"; the argument is the
    part of the chunk collection that belongs to the owning file. *)
Definition save (c : t) (docs : gmap Z Buffer) : gmap Z Buffer :=
  <[chunkNumber c := data c]> docs.

End Chunk.

(** ** The database the handle talks to *)

(** File identifiers: a generated [ObjectID] or a caller-supplied value. *)
Inductive JsId : Type :=
  | IdObjectID (n : N)
  | IdString (s : string).

#[global] Instance JsId_eq_dec : EqDecision JsId.
Proof. solve_decision. Defined.

#[global] Instance JsId_countable : Countable JsId.
Proof.
  refine (inj_countable'
            (fun i => match i with IdObjectID n => inl n | IdString s => inr s end)
            (fun x => match x with inl n => IdObjectID n | inr s => IdString s end) _).
  intros []; reflexivity.
Defined.

(** A document of [<root>.files]. *)
Record FileDoc : Type := mkFileDoc {
  doc_id : option JsId;
  doc_filename : option string;
  doc_contentType : option string;
  doc_length : Z;
  doc_chunkSize : Z;
  doc_uploadDate : option Z;
  doc_aliases : option string;
  doc_metadata : option string;
  doc_md5 : option string
}.

(** The two collections of a root namespace.  [<root>.chunks] is keyed by
    its compound index: [files_id] ([None] for a null one), then [n]. *)
Record Db : Type := mkDb {
  files : list FileDoc;
  chunks : gmap (option JsId) (gmap Z Buffer)
}.

Module Collection.

(** The first document a [find(query)] on the files collection yields. *)
Fixpoint find (matches : FileDoc -> bool) (docs : list FileDoc) : option FileDoc :=
  match docs with
  | [] => None
  | d :: rest => if matches d then Some d else find matches rest
  end.

Definition by_id (id : option JsId) (d : FileDoc) : bool :=
  bool_decide (doc_id d = id).

Definition by_filename (name : option string) (d : FileDoc) : bool :=
  bool_decide (doc_filename d = name).

(** [files.remove({'_id': id})] *)
Definition remove (id : option JsId) (docs : list FileDoc) : list FileDoc :=
  List.filter (fun d => negb (by_id id d)) docs.

(** [files.save(doc)]: replaces the document with the same [_id] or
    inserts a new one. *)
Fixpoint save (doc : FileDoc) (docs : list FileDoc) : list FileDoc :=
  match docs with
  | [] => [doc]
  | d :: rest => if by_id (doc_id doc) d then doc :: rest else d :: save doc rest
  end.

(** The chunk documents of one file, by [n]. *)
Definition chunks_of (id : option JsId) (db : Db) : gmap Z Buffer :=
  default ∅ (chunks db !! id).

(** [chunks.find({'files_id': id, 'n': n})] *)
Definition find_chunk (id : option JsId) (n : Z) (db : Db) : option Buffer :=
  chunks_of id db !! n.

(** [chunk.save()] for a chunk of file [id]. *)
Definition save_chunk (id : option JsId) (c : Chunk.t) (db : Db) : Db :=
  mkDb (files db) (<[id := Chunk.save c (chunks_of id db)]> (chunks db)).

(** [chunks.remove({'files_id': id})] *)
Definition remove_chunks (id : option JsId) (db : Db) : Db :=
  mkDb (files db) (delete id (chunks db)).

End Collection.

(** ** GridStore *)

Module GridStore.

(** The options object of the constructor. *)
Record Options : Type := mkOptions {
  opt_root : option string;
  opt_content_type : option string;
  opt_chunk_size : option Z;
  opt_chunkSize : option Z;
  opt_metadata : option string;
  opt_aliases : option string;
  opt_readPreference : option string;
  opt_concern : WriteConcern.Source;
  opt_safe : WriteConcern.SafeVal
}.

(** [{}] *)
Definition no_options : Options :=
  mkOptions None None None None None None None
            WriteConcern.no_source WriteConcern.SafeUndefined.

(** The [filename] argument of the constructor. *)
Inductive NameArg : Type :=
  | NameUndefined
  | NameNull
  | NameString (s : string).

(** The [mode] argument of the constructor, which may hold the options. *)
Inductive ModeArg : Type :=
  | ModeUndefined
  | ModeNull
  | ModeString (s : string)
  | ModeObject (o : Options).

Definition REFERENCE_BY_FILENAME : Z := 0.
Definition REFERENCE_BY_ID : Z := 1.
Definition DEFAULT_ROOT_COLLECTION : string := "fs".
Definition DEFAULT_CONTENT_TYPE : string := "binary/octet-stream".

(** The handle: the properties the constructor and [_open] assign.  A
    property not assigned yet is [None] ([length]: 0). *)
Record t : Type := mk {
  db : WriteConcern.DbConfig;
  referenceBy : Z;
  fileId : option JsId;
  filename : option string;
  mode : string;
  options : Options;
  isOpen : bool;
  root : string;
  position : Z;
  readPreference : string;
  writeConcern : WriteConcern.Final;
  internalChunkSize : Z;
  contentType : option string;
  uploadDate : option Z;
  aliases : option string;
  length : Z;
  metadata : option string;
  internalMd5 : option string;
  currentChunk : option Chunk.t
}.

(** Assignments [self.x = v]. *)
Definition set_fileId (v : option JsId) (self : t) : t :=
  mk (db self) (referenceBy self) v (filename self) (mode self) (options
     self) (isOpen self) (root self) (position self) (readPreference self)
     (writeConcern self) (internalChunkSize self) (contentType self)
     (uploadDate self) (aliases self) (length self) (metadata self)
     (internalMd5 self) (currentChunk self).

Definition set_filename (v : option string) (self : t) : t :=
  mk (db self) (referenceBy self) (fileId self) v (mode self) (options
     self) (isOpen self) (root self) (position self) (readPreference self)
     (writeConcern self) (internalChunkSize self) (contentType self)
     (uploadDate self) (aliases self) (length self) (metadata self)
     (internalMd5 self) (currentChunk self).

Definition set_isOpen (v : bool) (self : t) : t :=
  mk (db self) (referenceBy self) (fileId self) (filename self) (mode
     self) (options self) v (root self) (position self) (readPreference
     self) (writeConcern self) (internalChunkSize self) (contentType self)
     (uploadDate self) (aliases self) (length self) (metadata self)
     (internalMd5 self) (currentChunk self).

Definition set_position (v : Z) (self : t) : t :=
  mk (db self) (referenceBy self) (fileId self) (filename self) (mode
     self) (options self) (isOpen self) (root self) v (readPreference
     self) (writeConcern self) (internalChunkSize self) (contentType self)
     (uploadDate self) (aliases self) (length self) (metadata self)
     (internalMd5 self) (currentChunk self).

Definition set_internalChunkSize (v : Z) (self : t) : t :=
  mk (db self) (referenceBy self) (fileId self) (filename self) (mode
     self) (options self) (isOpen self) (root self) (position self)
     (readPreference self) (writeConcern self) v (contentType self)
     (uploadDate self) (aliases self) (length self) (metadata self)
     (internalMd5 self) (currentChunk self).

Definition set_contentType (v : option string) (self : t) : t :=
  mk (db self) (referenceBy self) (fileId self) (filename self) (mode
     self) (options self) (isOpen self) (root self) (position self)
     (readPreference self) (writeConcern self) (internalChunkSize self) v
     (uploadDate self) (aliases self) (length self) (metadata self)
     (internalMd5 self) (currentChunk self).

Definition set_uploadDate (v : option Z) (self : t) : t :=
  mk (db self) (referenceBy self) (fileId self) (filename self) (mode
     self) (options self) (isOpen self) (root self) (position self)
     (readPreference self) (writeConcern self) (internalChunkSize self)
     (contentType self) v (aliases self) (length self) (metadata self)
     (internalMd5 self) (currentChunk self).

Definition set_aliases (v : option string) (self : t) : t :=
  mk (db self) (referenceBy self) (fileId self) (filename self) (mode
     self) (options self) (isOpen self) (root self) (position self)
     (readPreference self) (writeConcern self) (internalChunkSize self)
     (contentType self) (uploadDate self) v (length self) (metadata self)
     (internalMd5 self) (currentChunk self).

Definition set_length (v : Z) (self : t) : t :=
  mk (db self) (referenceBy self) (fileId self) (filename self) (mode
     self) (options self) (isOpen self) (root self) (position self)
     (readPreference self) (writeConcern self) (internalChunkSize self)
     (contentType self) (uploadDate self) (aliases self) v (metadata self)
     (internalMd5 self) (currentChunk self).

Definition set_metadata (v : option string) (self : t) : t :=
  mk (db self) (referenceBy self) (fileId self) (filename self) (mode
     self) (options self) (isOpen self) (root self) (position self)
     (readPreference self) (writeConcern self) (internalChunkSize self)
     (contentType self) (uploadDate self) (aliases self) (length self) v
     (internalMd5 self) (currentChunk self).

Definition set_internalMd5 (v : option string) (self : t) : t :=
  mk (db self) (referenceBy self) (fileId self) (filename self) (mode
     self) (options self) (isOpen self) (root self) (position self)
     (readPreference self) (writeConcern self) (internalChunkSize self)
     (contentType self) (uploadDate self) (aliases self) (length self)
     (metadata self) v (currentChunk self).

Definition set_currentChunk (v : option Chunk.t) (self : t) : t :=
  mk (db self) (referenceBy self) (fileId self) (filename self) (mode
     self) (options self) (isOpen self) (root self) (position self)
     (readPreference self) (writeConcern self) (internalChunkSize self)
     (contentType self) (uploadDate self) (aliases self) (length self)
     (metadata self) (internalMd5 self) v.
(** How a call ends. *)
Inductive Outcome (A : Type) : Type :=
  | Ok (a : A)            (* callback(null, a), or a normal return *)
  | Failed (e : JsError)  (* callback(err) *)
  | Thrown (e : JsError)  (* an exception leaves the function *)
  | Pending.              (* the callback is never invoked *)
Arguments Ok {A} a.
Arguments Failed {A} e.
Arguments Thrown {A} e.
Arguments Pending {A}.

(** [mode[0] == c] *)
Definition first_char_is (c : ascii) (m : string) : bool :=
  match m with
  | String a _ => bool_decide (a = c)
  | EmptyString => false
  end.

Definition name_value (a : NameArg) : option string :=
  match a with
  | NameString s => Some s
  | _ => None
  end.

(** [x == null ? dflt : x] *)
Definition or_default {A : Type} (x : option A) (dflt : A) : A :=
  match x with
  | Some v => v
  | None => dflt
  end.

(** [x == null ? old : x] on a property that may itself be unset *)
Definition or_keep {A : Type} (x old : option A) : option A :=
  match x with
  | Some v => Some v
  | None => old
  end.

(** [x || dflt] on a string: the empty string is falsy. *)
Definition string_or (x : option string) (dflt : string) : string :=
  match x with
  | Some EmptyString | None => dflt
  | Some v => v
  end.

Section WithEnvironment.

(** What the handle takes from its environment: the runtime's conversion
    of strings to numbers, [Chunk.DEFAULT_CHUNK_SIZE] (a constant of
    chunk.js), [ObjectID.prototype.toHexString], and the checksum the
    server's [filemd5] command computes over the chunks of a file. *)
Variable StringToNumber : string -> option Z.
Variable DEFAULT_CHUNK_SIZE : Z.
Variable toHexString : N -> string.
Variable filemd5 : gmap Z Buffer -> option string.

(** [new GridStore(db, id, filename, mode, options)]; [fresh] is the
    identifier a [new ObjectID()] would produce. *)
Definition new (database : WriteConcern.DbConfig) (id : option JsId)
    (filename_arg : NameArg) (mode_arg : ModeArg) (options_arg : option Options)
    (fresh : N) : JsError + t :=
  let options0 := or_default options_arg no_options in
  (* Handle mode *)
  let '(mode1, filename1, options1) :=
    match mode_arg with
    | ModeUndefined => (filename_arg, NameUndefined, Some options0)
    | ModeNull => (filename_arg, NameUndefined, None)
    | ModeObject o => (filename_arg, NameUndefined, Some o)
    | ModeString s => (NameString s, filename_arg, Some options0)
    end in
  let reference : JsError + (Z * option JsId * option string) :=
    match id, filename1 with
    | Some (IdObjectID _), _ =>
        inr (REFERENCE_BY_ID, id, name_value filename1)
    | _, NameUndefined =>
        match mode1 with
        | NameString _ =>
            inr (REFERENCE_BY_FILENAME, Some (IdObjectID fresh),
                 match id with Some (IdString s) => Some s | _ => None end)
        | _ => inl TypeError
        end
    | _, _ => inr (REFERENCE_BY_ID, id, name_value filename1)
    end in
  match reference with
  | inl e => inl e
  | inr (referenceBy0, fileId0, filename0) =>
    let opts := or_default options1 no_options in
    match WriteConcern._getWriteConcern StringToNumber database
            (opt_concern opts) (opt_safe opts) with
    | inl e => inl e
    | inr wc =>
      inr {| db := database;
             referenceBy := referenceBy0;
             fileId := fileId0;
             filename := filename0;
             mode := or_default (name_value mode1) "r";
             options := opts;
             isOpen := false;
             root := or_default (opt_root opts) DEFAULT_ROOT_COLLECTION;
             position := 0;
             readPreference := string_or (opt_readPreference opts) "primary";
             writeConcern := wc;
             internalChunkSize := or_default (opt_chunkSize opts) DEFAULT_CHUNK_SIZE;
             contentType := None;
             uploadDate := None;
             aliases := None;
             length := 0;
             metadata := None;
             internalMd5 := None;
             currentChunk := None |}
    end
  end.

(** The [chunkSize] property: getter and setter. *)
Definition chunkSize (self : t) : Z := internalChunkSize self.

Definition set_chunkSize (value : Z) (self : t) : t :=
  if negb (first_char_is "w" (mode self) && (position self =? 0)
           && bool_decide (uploadDate self = None))
  then set_internalChunkSize (internalChunkSize self) self
  else set_internalChunkSize value self.

(** [nthChunk(self, chunkNumber, callback)]: the chunk built from the
    document found, or from [{}] when there is none. *)
Definition nthChunk (self : t) (chunkNumber : Z) (d : Db) : Chunk.t :=
  match Collection.find_chunk (fileId self) chunkNumber d with
  | Some bytes => Chunk.new (Some chunkNumber) (Some bytes)
  | None => Chunk.new None None
  end.

(** [Math.floor(x / chunkSize)] is [Z.div] for a chunk size other than 0. *)
Definition lastChunkNumber (self : t) : Z :=
  (if length self =? 0 then 0 else length self - 1) `div` chunkSize self.

Definition deleteChunks (self : t) (d : Db) : Db :=
  match fileId self with
  | Some _ => Collection.remove_chunks (fileId self) d
  | None => d
  end.

(** The subject of an error message. *)
Definition subject (self : t) : string :=
  if referenceBy self =? REFERENCE_BY_ID then
    match fileId self with
    | Some (IdObjectID n) => toHexString n
    | Some (IdString s) => s
    | None => "undefined"
    end
  else or_default (filename self) "undefined".

(** [_open]: the branch taken per mode once the metadata is settled;
    [read_allowed] is false on the path without a query, which has no
    branch for mode "r". *)
Definition open_mode (read_allowed : bool) (self : t) (d : Db)
  : Outcome unit * t * Db :=
  if bool_decide (mode self = "r") then
    if read_allowed then
      let chunk := nthChunk self 0 d in
      (Ok (), set_position 0 (set_currentChunk (Some chunk) self), d)
    else (Pending, self, d)
  else if bool_decide (mode self = "w") then
    (* Delete any existing chunks *)
    let d := deleteChunks self d in
    let self := set_currentChunk (Some (Chunk.new (Some 0) None)) self in
    let self := set_contentType
                  (or_keep (opt_content_type (options self)) (contentType self)) self in
    let self := set_internalChunkSize
                  (or_default (opt_chunk_size (options self)) (internalChunkSize self)) self in
    let self := set_metadata (or_keep (opt_metadata (options self)) (metadata self)) self in
    let self := set_aliases (or_keep (opt_aliases (options self)) (aliases self)) self in
    (Ok (), set_position 0 self, d)
  else if bool_decide (mode self = "w+") then
    let chunk := nthChunk self (lastChunkNumber self) d in
    (* Set the current chunk *)
    let chunk := Chunk.mk (Chunk.chunkNumber chunk) (Chunk.data chunk) (Chunk.length chunk) in
    let self := set_currentChunk (Some chunk) self in
    let self := set_metadata (or_keep (opt_metadata (options self)) (metadata self)) self in
    let self := set_aliases (or_keep (opt_aliases (options self)) (aliases self)) self in
    (Ok (), set_position (length self) self, d)
  else (Pending, self, d).

Definition _open (self : t) (d : Db) (fresh : N) : Outcome unit * t * Db :=
  let query_is_null :=
    bool_decide (fileId self = None) && bool_decide (filename self = None) in
  if negb query_is_null then
    let found :=
      if referenceBy self =? REFERENCE_BY_ID
      then Collection.find (Collection.by_id (fileId self)) (files d)
      else Collection.find (Collection.by_filename (filename self)) (files d) in
    match found with
    | Some doc =>
      let self := set_fileId (doc_id doc) self in
      let self :=
        if bool_decide (mode self = "r") || bool_decide (filename self = None)
        then set_filename (doc_filename doc) self else self in
      let self := set_contentType (doc_contentType doc) self in
      let self := set_internalChunkSize (doc_chunkSize doc) self in
      let self := set_uploadDate (doc_uploadDate doc) self in
      let self := set_aliases (doc_aliases doc) self in
      let self := set_length (doc_length doc) self in
      let self := set_metadata (doc_metadata doc) self in
      let self := set_internalMd5 (doc_md5 doc) self in
      open_mode true self d
    | None =>
      if negb (bool_decide (mode self = "r")) then
        let self := set_fileId (or_keep (fileId self) (Some (IdObjectID fresh))) self in
        let self := set_contentType (Some DEFAULT_CONTENT_TYPE) self in
        (* internalChunkSize is never null here: it stays as it is *)
        let self := set_length 0 self in
        open_mode true self d
      else
        let self := set_length 0 self in
        (Failed (Error (subject self ++ " does not exist")), self, d)
    end
  else
    (* Write only mode *)
    let self := set_fileId (Some (IdObjectID fresh)) self in
    let self := set_contentType (Some DEFAULT_CONTENT_TYPE) self in
    let self := set_length 0 self in
    open_mode false self d.

(** [GridStore.prototype.open] *)
Definition open (self : t) (d : Db) (fresh : N) : Outcome unit * t * Db :=
  if negb (bool_decide (mode self = "w") || bool_decide (mode self = "w+")
           || bool_decide (mode self = "r"))
  then (Failed (Error ("Illegal mode " ++ mode self)), self, d)
  else
    match WriteConcern._getWriteConcern StringToNumber (db self)
            (opt_concern (options self)) (opt_safe (options self)) with
    | inl e => (Thrown e, self, d)
    | inr _ =>
      match _open self d fresh with
      | (Ok u, self, d) => (Ok u, set_isOpen true self, d)
      | other => other
      end
    end.

(** *** Writing *)

(** The [while] loop of [writeBuffer]: as long as a whole chunk of data is
    left, a new chunk is created, filled and pushed to the save list.  The
    loop ends for a chunk size of at least 1; [None] stands for a loop that
    is still running when the fuel is spent. *)
Fixpoint fill_chunks (fuel : nat) (chunk_size previousChunkNumber : Z)
    (leftOverData : Buffer) (chunksToWrite : list Chunk.t)
  : option (Z * Buffer * list Chunk.t) :=
  if Z.of_nat (List.length leftOverData) >=? chunk_size then
    match fuel with
    | O => None
    | S fuel' =>
      (* Create a new chunk and write to it *)
      let newChunk := Chunk.new (Some (previousChunkNumber + 1)) None in
      let firstChunkData := Buf.slice leftOverData 0 (Some chunk_size) in
      let leftOverData := Buf.slice leftOverData chunk_size None in
      fill_chunks fuel' chunk_size (previousChunkNumber + 1) leftOverData
                  (chunksToWrite ++ [Chunk.write newChunk firstChunkData])
    end
  else Some (previousChunkNumber, leftOverData, chunksToWrite).

(** What [writeBuffer] has done when it returns to its caller: the handle
    is updated and the saves of [chunksToWrite] are issued, none of them
    completed. *)
Inductive Issued : Type :=
  | NotWritable (o : Outcome unit)
  | InPlace (self : t)
  | Saving (self : t) (chunksToWrite : list Chunk.t).

(** The synchronous part of [writeBuffer]. *)
Definition writeBuffer_issue (self : t) (buffer : Buffer) : option Issued :=
  if negb (first_char_is "w" (mode self)) then
    Some (NotWritable
      (if referenceBy self =? REFERENCE_BY_ID
       then Thrown TypeError   (* the handle has no toHexString method *)
       else Failed (Error (or_default (filename self) "undefined"
                           ++ " not opened for writing"))))
  else
    match currentChunk self with
    | None => Some (NotWritable (Thrown TypeError))
    | Some current =>
      let len := Z.of_nat (List.length buffer) in
      if Chunk.position current + len >=? chunkSize self then
        let previousChunkNumber := Chunk.chunkNumber current in
        let leftOverDataSize := chunkSize self - Chunk.position current in
        let firstChunkData := Buf.slice buffer 0 (Some leftOverDataSize) in
        let leftOverData := Buf.slice buffer leftOverDataSize None in
        (* A list of chunks to write out *)
        let chunksToWrite := [Chunk.write current firstChunkData] in
        match fill_chunks (S (List.length leftOverData)) (chunkSize self)
                previousChunkNumber leftOverData chunksToWrite with
        | None => None
        | Some (previousChunkNumber, leftOverData, chunksToWrite) =>
          (* Set current chunk with remaining data *)
          let fresh_chunk := Chunk.new (Some (previousChunkNumber + 1)) None in
          let next :=
            if Z.of_nat (List.length leftOverData) >? 0
            then Chunk.write fresh_chunk leftOverData else fresh_chunk in
          let self := set_currentChunk (Some next) self in
          (* Update the position for the gridstore *)
          let self := set_position (position self + len) self in
          Some (Saving self chunksToWrite)
        end
      else
        let self := set_position (position self + len) self in
        Some (InPlace (set_currentChunk (Some (Chunk.write current buffer)) self))
    end.

(** The saves issued by a write, completed in the order given. *)
Definition complete_saves (self : t) (saves : list Chunk.t) (d : Db) : Db :=
  foldl (fun d c => Collection.save_chunk (fileId self) c d) d saves.

Definition buildMongoObject (self : t) (d : Db) : FileDoc :=
  {| doc_id := fileId self;
     doc_filename := filename self;
     doc_contentType := contentType self;
     doc_length := if position self =? 0 then 0 else position self;
     doc_chunkSize := chunkSize self;
     doc_uploadDate := uploadDate self;
     doc_aliases := aliases self;
     doc_metadata := metadata self;
     doc_md5 := filemd5 (Collection.chunks_of (fileId self) d) |}.

(** [GridStore.prototype.close]; [now] is the value of [new Date()]. *)
Definition close (self : t) (now : Z) (d : Db)
  : Outcome (option FileDoc) * t * Db :=
  if first_char_is "w" (mode self) then
    let flush :=
      match currentChunk self with
      | Some c => if Chunk.position c >? 0 then Some c else None
      | None => None
      end in
    match flush with
    | Some c =>
      let d := Collection.save_chunk (fileId self) c d in
      (* Build the mongo object *)
      if bool_decide (uploadDate self <> None) then
        let d := mkDb (Collection.remove (fileId self) (files d)) (chunks d) in
        let mongoObject := buildMongoObject self d in
        (Ok (Some mongoObject), self,
         mkDb (Collection.save mongoObject (files d)) (chunks d))
      else
        let self := set_uploadDate (Some now) self in
        let mongoObject := buildMongoObject self d in
        (Ok (Some mongoObject), self,
         mkDb (Collection.save mongoObject (files d)) (chunks d))
    | None =>
      let self := set_uploadDate (Some now) self in
      let mongoObject := buildMongoObject self d in
      (Ok (Some mongoObject), self,
       mkDb (Collection.save mongoObject (files d)) (chunks d))
    end
  else if first_char_is "r" (mode self) then (Ok None, self, d)
  else (Failed (Error ("Illegal mode " ++ mode self)), self, d).

(** [writeBuffer(self, buffer, close, callback)], through to its callback:
    the issued saves complete, then the file is closed if asked for. *)
Definition writeBuffer (self : t) (buffer : Buffer) (finalClose : bool)
    (now : Z) (d : Db) : option (Outcome unit * t * Db) :=
  match writeBuffer_issue self buffer with
  | None => None
  | Some (NotWritable o) => Some (o, self, d)
  | Some (InPlace self) =>
    if finalClose then
      match close self now d with
      | (Ok _, self, d) => Some (Ok (), self, d)
      | (Failed e, self, d) => Some (Failed e, self, d)
      | (Thrown e, self, d) => Some (Thrown e, self, d)
      | (Pending, self, d) => Some (Pending, self, d)
      end
    else Some (Ok (), self, d)
  | Some (Saving self saves) =>
    let d := complete_saves self saves d in
    if finalClose then
      match close self now d with
      | (Ok _, self, d) => Some (Ok (), self, d)
      | (Failed e, self, d) => Some (Failed e, self, d)
      | (Thrown e, self, d) => Some (Thrown e, self, d)
      | (Pending, self, d) => Some (Pending, self, d)
      end
    else Some (Ok (), self, d)
  end.

(** [GridStore.prototype.write], for a buffer. *)
Definition write (self : t) (bytes : Buffer) (finalClose : bool)
    (now : Z) (d : Db) : option (Outcome unit * t * Db) :=
  writeBuffer self bytes finalClose now d.

(** A run of writes, each one started when the one before has called
    back; the run stops at the first write that does not succeed. *)
Fixpoint write_all (self : t) (payloads : list Buffer) (now : Z) (d : Db)
  : option (Outcome unit * t * Db) :=
  match payloads with
  | [] => Some (Ok (), self, d)
  | bytes :: rest =>
    match write self bytes false now d with
    | Some (Ok _, self, d) => write_all self rest now d
    | other => other
    end
  end.

(** A handle that [write] can work on: opened in a write mode, with a
    chunk size of at least one byte. *)
Definition writable (self : t) : Prop :=
  first_char_is "w" (mode self) = true
  /\ (exists current, currentChunk self = Some current /\ 0 <= Chunk.position current)
  /\ 1 <= chunkSize self.

(** The handle that a synchronous part of a write leaves behind. *)
Definition issued_handle (i : Issued) : option t :=
  match i with
  | NotWritable _ => None
  | InPlace self => Some self
  | Saving self _ => Some self
  end.

Definition issued_saves (i : Issued) : list Chunk.t :=
  match i with
  | Saving _ saves => saves
  | _ => []
  end.

(** *** Reading *)

(** The buffer [read] fills, with the [_index] property it keeps on it. *)
Record ReadBuffer : Type := mkReadBuffer {
  bytes : Buffer;
  _index : option Z
}.

(** [GridStore.prototype.read(length, buffer, callback)].  The call for the
    next chunk is the recursive one; [None] stands for a read that is still
    running when the fuel is spent. *)
Fixpoint read (fuel : nat) (self : t) (length_arg : option Z)
    (buffer : option ReadBuffer) (d : Db) : option (Outcome ReadBuffer * t) :=
  let finalLength :=
    match length_arg with
    | None => length self - position self
    | Some l => l
    end in
  let finalBuffer :=
    match buffer with
    | None => Buf.alloc finalLength
    | Some b => bytes b
    end in
  (* Add a index to buffer to keep track of writing position or apply current index *)
  let index :=
    match buffer with
    | Some b => or_default (_index b) 0
    | None => 0
    end in
  match currentChunk self with
  | None => Some (Thrown TypeError, self)
  | Some current =>
    if Chunk.length current - Chunk.position current + index >=? finalLength then
      let '(slice, current) := Chunk.readSlice current (finalLength - index) in
      (* Copy content to final buffer *)
      let finalBuffer := Buf.copy slice finalBuffer index in
      let self := set_currentChunk (Some current) self in
      (* Update internal position *)
      let self :=
        set_position (position self + Z.of_nat (List.length finalBuffer)) self in
      (* Check if we don't have a file at all *)
      if (finalLength =? 0) && (Z.of_nat (List.length finalBuffer) =? 0)
      then Some (Failed (Error "File does not exist"), self)
      else Some (Ok (mkReadBuffer finalBuffer (Some index)), self)
    else
      (* Read the next chunk *)
      let '(slice, current) :=
        Chunk.readSlice current (Chunk.length current - Chunk.position current) in
      let finalBuffer := Buf.copy slice finalBuffer index in
      (* Update index position *)
      let index := index + Z.of_nat (List.length slice) in
      let self := set_currentChunk (Some current) self in
      (* Load next chunk and read more *)
      let chunk := nthChunk self (Chunk.chunkNumber current + 1) d in
      if Chunk.length chunk >? 0 then
        match fuel with
        | O => None
        | S fuel' =>
          read fuel' (set_currentChunk (Some chunk) self) length_arg
               (Some (mkReadBuffer finalBuffer (Some index))) d
        end
      else if index >? 0 then
        Some (Ok (mkReadBuffer finalBuffer (Some index)), self)
      else
        Some (Failed (Error "no chunks found for file, possibly corrupt"), self)
  end.

(** *** Moving the read/write head *)

Definition IO_SEEK_SET : Z := 0.
Definition IO_SEEK_CUR : Z := 1.
Definition IO_SEEK_END : Z := 2.

(** The [targetPosition] that [seek] computes. *)
Definition targetPosition (self : t) (position_arg : Z) (seekLocation : option Z) : Z :=
  let seekLocationFinal := or_default seekLocation IO_SEEK_SET in
  if seekLocationFinal =? IO_SEEK_CUR then position self + position_arg
  else if seekLocationFinal =? IO_SEEK_END then length self + position_arg
  else position_arg.

(** [self.currentChunk.position = x] *)
Definition move_cursor (x : Z) (c : Chunk.t) : Chunk.t :=
  Chunk.mk (Chunk.chunkNumber c) (Chunk.data c) x.

(** [GridStore.prototype.seek(position, seekLocation, callback)].
    [Math.floor(x / chunkSize)] and [x % chunkSize] are [Z.div] and [Z.rem]
    for a chunk size other than 0. *)
Definition seek (self : t) (position_arg : Z) (seekLocation : option Z) (d : Db)
  : Outcome unit * t * Db :=
  let target := targetPosition self position_arg seekLocation in
  (* Get the chunk *)
  let newChunkNumber := target `div` chunkSize self in
  match currentChunk self with
  | None => (Thrown TypeError, self, d)
  | Some current =>
    if negb (newChunkNumber =? Chunk.chunkNumber current) then
      let d :=
        if first_char_is "w" (mode self)
        then Collection.save_chunk (fileId self) current d
        else d in
      let chunk := nthChunk self newChunkNumber d in
      let self := set_position target (set_currentChunk (Some chunk) self) in
      (Ok (),
       set_currentChunk
         (Some (move_cursor (Z.rem (position self) (chunkSize self)) chunk)) self,
       d)
    else
      let self := set_position target self in
      (Ok (),
       set_currentChunk
         (Some (move_cursor (Z.rem (position self) (chunkSize self)) current)) self,
       d)
  end.

(** [GridStore.prototype.tell] *)
Definition tell (self : t) : Z := position self.

(** [GridStore.prototype.eof] *)
Definition eof (self : t) : bool := position self =? length self.

(** [GridStore.prototype.rewind].  In a read mode, away from chunk 0, the
    code calls [self.currentChunk(0, ...)]: the chunk object is not a
    function, and the call throws. *)
Definition rewind (self : t) (d : Db) : Outcome unit * t * Db :=
  match currentChunk self with
  | None => (Thrown TypeError, self, d)
  | Some current =>
    if negb (Chunk.chunkNumber current =? 0) then
      if first_char_is "w" (mode self) then
        let d := deleteChunks self d in
        let self := set_currentChunk (Some (Chunk.new (Some 0) None)) self in
        (Ok (), set_position 0 self, d)
      else (Thrown TypeError, self, d)
    else
      let self := set_currentChunk (Some (Chunk.rewind current)) self in
      (Ok (), set_position 0 self, d)
  end.

(** *** Removing and finding files *)

(** [GridStore.prototype.unlink] *)
Definition unlink (self : t) (d : Db) : Outcome unit * t * Db :=
  let d := deleteChunks self d in
  (Ok (), self, mkDb (Collection.remove (fileId self) (files d)) (chunks d)).

(** [GridStore.exist(db, fileIdObject, callback)]: a string is looked up
    as a file name, any other value as an identifier.  (A regular
    expression, which the code also takes for a name, is not among the
    values of [JsId].) *)
Definition exist (fileIdObject : JsId) (d : Db) : bool :=
  let found :=
    match fileIdObject with
    | IdString name => Collection.find (Collection.by_filename (Some name)) (files d)
    | IdObjectID _ => Collection.find (Collection.by_id (Some fileIdObject)) (files d)
    end in
  match found with
  | Some _ => true
  | None => false
  end.

(** What [GridStore.read] passes to its callback: what [open], [seek] or
    [read] pass, or one of its own messages, which are strings and not
    [Error] objects. *)
Inductive StaticReply : Type :=
  | Passed (o : Outcome ReadBuffer)
  | Message (text : string).

(** [x && ...] on a number: null, undefined and 0 are falsy. *)
Definition truthy (x : option Z) : bool :=
  match x with
  | Some n => negb (n =? 0)
  | None => false
  end.

(** [GridStore.read(db, name, length, offset, options, callback)]; the
    handle is made by [new GridStore(db, name, "r", options)], where the
    options stand in the place of the mode. *)
Definition read_static (fuel : nat) (database : WriteConcern.DbConfig)
    (name : option JsId) (length_arg offset : option Z) (options_arg : option Options)
    (fresh fresh' : N) (d : Db) : option StaticReply :=
  let mode_arg :=
    match options_arg with
    | Some o => ModeObject o
    | None => ModeNull
    end in
  match new database name (NameString "r") mode_arg None fresh with
  | inl e => Some (Passed (Thrown e))
  | inr gridStore =>
    match open gridStore d fresh' with
    | (Failed e, _, _) => Some (Passed (Failed e))
    | (Thrown e, _, _) => Some (Passed (Thrown e))
    | (Pending, _, _) => Some (Passed Pending)
    | (Ok _, gridStore, d) =>
      (* Make sure we are not reading out of bounds *)
      if truthy offset && (or_default offset 0 >=? length gridStore)
      then Some (Message "offset larger than size of file")
      else if truthy length_arg && (or_default length_arg 0 >? length gridStore)
      then Some (Message "length is larger than the size of the file")
      else if truthy offset && truthy length_arg
              && (or_default offset 0 + or_default length_arg 0 >? length gridStore)
      then Some (Message "offset and length is larger than the size of the file")
      else
        match offset with
        | Some off =>
          match seek gridStore off None d with
          | (Ok _, gridStore, d) =>
            match read fuel gridStore length_arg None d with
            | Some (o, _) => Some (Passed o)
            | None => None
            end
          | (Failed e, _, _) => Some (Passed (Failed e))
          | (Thrown e, _, _) => Some (Passed (Thrown e))
          | (Pending, _, _) => Some (Passed Pending)
          end
        | None =>
          match read fuel gridStore length_arg None d with
          | Some (o, _) => Some (Passed o)
          | None => None
          end
        end
    end
  end.

(** [GridStore.unlink(db, names, options, callback)] for [names] that is
    one name or identifier, not an array: the handle is made by
    [new GridStore(db, names, "w", options)], where the options stand in
    the place of the mode; without options, [{}] is passed. *)
Definition unlink_static (database : WriteConcern.DbConfig) (names : option JsId)
    (options_arg : option Options) (fresh fresh' : N) (d : Db)
  : Outcome unit * Db :=
  let options := or_default options_arg no_options in
  (* Get the write concern *)
  match WriteConcern._getWriteConcern StringToNumber database
          (opt_concern options) (opt_safe options) with
  | inl e => (Thrown e, d)
  | inr _ =>
    match new database names (NameString "w") (ModeObject options) None fresh with
    | inl e => (Thrown e, d)
    | inr gridStore =>
      match open gridStore d fresh' with
      | (Ok _, gridStore, d) =>
        let d := deleteChunks gridStore d in
        (Ok (), mkDb (Collection.remove (fileId gridStore) (files d)) (chunks d))
      | (Failed e, _, d) => (Failed e, d)
      | (Thrown e, _, d) => (Thrown e, d)
      | (Pending, _, d) => (Pending, d)
      end
    end
  end.

(** *** Lines *)

(** [text.split(separator)] for a separator that is a string: the text
    between the occurrences of the separator, found from left to right; an
    empty separator splits the text into its characters.  [skip] counts the
    characters of a separator found that are still to be passed over, and
    [item] is the text since the last one. *)
Fixpoint split_from (separator : string) (skip : nat) (item text : string)
  : list string :=
  match text with
  | EmptyString => [item]
  | String ch rest =>
    match skip with
    | S skip' => split_from separator skip' item rest
    | O =>
      if String.prefix separator text
      then item :: split_from separator (String.length separator - 1) "" rest
      else split_from separator 0 (item ++ String ch "")%string rest
    end
  end.

Definition split (separator text : string) : list string :=
  match separator with
  | EmptyString => (fun ch => String ch "") <$> list_ascii_of_string text
  | _ => split_from separator 0 "" text
  end.

(** [data.toString()] of a buffer and [new Buffer(data, 'binary')] of a
    string. *)
Variable toString : Buffer -> string.
Variable binary : string -> Buffer.

(** [GridStore.prototype.readlines(separator, callback)]; [None] for a call
    without a separator. *)
Definition readlines (fuel : nat) (self : t) (separator : option string) (d : Db)
  : option (Outcome (list string) * t) :=
  let separator := or_default separator (String "010" "") in
  match read fuel self None None d with
  | None => None
  | Some (Ok data, self) =>
    let items := split separator (toString (bytes data)) in
    let items := removelast items in
    Some (Ok ((fun item => (item ++ separator)%string) <$> items), self)
  | Some (Failed e, self) => Some (Failed e, self)
  | Some (Thrown e, self) => Some (Thrown e, self)
  | Some (Pending, self) => Some (Pending, self)
  end.

(** [string.match(/\n$/) != null]: the string ends with a newline. *)
Fixpoint ends_with_newline (text : string) : bool :=
  match text with
  | EmptyString => false
  | String ch EmptyString => bool_decide (ch = "010"%char)
  | String _ rest => ends_with_newline rest
  end.

(** [GridStore.prototype.puts(string, callback)]: [write] is called with
    the string and the callback, so that the file is not closed. *)
Definition puts (self : t) (text : string) (now : Z) (d : Db)
  : option (Outcome unit * t * Db) :=
  let finalString :=
    if ends_with_newline text then text else (text ++ String "010" "")%string in
  write self (binary finalString) false now d.

(** A run of [puts], each one started when the one before has called
    back; the run stops at the first that does not succeed. *)
Fixpoint puts_all (self : t) (texts : list string) (now : Z) (d : Db)
  : option (Outcome unit * t * Db) :=
  match texts with
  | [] => Some (Ok (), self, d)
  | text :: rest =>
    match puts self text now d with
    | Some (Ok _, self, d) => puts_all self rest now d
    | other => other
    end
  end.

(** *** The stream of a file *)

(** The closure variables of [GridStoreStream], with the handle [gs]. *)
Record Stream : Type := mkStream {
  gs : t;
  endCalled : bool;
  totalBytesToRead : Z;
  seekPosition : Z
}.

(** [GridStore.prototype.stream]: [new GridStoreStream(this)]. *)
Definition stream (self : t) : Stream :=
  mkStream self false (length self - position self) (position self).

(** [_read] of the stream: what is pushed, [None] for the null that ends
    the stream.  A read that fails calls back without a buffer.  (The
    buffers that [read] passes on all carry their [_index]; [or_default]
    stands for the property access.) *)
Definition stream_read (fuel : nat) (s : Stream) (d : Db)
  : option (Outcome (option Buffer) * Stream) :=
  (* Set read length *)
  let len :=
    if length (gs s) <? chunkSize (gs s)
    then length (gs s) - seekPosition s else chunkSize (gs s) in
  (* Read data *)
  match read fuel (gs s) (Some len) None d with
  | None => None
  | Some (o, self) =>
    let after := mkStream self (endCalled s) (totalBytesToRead s) (seekPosition s) in
    match o with
    | Thrown e => Some (Thrown e, after)
    | Pending => Some (Pending, after)
    | Failed _ => Some (Ok None, after)
    | Ok buffer =>
      (* Stream is closed *)
      if endCalled s then Some (Ok None, after)
      else
        let size := Z.of_nat (List.length (bytes buffer)) in
        (* Remove bytes read *)
        let '(pushed, total) :=
          if size <=? totalBytesToRead s
          then (bytes buffer, totalBytesToRead s - size)
          else
            let index := or_default (_index buffer) 0 in
            (Buf.slice (bytes buffer) 0 (Some index), totalBytesToRead s - index) in
        (* Finished reading *)
        Some (Ok (Some pushed), mkStream self (total <=? 0) total (seekPosition s))
    end
  end.

(** The stream in flowing mode: [_read] is called again after every
    buffer it pushes, until it pushes null; [pushed] collects the buffers
    in order.  [None] stands for a stream that has not ended after [calls]
    calls. *)
Fixpoint stream_run (calls fuel : nat) (s : Stream) (d : Db) (pushed : list Buffer)
  : option (Outcome (list Buffer) * Stream) :=
  match calls with
  | O => None
  | S calls' =>
    match stream_read fuel s d with
    | None => None
    | Some (Ok (Some buffer), s) => stream_run calls' fuel s d (pushed ++ [buffer])
    | Some (Ok None, s) => Some (Ok pushed, s)
    | Some (Failed e, s) => Some (Failed e, s)
    | Some (Thrown e, s) => Some (Thrown e, s)
    | Some (Pending, s) => Some (Pending, s)
    end
  end.

End WithEnvironment.
End GridStore.

(** ** The layout of a file in the chunk collection *)

Module Layout.

(** Piece [n] of a payload cut into pieces of [size] bytes. *)
Definition piece (size : nat) (payload : Buffer) (n : nat) : Buffer :=
  take size (drop (n * size) payload).

(** [ceil(len / size)] *)
Definition pieces (size len : Z) : Z := (len + size - 1) `div` size.

(** The chunk documents [docs] of a file hold exactly the pieces of
    [payload], numbered from 0 without gaps. *)
Definition stored (size : Z) (payload : Buffer) (docs : gmap Z Buffer) : Prop :=
  forall n : Z,
    docs !! n =
    if bool_decide (0 <= n /\ n * size < Z.of_nat (length payload))
    then Some (piece (Z.to_nat size) payload (Z.to_nat n))
    else None.

End Layout.

(** ** A write session *)

Module Session.

(** The handle and the database when the bytes [written] have gone
    through [write] since the file was opened for writing: the whole chunks
    are saved, the rest is buffered in the current chunk. *)
Definition in_progress (self : GridStore.t) (d : Db) (written : Buffer) : Prop :=
  exists q r : nat,
    let size := Z.to_nat (GridStore.chunkSize self) in
    length written = (q * size + r)%nat
    /\ (r < size)%nat
    /\ GridStore.first_char_is "w" (GridStore.mode self) = true
    /\ 1 <= GridStore.chunkSize self
    /\ GridStore.position self = Z.of_nat (length written)
    /\ GridStore.currentChunk self
       = Some (Chunk.mk (Z.of_nat q) (drop (q * size) written) (Z.of_nat r))
    /\ forall n : Z,
         Collection.chunks_of (GridStore.fileId self) d !! n =
         if bool_decide (0 <= n
                         /\ (n + 1) * GridStore.chunkSize self
                            <= Z.of_nat (length written))
         then Some (Layout.piece size written (Z.to_nat n))
         else None.

(** The same for a file opened to be appended to: the current chunk may
    be a stored one, loaded with what the file ended with, up to a whole
    chunk; its document in the database is then of no account. *)
Definition appending (self : GridStore.t) (d : Db) (written : Buffer) : Prop :=
  exists q r : nat,
    let size := Z.to_nat (GridStore.chunkSize self) in
    length written = (q * size + r)%nat
    /\ (r <= size)%nat
    /\ GridStore.first_char_is "w" (GridStore.mode self) = true
    /\ 1 <= GridStore.chunkSize self
    /\ GridStore.position self = Z.of_nat (length written)
    /\ GridStore.currentChunk self
       = Some (Chunk.mk (Z.of_nat q) (drop (q * size) written) (Z.of_nat r))
    /\ (forall n : Z,
          n <> Z.of_nat q ->
          Collection.chunks_of (GridStore.fileId self) d !! n =
          if bool_decide (0 <= n
                          /\ (n + 1) * GridStore.chunkSize self
                             <= Z.of_nat (length written))
          then Some (Layout.piece size written (Z.to_nat n))
          else None)
    /\ (r = 0%nat ->
        Collection.chunks_of (GridStore.fileId self) d !! Z.of_nat q = None).

(** A handle on the file [id] in read mode that looks the file up by its
    identifier. *)
Definition reader_of (id : option JsId) (self : GridStore.t) : Prop :=
  GridStore.mode self = "r"
  /\ GridStore.referenceBy self = GridStore.REFERENCE_BY_ID
  /\ GridStore.fileId self = id.

(** A handle in read mode on a stored file, with its head at byte [p]: the
    current chunk is the one that holds byte [p] (or the one that ends
    there), with its cursor on that byte. *)
Definition at_offset (self : GridStore.t) (d : Db) (payload : Buffer) (p : nat)
  : Prop :=
  exists k cur : nat,
    let size := Z.to_nat (GridStore.chunkSize self) in
    1 <= GridStore.chunkSize self
    /\ p = (k * size + cur)%nat
    /\ (cur <= length (Layout.piece size payload k))%nat
    /\ Layout.stored (GridStore.chunkSize self) payload
         (Collection.chunks_of (GridStore.fileId self) d)
    /\ GridStore.length self = Z.of_nat (length payload)
    /\ GridStore.position self = Z.of_nat p
    /\ GridStore.currentChunk self
       = Some (Chunk.mk (Z.of_nat k) (Layout.piece size payload k) (Z.of_nat cur)).

(** A handle on a stored file whose current chunk is the last one, read
    to its end. *)
Definition at_end (self : GridStore.t) (d : Db) (payload : Buffer) : Prop :=
  exists k : nat,
    let size := Z.to_nat (GridStore.chunkSize self) in
    1 <= GridStore.chunkSize self
    /\ Layout.stored (GridStore.chunkSize self) payload
         (Collection.chunks_of (GridStore.fileId self) d)
    /\ GridStore.length self = Z.of_nat (length payload)
    /\ (k * size + length (Layout.piece size payload k) = length payload)%nat
    /\ GridStore.currentChunk self
       = Some (Chunk.mk (Z.of_nat k) (Layout.piece size payload k)
                 (Z.of_nat (length (Layout.piece size payload k)))).

(** The file [id] is the same in two databases: the same chunk documents
    and the same documents in the files collection. *)
Definition untouched (id : option JsId) (d d' : Db) : Prop :=
  Collection.chunks_of id d' = Collection.chunks_of id d
  /\ List.filter (Collection.by_id id) (files d')
     = List.filter (Collection.by_id id) (files d).

End Session.

(** ** Cursor *)

Module Cursor.

Inductive State : Type := INIT | OPEN | CLOSED | GET_MORE.

#[global] Instance State_eq_dec : EqDecision State.
Proof. solve_decision. Defined.

(** What the callback of the core cursor's [next] receives: an error
    (with its [tailable] flag) or a document ([None] for null). *)
Inductive Fetched (Doc : Type) : Type :=
  | FetchError (tailable : bool) (e : JsError)
  | FetchDoc (doc : option Doc).
Arguments FetchError {Doc} tailable e.
Arguments FetchDoc {Doc} doc.

(** The [options] of the constructor. *)
Record Options : Type := mkOptions {
  opt_numberOfRetries : option Z;
  opt_tailableRetryInterval : option Z;
  opt_tailable : bool
}.

(** [x || dflt] on a number: 0 is falsy. *)
Definition number_or (x : option Z) (dflt : Z) : Z :=
  match x with
  | Some 0 | None => dflt
  | Some n => n
  end.

Section WithCore.

(** The cursor of mongodb-core that this one extends ([next], [isDead]),
    the documents it yields, sort specifications and
    [formattedOrderClause] of the driver's utils. *)
Context {Core Doc Order : Type}.
Variable core_next : Core -> Fetched Doc * Core.
Variable core_isDead : Core -> bool.
Variable formattedOrderClause : Order -> JsError + Order.
Variable pair_order : Order -> JsVal -> Order.   (* [[keyOrList, direction]] *)

(** The closure variables of the constructor and the fields of [cmd] that
    the methods below touch. *)
Record t : Type := mk {
  state : State;
  tailable : bool;
  numberOfRetries : Z;
  tailableRetryInterval : Z;
  currentNumberOfRetries : Z;
  orderby : option Order;
  limit_value : option Z;
  skip_value : option Z;
  batchSize_value : option Z;
  core : Core
}.

Definition new (options : Options) (c : Core) : t :=
  let retries := number_or (opt_numberOfRetries options) 5 in
  {| state := INIT;
     tailable := opt_tailable options;
     numberOfRetries := retries;
     tailableRetryInterval := number_or (opt_tailableRetryInterval options) 500;
     currentNumberOfRetries := retries;
     orderby := None;
     limit_value := None;
     skip_value := None;
     batchSize_value := None;
     core := c |}.

Definition set_state (v : State) (c : t) : t :=
  mk v (tailable c) (numberOfRetries c) (tailableRetryInterval c)
     (currentNumberOfRetries c) (orderby c) (limit_value c) (skip_value c)
     (batchSize_value c) (core c).

Definition set_currentNumberOfRetries (v : Z) (c : t) : t :=
  mk (state c) (tailable c) (numberOfRetries c) (tailableRetryInterval c)
     v (orderby c) (limit_value c) (skip_value c) (batchSize_value c) (core c).

Definition set_orderby (v : option Order) (c : t) : t :=
  mk (state c) (tailable c) (numberOfRetries c) (tailableRetryInterval c)
     (currentNumberOfRetries c) v (limit_value c) (skip_value c)
     (batchSize_value c) (core c).

Definition set_limit (v : option Z) (c : t) : t :=
  mk (state c) (tailable c) (numberOfRetries c) (tailableRetryInterval c)
     (currentNumberOfRetries c) (orderby c) v (skip_value c)
     (batchSize_value c) (core c).

Definition set_skip (v : option Z) (c : t) : t :=
  mk (state c) (tailable c) (numberOfRetries c) (tailableRetryInterval c)
     (currentNumberOfRetries c) (orderby c) (limit_value c) v
     (batchSize_value c) (core c).

Definition set_batchSize (v : option Z) (c : t) : t :=
  mk (state c) (tailable c) (numberOfRetries c) (tailableRetryInterval c)
     (currentNumberOfRetries c) (orderby c) (limit_value c) (skip_value c)
     v (core c).

Definition set_core (v : Core) (c : t) : t :=
  mk (state c) (tailable c) (numberOfRetries c) (tailableRetryInterval c)
     (currentNumberOfRetries c) (orderby c) (limit_value c) (skip_value c)
     (batchSize_value c) v.

Definition isDead (c : t) : bool := core_isDead (core c).

(** The core cursor after [n] calls of its [next]. *)
Fixpoint after_fetches (n : nat) (c : Core) : Core :=
  match n with
  | O => c
  | S n' => after_fetches n' (snd (core_next c))
  end.

(** The next [k] fetches all end in a tailable (transient) error. *)
Definition transient_failures (k : nat) (c : Core) : Prop :=
  forall i, (i < k)%nat ->
    exists e, fst (core_next (after_fetches i c)) = FetchError true e.

(** The core cursor is not dead before any of the next [k + 1] fetches. *)
Definition alive_for (k : nat) (c : Core) : Prop :=
  forall i, (i <= k)%nat -> core_isDead (after_fetches i c) = false.

(** No sort order is pending, or it is in the form the formatter returns
    unchanged. *)
Definition sort_ready (c : t) : Prop :=
  match orderby c with
  | None => True
  | Some o => state c <> INIT \/ formattedOrderClause o = inr o
  end.

(** What a call of [nextObject] passes to its callback, and the timeouts
    (in milliseconds) it waited through before doing so. *)
Record Answer : Type := mkAnswer {
  result : JsError + option Doc;
  waits : list Z
}.

(** [nextObject]; a retry is the recursive call, one per unit of fuel. *)
Fixpoint nextObject_loop (fuel : nat) (c : t) (waited : list Z)
  : option (Answer * t) :=
  if bool_decide (state c = CLOSED) || isDead c then
    Some (mkAnswer (inl (MongoError "Cursor is closed")) waited, c)
  else
    let formatted : JsError + t :=
      match state c, orderby c with
      | INIT, Some o =>
        match formattedOrderClause o with
        | inl err => inl err
        | inr o' => inr (set_orderby (Some o') c)
        end
      | _, _ => inr c
      end in
    match formatted with
    | inl err => Some (mkAnswer (inl err) waited, c)
    | inr c =>
      (* Get the next object *)
      let '(fetched, core') := core_next (core c) in
      let c := set_core core' c in
      match fetched with
      | FetchError true err =>
        if currentNumberOfRetries c =? 0 then
          Some (mkAnswer (inl err) waited, c)
        else if currentNumberOfRetries c >? 0 then
          let c := set_currentNumberOfRetries (currentNumberOfRetries c - 1) c in
          match fuel with
          | O => None
          | S fuel' =>
            nextObject_loop fuel' c (waited ++ [tailableRetryInterval c])
          end
        else Some (mkAnswer (inl err) waited, set_state OPEN c)
      | FetchError false err => Some (mkAnswer (inl err) waited, set_state OPEN c)
      | FetchDoc doc => Some (mkAnswer (inr doc) waited, set_state OPEN c)
      end
    end.

(** The retries left bound the recursion, so this fuel is never spent. *)
Definition nextObject (c : t) : option (Answer * t) :=
  nextObject_loop (Z.to_nat (currentNumberOfRetries c)) c [].

(** [typeof value != 'number'] fails for [JNum] only. *)
Definition as_number (value : JsVal) : option Z :=
  match value with
  | JNum n => Some n
  | _ => None
  end.

Definition limit (value : JsVal) (c : t) : JsError + t :=
  if tailable c then inl (Error "Tailable cursor doesn't support limit")
  else if bool_decide (state c = OPEN) || bool_decide (state c = CLOSED) || isDead c
  then inl (Error "Cursor is closed")
  else match as_number value with
       | None => inl (Error "limit requires an integer")
       | Some n => inr (set_limit (Some n) c)
       end.

Definition skip (value : JsVal) (c : t) : JsError + t :=
  if tailable c then inl (Error "Tailable cursor doesn't support skip")
  else if bool_decide (state c = OPEN) || bool_decide (state c = CLOSED) || isDead c
  then inl (Error "Cursor is closed")
  else match as_number value with
       | None => inl (Error "skip requires an integer")
       | Some n => inr (set_skip (Some n) c)
       end.

Definition batchSize (value : JsVal) (c : t) : JsError + t :=
  if tailable c then inl (Error "Tailable cursor doesn't support limit")
  else if bool_decide (state c = CLOSED) || isDead c
  then inl (Error "Cursor is closed")
  else match as_number value with
       | None => inl (Error "batchSize requires an integer")
       | Some n => inr (set_batchSize (Some n) c)
       end.

Definition sort (keyOrList : Order) (direction : JsVal) (c : t) : JsError + t :=
  if tailable c then inl (MongoError "Tailable cursor doesn't support sorting")
  else if bool_decide (state c = CLOSED) || bool_decide (state c = OPEN) || isDead c
  then inl (MongoError "Cursor is closed")
  else
    let order := if not_nullish direction then pair_order keyOrList direction
                 else keyOrList in
    inr (set_orderby (Some order) c).

(** *** Reading a cursor to its end *)

(** More of the core cursor: [bufferedCount], [readBufferedDocuments]
    and [kill]. *)
Variable core_bufferedCount : Core -> Z.
Variable core_readBufferedDocuments : Z -> Core -> list Doc * Core.
Variable core_kill : Core -> Core.

(** [fetchDocs] of [toArray]; the call for the next document is the
    recursive one, and [None] stands for a run that has not ended when the
    fuel is spent. *)
Fixpoint fetchDocs (fuel : nat) (c : t) (items : list Doc)
  : option ((JsError + list Doc) * t) :=
  let '(fetched, core') := core_next (core c) in
  let c := set_core core' c in
  match fetched with
  | FetchError _ err => Some (inl err, c)
  | FetchDoc None => Some (inr items, set_state CLOSED c)
  | FetchDoc (Some doc) =>
    (* Add doc to items *)
    let items := items ++ [doc] in
    (* Get all buffered objects *)
    let '(items, c) :=
      if core_bufferedCount (core c) >? 0 then
        let '(docs, core'') :=
          core_readBufferedDocuments (core_bufferedCount (core c)) (core c) in
        (items ++ docs, set_core core'' c)
      else (items, c) in
    (* Attempt a fetch *)
    match fuel with
    | O => None
    | S fuel' => fetchDocs fuel' c items
    end
  end.

Definition toArray (fuel : nat) (c : t) : option ((JsError + list Doc) * t) :=
  if tailable c
  then Some (inl (MongoError "Tailable cursor cannot be converted to array"), c)
  else if bool_decide (state c = CLOSED) || isDead c
  then Some (inl (MongoError "Cursor is closed"), c)
  else fetchDocs fuel c [].

(** What the callback of [each] is called with, call by call: an error,
    a document, or null at the end. *)
Definition reply (fetched : Fetched Doc) : JsError + option Doc :=
  match fetched with
  | FetchError _ err => inl err
  | FetchDoc doc => inr doc
  end.

(** The trampoline of [each]: [loop] hands the callback to the core
    cursor's [next] as long as documents are buffered. *)
Fixpoint drain (fuel : nat) (c : t) (calls : list (JsError + option Doc))
  : option (list (JsError + option Doc) * t) :=
  if core_bufferedCount (core c) =? 0 then Some (calls, c)
  else
    match fuel with
    | O => None
    | S fuel' =>
      let '(fetched, core') := core_next (core c) in
      drain fuel' (set_core core' c) (calls ++ [reply fetched])
    end.

(** [each]; the call of itself is the recursive one. *)
Fixpoint each (fuel : nat) (c : t) (calls : list (JsError + option Doc))
  : option (list (JsError + option Doc) * t) :=
  if bool_decide (state c = CLOSED) || isDead c
  then Some (calls ++ [inl (MongoError "Cursor is closed")], c)
  else if core_bufferedCount (core c) >? 0 then
    (* Trampoline all the entries *)
    match fuel with
    | O => None
    | S fuel' =>
      match drain fuel c calls with
      | None => None
      | Some (calls, c) => each fuel' c calls
      end
    end
  else
    let '(fetched, core') := core_next (core c) in
    let c := set_core core' c in
    match fetched with
    | FetchError _ err => Some (calls ++ [inl err], c)
    | FetchDoc None => Some (calls ++ [inr None], c)
    | FetchDoc (Some item) =>
      match fuel with
      | O => None
      | S fuel' => each fuel' c (calls ++ [inr (Some item)])
      end
    end.

(** [close]: the state is set, the core cursor is killed. *)
Definition close (c : t) : t :=
  let c := set_state CLOSED c in
  set_core (core_kill (core c)) c.

(** [_read] of the stream interface: what is pushed ([None] for the null
    that ends the stream); [transform] is [streamOptions.transform] when
    it is a function.  [destroy] is [pause] and [close]. *)
Definition _read (transform : option (Doc -> Doc)) (c : t)
  : option (option Doc * t) :=
  if bool_decide (state c = CLOSED) || isDead c then Some (None, c)
  else
    (* Get the next item *)
    match nextObject c with
    | None => None
    | Some (answer, c) =>
      match result answer with
      | inl _ => Some (None, close c)
      | inr (Some doc) =>
        match transform with
        | Some f => Some (Some (f doc), c)
        | None => Some (Some doc, c)
        end
      | inr None => Some (None, c)
      end
    end.

(** The cursor as a stream in flowing mode: [_read] is called again after
    every document it pushes, until it pushes null; [pushed] collects the
    documents in order.  [None] stands for a stream that has not ended
    after [calls] calls. *)
Fixpoint stream_run (calls : nat) (transform : option (Doc -> Doc)) (c : t)
    (pushed : list Doc) : option (list Doc * t) :=
  match calls with
  | O => None
  | S calls' =>
    match _read transform c with
    | None => None
    | Some (Some doc, c) => stream_run calls' transform c (pushed ++ [doc])
    | Some (None, c) => Some (pushed, c)
    end
  end.

End WithCore.
End Cursor.

(** ** Concrete inputs used by the examples below *)

Module Examples.

(** A runtime in which no string denotes a number. *)
Definition no_number (s : string) : option Z := None.

(** A core cursor, as the pair of the number of fetches that will end in
    a tailable error and the number of fetches made so far; every later
    fetch yields the document [7]. *)
Definition flaky_next (core : nat * nat) : Cursor.Fetched Z * (nat * nat) :=
  (if (snd core <? fst core)%nat
   then Cursor.FetchError true (MongoError "No more documents in tailed cursor")
   else Cursor.FetchDoc (Some 7),
   (fst core, S (snd core))).

Definition never_dead (core : nat * nat) : bool := false.

(** Sort specifications as strings, left as they are by the formatter. *)
Definition keep_order (o : string) : JsError + string := inr o.

Definition plain_options : Cursor.Options :=
  Cursor.mkOptions None None false.

Definition retry_options (n : Z) : Cursor.Options :=
  Cursor.mkOptions (Some n) None true.

(** A cursor that has delivered its first document. *)
Definition opened_cursor : @Cursor.t (nat * nat) string :=
  Cursor.set_state Cursor.OPEN (Cursor.new plain_options (0, 1)%nat).

Definition closed_cursor : @Cursor.t (nat * nat) string :=
  Cursor.set_state Cursor.CLOSED (Cursor.new plain_options (0, 1)%nat).

(** The options [{w: 0, fsync: true}]. *)
Definition w0_fsync : WriteConcern.Source :=
  WriteConcern.mkSource (JNum 0) JUndefined JUndefined (JBool true) JUndefined.

Definition unsafe_options : GridStore.Options :=
  GridStore.mkOptions None None None None None None None
                      w0_fsync WriteConcern.SafeUndefined.

Definition plain_db : WriteConcern.DbConfig :=
  WriteConcern.mkDbConfig (Some WriteConcern.no_source) (WriteConcern.SafeBool true).

(** No checksum is reported, and identifiers print as the empty string. *)
Definition no_md5 (docs : gmap Z Buffer) : option string := None.
Definition no_hex (n : N) : string := "".

Definition empty_db : Db := mkDb [] ∅.

(** The options [{chunk_size: 4}]. *)
Definition chunks_of_four : GridStore.Options :=
  GridStore.mkOptions None None (Some 4) None None None None
                      WriteConcern.no_source WriteConcern.SafeUndefined.

(** A handle before its constructor has run. *)
Definition blank : GridStore.t :=
  GridStore.mk plain_db 0 None None "r" GridStore.no_options false "fs" 0
               "primary" (WriteConcern.only_w 1) 4 None None None 0 None None None.

Definition constructed (r : JsError + GridStore.t) : GridStore.t :=
  match r with
  | inr self => self
  | inl _ => blank
  end.

Definition handle_of {A : Type} (r : option (GridStore.Outcome A * GridStore.t * Db))
  : GridStore.t :=
  match r with
  | Some (_, self, _) => self
  | None => blank
  end.

Definition db_of {A : Type} (r : option (GridStore.Outcome A * GridStore.t * Db))
  : Db :=
  match r with
  | Some (_, _, d) => d
  | None => empty_db
  end.

(** [new GridStore(db, ObjectID(1), "w", {chunk_size: 4})], opened. *)
Definition writer_created : GridStore.t :=
  constructed (GridStore.new no_number 261120 plain_db (Some (IdObjectID 1))
                 GridStore.NameUndefined (GridStore.ModeString "w")
                 (Some chunks_of_four) 2%N).

Definition writer_opened : option (GridStore.Outcome unit * GridStore.t * Db) :=
  Some (GridStore.open no_number no_hex writer_created empty_db 3%N).

Definition writer : GridStore.t := handle_of writer_opened.

Definition hello_world : Buffer := list_byte_of_string "hello world".
Definition abcd : Buffer := list_byte_of_string "abcd".

(** [abcd] is written, then the file is closed at time 1000 and once more
    at time 2000. *)
Definition abcd_written := GridStore.write no_md5 writer abcd false 0 empty_db.
Definition abcd_closed :=
  Some (GridStore.close no_md5 (handle_of abcd_written) 1000 (db_of abcd_written)).
Definition abcd_closed_again :=
  Some (GridStore.close no_md5 (handle_of abcd_closed) 2000 (db_of abcd_closed)).

(** The file is closed with nothing written. *)
Definition nothing_closed :=
  Some (GridStore.close no_md5 writer 1000 (db_of writer_opened)).

(** [hello world] is written in two parts, then the file is closed. *)
Definition hello_written :=
  GridStore.write_all no_md5 writer
    [list_byte_of_string "hello "; list_byte_of_string "world"] 0
    (db_of writer_opened).
Definition hello_closed :=
  Some (GridStore.close no_md5 (handle_of hello_written) 1000 (db_of hello_written)).

(** [new GridStore(db, ObjectID(1), "r")] *)
Definition reader_created : GridStore.t :=
  constructed (GridStore.new no_number 261120 plain_db (Some (IdObjectID 1))
                 GridStore.NameUndefined (GridStore.ModeString "r") None 4%N).

(** The reader opened on the file that was closed with nothing written. *)
Definition reader_of_nothing :=
  Some (GridStore.open no_number no_hex reader_created (db_of nothing_closed) 5%N).

(** A file of 8 bytes in chunks of 4 whose chunk 1 is missing. *)
Definition gap_db : Db :=
  mkDb [mkFileDoc (Some (IdObjectID 1)) None (Some "binary/octet-stream") 8 4
                  (Some 1000) None None None]
       {[ Some (IdObjectID 1) := {[ 0 := abcd ]} ]}.

Definition reader_on_gap :=
  Some (GridStore.open no_number no_hex reader_created gap_db 5%N).

(** The reader opened on the file that holds [hello world]. *)
Definition hello_db : Db := db_of hello_closed.
Definition hello_reader : GridStore.t :=
  handle_of (Some (GridStore.open no_number no_hex reader_created hello_db 5%N)).

(** The document of that file in the files collection. *)
Definition hello_doc : FileDoc :=
  mkFileDoc (Some (IdObjectID 1)) None (Some "binary/octet-stream") 11 4
            (Some 1000) None None None.

(** That reader after [seek(6)]. *)
Definition hello_reader_moved : GridStore.t :=
  (GridStore.seek hello_reader 6 None hello_db).1.2.

(** A core cursor over a list of documents that keeps up to two of them
    buffered and never dies. *)
Definition list_next (core : list Z) : Cursor.Fetched Z * list Z :=
  (Cursor.FetchDoc (head core), tail core).
Definition list_bufferedCount (core : list Z) : Z :=
  Z.of_nat (Nat.min 2 (length core)).
Definition list_readBufferedDocuments (n : Z) (core : list Z) : list Z * list Z :=
  (take (Z.to_nat n) core, drop (Z.to_nat n) core).
Definition list_isDead (core : list Z) : bool := false.
Definition list_kill (core : list Z) : list Z := [].

Definition list_cursor (docs : list Z) : @Cursor.t (list Z) string :=
  Cursor.new plain_options docs.

(** [new GridStore(db, ObjectID(1), "w+")] *)
Definition appender_created : GridStore.t :=
  constructed (GridStore.new no_number 261120 plain_db (Some (IdObjectID 1))
                 GridStore.NameUndefined (GridStore.ModeString "w+") None 6%N).

(** [abcdef] is written in chunks of four bytes, [seek(1)] goes back into
    the first chunk, and one byte is written there. *)
Definition abcdef : Buffer := list_byte_of_string "abcdef".
Definition abcdef_written :=
  GridStore.write no_md5 writer abcdef false 0 (db_of writer_opened).
Definition writer_moved_back :=
  Some (GridStore.seek (handle_of abcdef_written) 1 None (db_of abcdef_written)).
Definition overwritten :=
  GridStore.write no_md5 (handle_of writer_moved_back) (list_byte_of_string "X")
    false 0 (db_of writer_moved_back).

End Examples.

(** * Properties *)

(** ** Write concern *)

Section WriteConcernFacts.

Variable StringToNumber : string -> option Z.

Lemma setWriteConcernHash_invalid (o : WriteConcern.Source) :
  not_nullish (WriteConcern.src_w o) = true ->
  WriteConcern.lt_one StringToNumber (WriteConcern.src_w o) = true ->
  WriteConcern.loose_eq_true StringToNumber (WriteConcern.src_fsync o) = true
  \/ WriteConcern.loose_eq_true StringToNumber (WriteConcern.src_j o) = true
  \/ WriteConcern.loose_eq_true StringToNumber (WriteConcern.src_journal o) = true ->
  WriteConcern.invalid_combination StringToNumber
    (WriteConcern._setWriteConcernHash StringToNumber o) = true.
Proof.
  intros Hw Hlt Hflag.
  unfold WriteConcern.invalid_combination, WriteConcern._setWriteConcernHash; simpl.
  rewrite Hw, Hlt; simpl.
  destruct (WriteConcern.loose_eq_true StringToNumber (WriteConcern.src_j o)) eqn:Hj;
    [ rewrite Hj; reflexivity | ].
  destruct (WriteConcern.loose_eq_true StringToNumber (WriteConcern.src_journal o)) eqn:Hjo;
    [ rewrite Hjo; reflexivity | ].
  destruct Hflag as [Hf | [Hf | Hf]]; try discriminate.
  rewrite Hf, Hf. reflexivity.
Qed.

Lemma getWriteConcern_invalid db (o : WriteConcern.Source) safe :
  not_nullish (WriteConcern.src_w o) = true ->
  WriteConcern.lt_one StringToNumber (WriteConcern.src_w o) = true ->
  WriteConcern.loose_eq_true StringToNumber (WriteConcern.src_fsync o) = true
  \/ WriteConcern.loose_eq_true StringToNumber (WriteConcern.src_j o) = true
  \/ WriteConcern.loose_eq_true StringToNumber (WriteConcern.src_journal o) = true ->
  WriteConcern._getWriteConcern StringToNumber db o safe = inl WriteConcern.ConfigError.
Proof.
  intros Hw Hlt Hflag.
  unfold WriteConcern._getWriteConcern, WriteConcern.select_final,
    WriteConcern.has_concern.
  rewrite Hw; simpl.
  rewrite setWriteConcernHash_invalid by assumption. reflexivity.
Qed.

End WriteConcernFacts.

(** C9: an options object whose acknowledgement level [w] is below 1 and
    whose [fsync], [j] or [journal] flag is true makes [_getWriteConcern]
    throw the configuration error, and with it the [GridStore] constructor,
    whether the options come as the fifth argument or in the place of the
    mode. *)
Theorem unacknowledged_sync_is_rejected
    (StringToNumber : string -> option Z) (DEFAULT_CHUNK_SIZE : Z)
    (db : WriteConcern.DbConfig) (o : GridStore.Options) :
  not_nullish (WriteConcern.src_w (GridStore.opt_concern o)) = true ->
  WriteConcern.lt_one StringToNumber
    (WriteConcern.src_w (GridStore.opt_concern o)) = true ->
  WriteConcern.loose_eq_true StringToNumber
    (WriteConcern.src_fsync (GridStore.opt_concern o)) = true
  \/ WriteConcern.loose_eq_true StringToNumber
       (WriteConcern.src_j (GridStore.opt_concern o)) = true
  \/ WriteConcern.loose_eq_true StringToNumber
       (WriteConcern.src_journal (GridStore.opt_concern o)) = true ->
  (forall safe,
     WriteConcern._getWriteConcern StringToNumber db (GridStore.opt_concern o) safe
     = inl WriteConcern.ConfigError)
  /\ (forall id filename m fresh,
        GridStore.new StringToNumber DEFAULT_CHUNK_SIZE db id filename
          (GridStore.ModeString m) (Some o) fresh
        = inl WriteConcern.ConfigError)
  /\ (forall id m options_arg fresh,
        GridStore.new StringToNumber DEFAULT_CHUNK_SIZE db id
          (GridStore.NameString m) (GridStore.ModeObject o) options_arg fresh
        = inl WriteConcern.ConfigError).
Proof.
  intros Hw Hlt Hflag.
  assert (Hget : forall safe,
    WriteConcern._getWriteConcern StringToNumber db (GridStore.opt_concern o) safe
    = inl WriteConcern.ConfigError)
    by (intros safe; apply getWriteConcern_invalid; assumption).
  split; [exact Hget | split].
  - intros id filename m fresh. unfold GridStore.new; simpl.
    destruct id as [[n | s] | ]; destruct filename; simpl; rewrite Hget; reflexivity.
  - intros id m options_arg fresh. unfold GridStore.new; simpl.
    destruct id as [[n | s] | ]; simpl; rewrite Hget; reflexivity.
Qed.

Lemma unacknowledged_sync_is_rejected_witness :
  GridStore.new Examples.no_number 261120 Examples.plain_db
    (Some (IdString "report.txt")) GridStore.NameUndefined
    (GridStore.ModeString "w") (Some Examples.unsafe_options) 1%N
  = inl WriteConcern.ConfigError.
Proof.
  apply (unacknowledged_sync_is_rejected Examples.no_number 261120
           Examples.plain_db Examples.unsafe_options);
    [ reflexivity | reflexivity | left; reflexivity ].
Defined.

(** ** The chunkSize property *)

Lemma set_internalChunkSize_same (self : GridStore.t) :
  GridStore.set_internalChunkSize (GridStore.internalChunkSize self) self = self.
Proof. destruct self; reflexivity. Qed.

(** C6: an assignment to [chunkSize] on a handle that is not in a write
    mode, or whose position is not 0, or that has an upload date, leaves
    the handle as it was; the setter is a total function, so nothing is
    raised.  Only a write-mode handle at position 0 without upload date
    takes the new value. *)
Theorem chunkSize_is_write_once (self : GridStore.t) (value : Z) :
  (GridStore.first_char_is "w" (GridStore.mode self) = false
   \/ GridStore.position self <> 0
   \/ GridStore.uploadDate self <> None ->
   GridStore.set_chunkSize value self = self)
  /\ (GridStore.first_char_is "w" (GridStore.mode self) = true ->
      GridStore.position self = 0 ->
      GridStore.uploadDate self = None ->
      GridStore.set_chunkSize value self
      = GridStore.set_internalChunkSize value self)
  /\ (GridStore.chunkSize (GridStore.set_chunkSize value self)
      <> GridStore.chunkSize self ->
      GridStore.first_char_is "w" (GridStore.mode self) = true
      /\ GridStore.position self = 0
      /\ GridStore.uploadDate self = None).
Proof.
  unfold GridStore.set_chunkSize.
  destruct (GridStore.first_char_is "w" (GridStore.mode self)) eqn:Hm;
    destruct (Z.eqb_spec (GridStore.position self) 0) as [Hp | Hp];
    destruct (bool_decide_reflect (GridStore.uploadDate self = None)) as [Hu | Hu];
    simpl; rewrite ?set_internalChunkSize_same;
    (split; [ | split ]);
    try (intros; reflexivity);
    try (intros [? | [? | ?]]; congruence);
    try (intros; congruence);
    try (intros; repeat split; congruence);
    try (unfold GridStore.chunkSize; intros Hne; exfalso; apply Hne; reflexivity).
Qed.

(** ** Cursor: the query-shape mutators *)

Section CursorMutators.

Context {Core Order : Type}.
Variable core_isDead : Core -> bool.
Variable pair_order : Order -> JsVal -> Order.

Lemma limit_refused (c : @Cursor.t Core Order) value :
  Cursor.tailable c = true \/ Cursor.state c = Cursor.OPEN
  \/ Cursor.state c = Cursor.CLOSED \/ Cursor.isDead core_isDead c = true ->
  throws (Cursor.limit core_isDead value c).
Proof.
  unfold Cursor.limit, throws. intros H.
  destruct (Cursor.tailable c); [eauto | ].
  destruct H as [H | [H | [H | H]]]; try discriminate; rewrite H; simpl; eauto.
  rewrite orb_true_r. eauto.
Qed.

Lemma skip_refused (c : @Cursor.t Core Order) value :
  Cursor.tailable c = true \/ Cursor.state c = Cursor.OPEN
  \/ Cursor.state c = Cursor.CLOSED \/ Cursor.isDead core_isDead c = true ->
  throws (Cursor.skip core_isDead value c).
Proof.
  unfold Cursor.skip, throws. intros H.
  destruct (Cursor.tailable c); [eauto | ].
  destruct H as [H | [H | [H | H]]]; try discriminate; rewrite H; simpl; eauto.
  rewrite orb_true_r. eauto.
Qed.

Lemma sort_refused (c : @Cursor.t Core Order) key direction :
  Cursor.tailable c = true \/ Cursor.state c = Cursor.OPEN
  \/ Cursor.state c = Cursor.CLOSED \/ Cursor.isDead core_isDead c = true ->
  throws (Cursor.sort core_isDead pair_order key direction c).
Proof.
  unfold Cursor.sort, throws. intros H.
  destruct (Cursor.tailable c); [eauto | ].
  destruct H as [H | [H | [H | H]]]; try discriminate; rewrite H; simpl; eauto.
  rewrite orb_true_r. eauto.
Qed.

Lemma batchSize_refused (c : @Cursor.t Core Order) value :
  Cursor.tailable c = true
  \/ Cursor.state c = Cursor.CLOSED \/ Cursor.isDead core_isDead c = true ->
  throws (Cursor.batchSize core_isDead value c).
Proof.
  unfold Cursor.batchSize, throws. intros H.
  destruct (Cursor.tailable c); [eauto | ].
  destruct H as [H | [H | H]]; try discriminate; rewrite H; simpl; eauto.
  rewrite orb_true_r. eauto.
Qed.

Lemma batchSize_accepted_while_open (c : @Cursor.t Core Order) n :
  Cursor.tailable c = false ->
  Cursor.state c = Cursor.OPEN ->
  Cursor.isDead core_isDead c = false ->
  Cursor.batchSize core_isDead (JNum n) c = inr (Cursor.set_batchSize (Some n) c).
Proof.
  unfold Cursor.batchSize. intros Ht Hs Hd. rewrite Ht, Hs, Hd. reflexivity.
Qed.

(** C7, as the code has it: [limit], [skip] and [sort] throw on a tailable
    cursor and on a cursor that is open, closed or dead; [batchSize] throws
    on a tailable cursor and on a closed or dead one, and is accepted, with
    a number, while the cursor is open. *)
Theorem mutators_refused (c : @Cursor.t Core Order) value key direction :
  (Cursor.tailable c = true \/ Cursor.state c = Cursor.OPEN
   \/ Cursor.state c = Cursor.CLOSED \/ Cursor.isDead core_isDead c = true ->
   throws (Cursor.limit core_isDead value c)
   /\ throws (Cursor.skip core_isDead value c)
   /\ throws (Cursor.sort core_isDead pair_order key direction c))
  /\ (Cursor.tailable c = true
      \/ Cursor.state c = Cursor.CLOSED \/ Cursor.isDead core_isDead c = true ->
      throws (Cursor.batchSize core_isDead value c))
  /\ (forall n,
        Cursor.tailable c = false ->
        Cursor.state c = Cursor.OPEN ->
        Cursor.isDead core_isDead c = false ->
        Cursor.batchSize core_isDead (JNum n) c
        = inr (Cursor.set_batchSize (Some n) c)).
Proof.
  split; [ | split ].
  - intros H. auto using limit_refused, skip_refused, sort_refused.
  - apply batchSize_refused.
  - intros n. apply batchSize_accepted_while_open.
Qed.

End CursorMutators.

(** C7, as stated, fails: a cursor that has delivered a document (state
    OPEN) still takes a new batch size. *)
Lemma batchSize_on_open_cursor :
  Cursor.state Examples.opened_cursor <> Cursor.INIT
  /\ Cursor.batchSize Examples.never_dead (JNum 10) Examples.opened_cursor
     = inr (Cursor.set_batchSize (Some 10) Examples.opened_cursor).
Proof. split; [ discriminate | reflexivity ]. Qed.

Lemma mutators_refused_witness :
  throws (Cursor.limit Examples.never_dead (JNum 10) Examples.closed_cursor)
  /\ throws (Cursor.batchSize Examples.never_dead (JNum 10) Examples.closed_cursor).
Proof.
  pose proof (mutators_refused Examples.never_dead (fun o _ => o)
                Examples.closed_cursor (JNum 10) "name"%string JNull) as [H1 [H2 _]].
  split.
  - apply H1. right; right; left; reflexivity.
  - apply H2. right; left; reflexivity.
Defined.

(** ** Cursor: retries of nextObject *)

Section CursorRetries.

Context {Core Doc Order : Type}.
Variable core_next : Core -> Cursor.Fetched Doc * Core.
Variable core_isDead : Core -> bool.
Variable formattedOrderClause : Order -> JsError + Order.

Local Abbreviation loop := (Cursor.nextObject_loop core_next core_isDead formattedOrderClause).
Local Abbreviation after := (Cursor.after_fetches core_next).
Local Abbreviation sort_ready := (Cursor.sort_ready formattedOrderClause).

(** One turn of [nextObject] on a live cursor whose sort order needs no
    work: the fetch decides. *)
Lemma loop_turn fuel (c : @Cursor.t Core Order) waited :
  Cursor.state c <> Cursor.CLOSED ->
  core_isDead (Cursor.core c) = false ->
  sort_ready c ->
  loop fuel c waited =
  let c1 := Cursor.set_core (snd (core_next (Cursor.core c))) c in
  match fst (core_next (Cursor.core c)) with
  | Cursor.FetchError true err =>
    if Cursor.currentNumberOfRetries c =? 0 then
      Some (Cursor.mkAnswer (inl err) waited, c1)
    else if Cursor.currentNumberOfRetries c >? 0 then
      match fuel with
      | O => None
      | S fuel' =>
        loop fuel'
          (Cursor.set_currentNumberOfRetries (Cursor.currentNumberOfRetries c - 1) c1)
          (waited ++ [Cursor.tailableRetryInterval c])
      end
    else Some (Cursor.mkAnswer (inl err) waited, Cursor.set_state Cursor.OPEN c1)
  | Cursor.FetchError false err =>
    Some (Cursor.mkAnswer (inl err) waited, Cursor.set_state Cursor.OPEN c1)
  | Cursor.FetchDoc doc =>
    Some (Cursor.mkAnswer (inr doc) waited, Cursor.set_state Cursor.OPEN c1)
  end.
Proof.
  intros Hstate Hdead Hsort.
  assert (Hfmt :
    match Cursor.state c, Cursor.orderby c with
    | Cursor.INIT, Some o =>
      match formattedOrderClause o with
      | inl err => inl err
      | inr o' => inr (Cursor.set_orderby (Some o') c)
      end
    | _, _ => inr c
    end = inr c).
  { unfold Cursor.sort_ready in Hsort.
    destruct c as [st tl nr ri cr ob lv sv bv co]; simpl in *.
    destruct st, ob as [o | ]; try reflexivity.
    destruct Hsort as [Hne | Heq]; [ congruence | rewrite Heq; reflexivity ]. }
  destruct fuel; simpl; unfold Cursor.isDead;
    rewrite Hdead, Hfmt;
    (destruct (bool_decide_reflect (Cursor.state c = Cursor.CLOSED)); [ contradiction | ]);
    simpl; destruct (core_next (Cursor.core c)) as [[[ | ] err | doc] core'];
    reflexivity.
Qed.

(** The fuel [nextObject] starts with is enough. *)
Lemma loop_total fuel : forall (c : @Cursor.t Core Order) waited,
  Cursor.currentNumberOfRetries c <= Z.of_nat fuel ->
  exists r, loop fuel c waited = Some r.
Proof.
  induction fuel as [ | fuel IH]; intros c waited Hfuel; simpl.
  - destruct (bool_decide (Cursor.state c = Cursor.CLOSED) || Cursor.isDead core_isDead c);
      [ eauto | ].
    destruct (match Cursor.state c, Cursor.orderby c with
              | Cursor.INIT, Some o => _ | _, _ => _ end) as [err | c1] eqn:Hf; [ eauto | ].
    assert (Hr : Cursor.currentNumberOfRetries c1 = Cursor.currentNumberOfRetries c).
    { destruct (Cursor.state c), (Cursor.orderby c) as [o | ]; try (inversion Hf; reflexivity).
      destruct (formattedOrderClause o); inversion Hf; reflexivity. }
    destruct (core_next (Cursor.core c1)) as [[[ | ] err | doc] core']; simpl; eauto.
    rewrite Hr.
    destruct (Z.eqb_spec (Cursor.currentNumberOfRetries c) 0); [ eauto | ].
    destruct (Z.gtb_spec (Cursor.currentNumberOfRetries c) 0); [ lia | eauto ].
  - destruct (bool_decide (Cursor.state c = Cursor.CLOSED) || Cursor.isDead core_isDead c);
      [ eauto | ].
    destruct (match Cursor.state c, Cursor.orderby c with
              | Cursor.INIT, Some o => _ | _, _ => _ end) as [err | c1] eqn:Hf; [ eauto | ].
    assert (Hr : Cursor.currentNumberOfRetries c1 = Cursor.currentNumberOfRetries c).
    { destruct (Cursor.state c), (Cursor.orderby c) as [o | ]; try (inversion Hf; reflexivity).
      destruct (formattedOrderClause o); inversion Hf; reflexivity. }
    destruct (core_next (Cursor.core c1)) as [[[ | ] err | doc] core']; simpl; eauto.
    rewrite Hr.
    destruct (Z.eqb_spec (Cursor.currentNumberOfRetries c) 0); [ eauto | ].
    destruct (Z.gtb_spec (Cursor.currentNumberOfRetries c) 0); [ | eauto ].
    apply IH. simpl. lia.
Qed.

Lemma nextObject_total (c : @Cursor.t Core Order) :
  exists r, Cursor.nextObject core_next core_isDead formattedOrderClause c = Some r.
Proof. apply loop_total. lia. Qed.

Lemma set_retries_same (c : @Cursor.t Core Order) r core' st :
  r = Cursor.currentNumberOfRetries c ->
  Cursor.set_state st (Cursor.set_currentNumberOfRetries r (Cursor.set_core core' c))
  = Cursor.set_state st (Cursor.set_core core' c).
Proof. intros ->. destruct c; reflexivity. Qed.

(** [k] transient failures within the retries left, then a document. *)
Lemma loop_after_failures k : forall fuel (c : @Cursor.t Core Order) waited doc,
  (k <= fuel)%nat ->
  Cursor.state c <> Cursor.CLOSED ->
  sort_ready c ->
  Z.of_nat k <= Cursor.currentNumberOfRetries c ->
  Cursor.transient_failures core_next k (Cursor.core c) ->
  Cursor.alive_for core_next core_isDead k (Cursor.core c) ->
  fst (core_next (after k (Cursor.core c))) = Cursor.FetchDoc doc ->
  loop fuel c waited =
  Some (Cursor.mkAnswer (inr doc)
          (waited ++ replicate k (Cursor.tailableRetryInterval c)),
        Cursor.set_state Cursor.OPEN
          (Cursor.set_currentNumberOfRetries
             (Cursor.currentNumberOfRetries c - Z.of_nat k)
             (Cursor.set_core (after (S k) (Cursor.core c)) c))).
Proof.
  induction k as [ | k IH]; intros fuel c waited doc Hfuel Hstate Hsort Hr Hfail Halive Hdoc.
  - rewrite loop_turn by (auto; apply (Halive 0%nat); lia).
    simpl in *. rewrite Hdoc. simpl. rewrite app_nil_r.
    rewrite set_retries_same by lia. reflexivity.
  - destruct (Hfail 0%nat ltac:(lia)) as [e He]. simpl in He.
    rewrite loop_turn by (auto; apply (Halive 0%nat); lia).
    rewrite Nat2Z.inj_succ in *.
    cbn zeta. rewrite He.
    destruct (Z.eqb_spec (Cursor.currentNumberOfRetries c) 0) as [ | _]; [ lia | ].
    destruct (Z.gtb_spec (Cursor.currentNumberOfRetries c) 0) as [ _ | ]; [ | lia ].
    destruct fuel as [ | fuel]; [ lia | ].
    rewrite (IH fuel _ _ doc); simpl.
    + rewrite <- app_assoc. simpl.
      do 2 f_equal. destruct c.
      unfold Cursor.set_state, Cursor.set_currentNumberOfRetries, Cursor.set_core; simpl.
      f_equal. lia.
    + lia.
    + assumption.
    + unfold Cursor.sort_ready in *. destruct c; simpl in *. assumption.
    + lia.
    + intros i Hi. apply (Hfail (S i)). lia.
    + intros i Hi. apply (Halive (S i)). lia.
    + exact Hdoc.
Qed.

(** One transient failure more than there are retries left. *)
Lemma loop_exhausted k : forall fuel (c : @Cursor.t Core Order) waited,
  (k <= fuel)%nat ->
  Cursor.state c <> Cursor.CLOSED ->
  sort_ready c ->
  Cursor.currentNumberOfRetries c = Z.of_nat k ->
  Cursor.transient_failures core_next (S k) (Cursor.core c) ->
  Cursor.alive_for core_next core_isDead k (Cursor.core c) ->
  exists e,
    fst (core_next (after k (Cursor.core c))) = Cursor.FetchError true e
    /\ loop fuel c waited =
       Some (Cursor.mkAnswer (inl e)
               (waited ++ replicate k (Cursor.tailableRetryInterval c)),
             Cursor.set_currentNumberOfRetries 0
               (Cursor.set_core (after (S k) (Cursor.core c)) c)).
Proof.
  induction k as [ | k IH]; intros fuel c waited Hfuel Hstate Hsort Hr Hfail Halive.
  - destruct (Hfail 0%nat ltac:(lia)) as [e He]. simpl in He.
    exists e. split; [ exact He | ].
    rewrite loop_turn by (auto; apply (Halive 0%nat); lia).
    simpl. rewrite He, Hr. simpl. rewrite app_nil_r.
    do 2 f_equal. destruct c; simpl in *. subst. reflexivity.
  - destruct (Hfail 0%nat ltac:(lia)) as [e0 He0]. simpl in He0.
    destruct fuel as [ | fuel]; [ lia | ].
    destruct (IH fuel
                (Cursor.set_currentNumberOfRetries (Cursor.currentNumberOfRetries c - 1)
                   (Cursor.set_core (snd (core_next (Cursor.core c))) c))
                (waited ++ [Cursor.tailableRetryInterval c])) as [e [He Hloop]].
    + lia.
    + assumption.
    + unfold Cursor.sort_ready in *. destruct c; simpl in *. assumption.
    + simpl. lia.
    + intros i Hi. apply (Hfail (S i)). lia.
    + intros i Hi. apply (Halive (S i)). lia.
    + exists e. split; [ exact He | ].
      rewrite loop_turn by (auto; apply (Halive 0%nat); lia).
      simpl. rewrite He0.
      destruct (Z.eqb_spec (Cursor.currentNumberOfRetries c) 0) as [ | _]; [ lia | ].
      destruct (Z.gtb_spec (Cursor.currentNumberOfRetries c) 0) as [ _ | ]; [ | lia ].
      rewrite Hloop. simpl. rewrite <- app_assoc. simpl.
      do 2 f_equal.
Qed.

(** C8, as the code has it: a cursor created with a retry count [n] of at
    least 1 (a count of 0 is replaced by 5) has [n] retries for its
    lifetime.  On such a new cursor, [nextObject] delivers the document
    that follows up to [n] consecutive transient failures, after one wait
    of the retry interval per failure; [n + 1] consecutive failures make it
    pass the last error on after exactly [n] retries. *)
Theorem nextObject_retries (options : Cursor.Options) (core0 : Core) (n : Z) :
  Cursor.opt_numberOfRetries options = Some n ->
  1 <= n ->
  (forall k doc,
     (k <= Z.to_nat n)%nat ->
     Cursor.transient_failures core_next k core0 ->
     Cursor.alive_for core_next core_isDead k core0 ->
     fst (core_next (after k core0)) = Cursor.FetchDoc doc ->
     exists c',
       Cursor.nextObject core_next core_isDead formattedOrderClause
         (Cursor.new options core0)
       = Some (Cursor.mkAnswer (inr doc)
                 (replicate k (Cursor.number_or
                                 (Cursor.opt_tailableRetryInterval options) 500)),
               c')
       /\ Cursor.core c' = after (S k) core0
       /\ Cursor.currentNumberOfRetries c' = n - Z.of_nat k)
  /\ (Cursor.transient_failures core_next (S (Z.to_nat n)) core0 ->
      Cursor.alive_for core_next core_isDead (Z.to_nat n) core0 ->
      exists e c',
        fst (core_next (after (Z.to_nat n) core0)) = Cursor.FetchError true e
        /\ Cursor.nextObject core_next core_isDead formattedOrderClause
             (Cursor.new options core0)
           = Some (Cursor.mkAnswer (inl e)
                     (replicate (Z.to_nat n)
                        (Cursor.number_or
                           (Cursor.opt_tailableRetryInterval options) 500)),
                   c')
        /\ Cursor.core c' = after (S (Z.to_nat n)) core0
        /\ Cursor.currentNumberOfRetries c' = 0).
Proof.
  intros Hopt Hn.
  assert (Hretries :
    Cursor.currentNumberOfRetries (Cursor.new (Order := Order) options core0) = n).
  { unfold Cursor.new; simpl. rewrite Hopt. destruct n; simpl; try reflexivity. lia. }
  split.
  - intros k doc Hk Hfail Halive Hdoc.
    eexists. split; [ | split ].
    + unfold Cursor.nextObject. rewrite Hretries.
      rewrite (loop_after_failures k _ _ [] doc); simpl; try assumption.
      * reflexivity.
      * discriminate.
      * exact I.
      * rewrite Hopt. destruct n; simpl; lia.
    + reflexivity.
    + simpl. rewrite Hopt. destruct n; simpl; lia.
  - intros Hfail Halive.
    destruct (loop_exhausted (Z.to_nat n) (Z.to_nat n)
                (Cursor.new options core0) [])
      as [e [He Hloop]]; simpl; try assumption.
    + lia.
    + discriminate.
    + exact I.
    + rewrite Hopt. destruct n; simpl; lia.
    + exists e. eexists. split; [ exact He | split; [ | split ] ].
      * unfold Cursor.nextObject. rewrite Hretries. exact Hloop.
      * reflexivity.
      * reflexivity.
Qed.

End CursorRetries.

Lemma nextObject_retries_witness :
  fst <$> Cursor.nextObject Examples.flaky_next Examples.never_dead Examples.keep_order
            (Cursor.new (Examples.retry_options 2) (2, 0)%nat)
  = Some (Cursor.mkAnswer (inr (Some 7)) [500; 500])
  /\ fst <$> Cursor.nextObject Examples.flaky_next Examples.never_dead Examples.keep_order
               (Cursor.new (Examples.retry_options 2) (3, 0)%nat)
     = Some (Cursor.mkAnswer
               (inl (MongoError "No more documents in tailed cursor")) [500; 500]).
Proof.
  split.
  - destruct (nextObject_retries Examples.flaky_next Examples.never_dead
                Examples.keep_order (Examples.retry_options 2) (2, 0)%nat 2
                eq_refl ltac:(lia)) as [Hdoc _].
    destruct (Hdoc 2%nat (Some 7)) as (c' & Hrun & _).
    + simpl. lia.
    + intros i Hi. destruct i as [ | [ | i]]; [ eexists; reflexivity .. | lia ].
    + intros i Hi. reflexivity.
    + reflexivity.
    + rewrite Hrun. reflexivity.
  - destruct (nextObject_retries Examples.flaky_next Examples.never_dead
                Examples.keep_order (Examples.retry_options 2) (3, 0)%nat 2
                eq_refl ltac:(lia)) as [_ Herr].
    destruct Herr as (e & c' & He & Hrun & _).
    + intros i Hi. destruct i as [ | [ | [ | i]]]; [ eexists; reflexivity .. | simpl in Hi; lia ].
    + intros i Hi. reflexivity.
    + rewrite Hrun. simpl in He. inversion He. reflexivity.
Defined.

(** C8, as stated, fails: against a cursor configured with 0 retries, one
    transient failure is followed by a retry (after the default interval)
    and the document is delivered. *)
Lemma zero_retries_still_retry :
  Cursor.numberOfRetries
    (Cursor.new (Order := string) (Examples.retry_options 0) (1, 0)%nat) = 5
  /\ fst <$> Cursor.nextObject Examples.flaky_next Examples.never_dead
               Examples.keep_order
               (Cursor.new (Examples.retry_options 0) (1, 0)%nat)
     = Some (Cursor.mkAnswer (inr (Some 7)) [500]).
Proof. split; reflexivity. Qed.

(** ** Buffers *)

Lemma slice_to (b : Buffer) (e : Z) :
  0 <= e -> Buf.slice b 0 (Some e) = take (Z.to_nat e) b.
Proof.
  intros He. unfold Buf.slice, Buf.index.
  destruct (Z.ltb_spec e 0); [ lia | ].
  destruct (Z.ltb_spec 0 0); [ lia | ].
  rewrite (Z.min_l 0) by lia. rewrite Z.sub_0_r.
  change (Z.to_nat 0) with 0%nat. rewrite drop_0.
  destruct (Z.le_gt_cases e (Z.of_nat (length b))).
  - rewrite Z.min_l by lia. reflexivity.
  - rewrite Z.min_r by lia. rewrite Nat2Z.id.
    rewrite !take_ge by lia. reflexivity.
Qed.

Lemma slice_from (b : Buffer) (s : Z) :
  0 <= s -> Buf.slice b s None = drop (Z.to_nat s) b.
Proof.
  intros Hs. unfold Buf.slice, Buf.index.
  destruct (Z.ltb_spec s 0); [ lia | ].
  rewrite take_ge by (rewrite length_drop; lia).
  destruct (Z.le_gt_cases s (Z.of_nat (length b))).
  - rewrite Z.min_l by lia. reflexivity.
  - rewrite Z.min_r by lia. rewrite Nat2Z.id.
    rewrite !drop_ge by lia. reflexivity.
Qed.

Lemma copy_length (source target : Buffer) (start : Z) :
  length (Buf.copy source target start) = length target.
Proof.
  unfold Buf.copy. rewrite !length_app, !length_take, length_drop. lia.
Qed.

(** ** The loop of writeBuffer *)

Lemma write_fresh (n : Z) (bytes : Buffer) :
  Chunk.write (Chunk.new (Some n) None) bytes
  = Chunk.mk n bytes (Z.of_nat (length bytes)).
Proof.
  unfold Chunk.write, Chunk.new. simpl. rewrite drop_nil, app_nil_r.
  reflexivity.
Qed.

(** With the cursor at the end of what the chunk holds, the bytes written
    are appended to it. *)
Lemma write_at_end (n : Z) (held : Buffer) (cursor : Z) (bytes : Buffer) :
  (length held <= Z.to_nat cursor)%nat ->
  Chunk.write (Chunk.mk n held cursor) bytes
  = Chunk.mk n (held ++ bytes) (cursor + Z.of_nat (length bytes)).
Proof.
  intros Hend. unfold Chunk.write. simpl.
  rewrite (take_ge held) by lia.
  rewrite (drop_ge held) by lia.
  rewrite app_nil_r. reflexivity.
Qed.

(** The number of bytes a chunk holds after a write: the bytes written may
    reach past the end of what it held, and nothing it held is lost. *)
Lemma write_length (c : Chunk.t) (bytes : Buffer) :
  0 <= Chunk.position c ->
  Chunk.length (Chunk.write c bytes)
  = Z.max (Chunk.length c)
          (Z.min (Chunk.position c) (Chunk.length c) + Z.of_nat (length bytes)).
Proof.
  intros Hpos. unfold Chunk.length, Chunk.write. simpl.
  rewrite !length_app, length_take, length_drop. lia.
Qed.

Lemma piece_drop (size : nat) (rest : Buffer) (i : nat) :
  Layout.piece size (drop size rest) i = Layout.piece size rest (S i).
Proof.
  unfold Layout.piece. rewrite drop_drop. do 2 f_equal; lia.
Qed.

(** A chunk size of at least 1 ends the loop: [m] whole chunks are cut
    off the data and pushed, the rest is left over. *)
Lemma fill_chunks_spec (c : Z) (m : nat) :
  1 <= c ->
  forall fuel prev (rest : Buffer) acc,
    (m * Z.to_nat c <= length rest < (m + 1) * Z.to_nat c)%nat ->
    (m <= fuel)%nat ->
    GridStore.fill_chunks fuel c prev rest acc
    = Some (prev + Z.of_nat m, drop (m * Z.to_nat c) rest,
            acc ++ ((fun i => Chunk.mk (prev + 1 + Z.of_nat i)
                                (Layout.piece (Z.to_nat c) rest i) c)
                    <$> seq 0 m)).
Proof.
  intros Hc. induction m as [ | m IH]; intros fuel prev rest acc Hlen Hfuel.
  - assert (Hcond : (Z.of_nat (length rest) >=? c) = false) by lia.
    destruct fuel; simpl; rewrite Hcond; simpl;
      rewrite Z.add_0_r, app_nil_r; reflexivity.
  - assert (Hcond : (Z.of_nat (length rest) >=? c) = true) by lia.
    destruct fuel as [ | fuel]; [ lia | ].
    simpl GridStore.fill_chunks. rewrite Hcond.
    rewrite slice_to, slice_from by lia.
    rewrite write_fresh.
    rewrite IH by (rewrite ?length_drop; lia).
    rewrite length_take_le by lia.
    f_equal. f_equal; [ f_equal | ].
    + lia.
    + rewrite drop_drop. f_equal; lia.
    + rewrite <- app_assoc. f_equal. simpl. f_equal.
      * f_equal; lia.
      * change (list_fmap nat Chunk.t ?f ?l) with (f <$> l).
        rewrite <- fmap_S_seq, <- list_fmap_compose.
        apply list_fmap_ext. intros _ i _. simpl.
        rewrite piece_drop. f_equal; lia.
Qed.

Lemma fill_chunks_total (c : Z) (rest : Buffer) prev acc :
  1 <= c ->
  exists m,
    (m * Z.to_nat c <= length rest < (m + 1) * Z.to_nat c)%nat
    /\ GridStore.fill_chunks (S (length rest)) c prev rest acc
       = Some (prev + Z.of_nat m, drop (m * Z.to_nat c) rest,
               acc ++ ((fun i => Chunk.mk (prev + 1 + Z.of_nat i)
                                   (Layout.piece (Z.to_nat c) rest i) c)
                       <$> seq 0 m)).
Proof.
  intros Hc.
  assert (Hpos : (Z.to_nat c <> 0)%nat) by lia.
  pose proof (Nat.div_mod_eq (length rest) (Z.to_nat c)) as Hdiv.
  pose proof (Nat.mod_upper_bound (length rest) (Z.to_nat c) Hpos) as Hmod.
  exists (length rest / Z.to_nat c)%nat.
  assert (Hm : (length rest `div` Z.to_nat c * Z.to_nat c <= length rest
                < (length rest `div` Z.to_nat c + 1) * Z.to_nat c)%nat) by nia.
  split; [ exact Hm | ].
  apply fill_chunks_spec; [ assumption | exact Hm | nia ].
Qed.

(** ** The synchronous part of a write *)

(** The write stays within the current chunk. *)
Lemma issue_in_place (self : GridStore.t) (cur : Chunk.t) (buffer : Buffer) :
  GridStore.first_char_is "w" (GridStore.mode self) = true ->
  GridStore.currentChunk self = Some cur ->
  Chunk.position cur + Z.of_nat (length buffer) < GridStore.chunkSize self ->
  GridStore.writeBuffer_issue self buffer
  = Some (GridStore.InPlace
            (GridStore.set_currentChunk (Some (Chunk.write cur buffer))
               (GridStore.set_position
                  (GridStore.position self + Z.of_nat (length buffer)) self))).
Proof.
  intros Hmode Hcur Hlt. unfold GridStore.writeBuffer_issue.
  rewrite Hmode, Hcur. simpl.
  destruct (Z.geb_spec (Chunk.position cur + Z.of_nat (length buffer))
              (GridStore.chunkSize self)); [ lia | reflexivity ].
Qed.

(** The write reaches the end of the current chunk. *)
Lemma issue_rollover (self : GridStore.t) (cur : Chunk.t) (buffer : Buffer) :
  GridStore.first_char_is "w" (GridStore.mode self) = true ->
  GridStore.currentChunk self = Some cur ->
  1 <= GridStore.chunkSize self ->
  GridStore.chunkSize self <= Chunk.position cur + Z.of_nat (length buffer) ->
  let c := GridStore.chunkSize self in
  let first := Buf.slice buffer 0 (Some (c - Chunk.position cur)) in
  let rest := Buf.slice buffer (c - Chunk.position cur) None in
  exists m,
    (m * Z.to_nat c <= length rest < (m + 1) * Z.to_nat c)%nat
    /\ GridStore.writeBuffer_issue self buffer
       = Some (GridStore.Saving
                 (GridStore.set_position
                    (GridStore.position self + Z.of_nat (length buffer))
                    (GridStore.set_currentChunk
                       (Some (Chunk.mk (Chunk.chunkNumber cur + Z.of_nat m + 1)
                                (drop (m * Z.to_nat c) rest)
                                (Z.of_nat (length (drop (m * Z.to_nat c) rest)))))
                       self))
                 (Chunk.write cur first
                  :: ((fun i => Chunk.mk (Chunk.chunkNumber cur + 1 + Z.of_nat i)
                                  (Layout.piece (Z.to_nat c) rest i) c)
                      <$> seq 0 m))).
Proof.
  intros Hmode Hcur Hc Hge c first rest.
  destruct (fill_chunks_total c rest (Chunk.chunkNumber cur)
              [Chunk.write cur first] Hc) as [m [Hm Hfill]].
  exists m. split; [ exact Hm | ].
  unfold GridStore.writeBuffer_issue.
  rewrite Hmode, Hcur. cbn [negb].
  destruct (Z.geb_spec (Chunk.position cur + Z.of_nat (length buffer))
              (GridStore.chunkSize self)); [ | lia ].
  fold c. fold rest. fold first. rewrite Hfill.
  do 2 f_equal.
  assert (Hnext :
    (if Z.of_nat (length (drop (m * Z.to_nat c) rest)) >? 0
     then Chunk.write (Chunk.new (Some (Chunk.chunkNumber cur + Z.of_nat m + 1)) None)
            (drop (m * Z.to_nat c) rest)
     else Chunk.new (Some (Chunk.chunkNumber cur + Z.of_nat m + 1)) None)
    = Chunk.mk (Chunk.chunkNumber cur + Z.of_nat m + 1)
        (drop (m * Z.to_nat c) rest)
        (Z.of_nat (length (drop (m * Z.to_nat c) rest)))).
  { destruct (Z.gtb_spec (Z.of_nat (length (drop (m * Z.to_nat c) rest))) 0)
      as [Hpos | Hzero].
    - apply write_fresh.
    - assert (Hnil : drop (m * Z.to_nat c) rest = [])
        by (apply length_zero_iff_nil; lia).
      rewrite Hnil. reflexivity. }
  rewrite Hnext. reflexivity.
Qed.

(** C3: a write on a writable handle returns with the position advanced
    by the length of the data.  The handle it returns with is the one of
    the synchronous part, in which the saves of the filled chunks are
    issued and none has completed (the database is not touched); when they
    complete, the callback receives that same handle. *)
Theorem write_advances_position_first (self : GridStore.t) (buffer : Buffer) :
  GridStore.writable self ->
  exists issued self',
    GridStore.writeBuffer_issue self buffer = Some issued
    /\ GridStore.issued_handle issued = Some self'
    /\ GridStore.position self'
       = GridStore.position self + Z.of_nat (length buffer)
    /\ forall filemd5 now d,
         GridStore.writeBuffer filemd5 self buffer false now d
         = Some (GridStore.Ok (), self',
                 GridStore.complete_saves self'
                   (GridStore.issued_saves issued) d).
Proof.
  intros [Hmode [[cur [Hcur Hpos]] Hc]].
  destruct (Z.lt_ge_cases (Chunk.position cur + Z.of_nat (length buffer))
              (GridStore.chunkSize self)) as [Hlt | Hge].
  - pose proof (issue_in_place self cur buffer Hmode Hcur Hlt) as Hissue.
    eexists; eexists. split; [ exact Hissue | ].
    split; [ reflexivity | ]. split; [ reflexivity | ].
    intros filemd5 now d. unfold GridStore.writeBuffer. rewrite Hissue. reflexivity.
  - destruct (issue_rollover self cur buffer Hmode Hcur Hc Hge) as [m [_ Hissue]].
    eexists; eexists. split; [ exact Hissue | ].
    split; [ reflexivity | ]. split; [ reflexivity | ].
    intros filemd5 now d. unfold GridStore.writeBuffer. rewrite Hissue. reflexivity.
Qed.

(** C10: after a write on a writable handle (the same handle when the
    write has completed) the cursor of the current chunk lies in
    [0, chunkSize); a write that fills the current chunk exactly puts that
    chunk on the save list and makes a new, empty chunk with the next number
    the current one. The current chunk then holds fewer than [chunkSize]
    bytes exactly when the chunk held fewer than [chunkSize] bytes before
    the write or the write reached the end of the chunk: a write that stays
    inside a chunk that was loaded full leaves it full. *)
Theorem current_chunk_cursor_below_size (self : GridStore.t) (buffer : Buffer) :
  GridStore.writable self ->
  exists issued self' cur',
    GridStore.writeBuffer_issue self buffer = Some issued
    /\ GridStore.issued_handle issued = Some self'
    /\ (forall filemd5 now d,
          GridStore.writeBuffer filemd5 self buffer false now d
          = Some (GridStore.Ok (), self',
                  GridStore.complete_saves self' (GridStore.issued_saves issued) d))
    /\ GridStore.chunkSize self' = GridStore.chunkSize self
    /\ GridStore.currentChunk self' = Some cur'
    /\ 0 <= Chunk.position cur' < GridStore.chunkSize self'
    /\ (forall cur,
          GridStore.currentChunk self = Some cur ->
          Chunk.length cur' < GridStore.chunkSize self'
          <-> (Chunk.length cur < GridStore.chunkSize self
               \/ GridStore.chunkSize self
                  <= Chunk.position cur + Z.of_nat (length buffer)))
    /\ forall cur,
         GridStore.currentChunk self = Some cur ->
         Chunk.position cur + Z.of_nat (length buffer) = GridStore.chunkSize self ->
         cur' = Chunk.new (Some (Chunk.chunkNumber cur + 1)) None
         /\ GridStore.issued_saves issued = [Chunk.write cur buffer].
Proof.
  intros [Hmode [[cur [Hcur Hpos]] Hc]].
  destruct (Z.lt_ge_cases (Chunk.position cur + Z.of_nat (length buffer))
              (GridStore.chunkSize self)) as [Hlt | Hge].
  - pose proof (issue_in_place self cur buffer Hmode Hcur Hlt) as Hissue.
    eexists; eexists; eexists. split; [ exact Hissue | ].
    split; [ reflexivity | ].
    split; [ intros filemd5 now d; unfold GridStore.writeBuffer;
             rewrite Hissue; reflexivity | ].
    split; [ reflexivity | ]. split; [ reflexivity | ].
    split; [ unfold Chunk.write, GridStore.chunkSize in *; simpl; lia | ].
    split.
    + intros cur0 Hcur0. rewrite Hcur in Hcur0. inversion Hcur0; subst cur0.
      rewrite (write_length cur buffer Hpos).
      change (GridStore.chunkSize (GridStore.set_currentChunk _ _))
        with (GridStore.chunkSize self).
      lia.
    + intros cur0 Hcur0 Hfill. rewrite Hcur in Hcur0. inversion Hcur0; subst.
      lia.
  - destruct (issue_rollover self cur buffer Hmode Hcur Hc Hge) as [m [Hm Hissue]].
    eexists; eexists; eexists. split; [ exact Hissue | ].
    split; [ reflexivity | ].
    split; [ intros filemd5 now d; unfold GridStore.writeBuffer;
             rewrite Hissue; reflexivity | ].
    split; [ reflexivity | ]. split; [ reflexivity | ].
    unfold Chunk.length at 1. unfold GridStore.chunkSize in *; simpl.
    rewrite length_drop.
    split; [ lia | ].
    split.
    + intros cur0 Hcur0. rewrite Hcur in Hcur0. inversion Hcur0; subst cur0.
      split; [ intros _; right; exact Hge | intros _; lia ].
    + intros cur0 Hcur0 Hfill. rewrite Hcur in Hcur0. inversion Hcur0; subst cur0.
      revert Hm Hissue.
      replace (GridStore.internalChunkSize self - Chunk.position cur)
        with (Z.of_nat (length buffer)) by lia.
      rewrite slice_to, slice_from by lia. rewrite Nat2Z.id.
      rewrite drop_all, take_ge by lia. simpl.
      intros Hm Hissue.
      assert (m = 0%nat) by nia. subst m. simpl.
      split; [ unfold Chunk.new; simpl; f_equal; lia | reflexivity ].
Qed.

Lemma write_advances_position_first_witness :
  exists issued self',
    GridStore.writeBuffer_issue Examples.writer Examples.hello_world = Some issued
    /\ GridStore.issued_handle issued = Some self'
    /\ GridStore.position self' = 0 + 11
    /\ forall filemd5 now d,
         GridStore.writeBuffer filemd5 Examples.writer Examples.hello_world false now d
         = Some (GridStore.Ok (), self',
                 GridStore.complete_saves self' (GridStore.issued_saves issued) d).
Proof.
  apply (write_advances_position_first Examples.writer Examples.hello_world).
  split; [ reflexivity | split ].
  - eexists. split; [ reflexivity | simpl; lia ].
  - vm_compute. discriminate.
Defined.

Lemma current_chunk_cursor_below_size_witness :
  exists issued self' cur',
    GridStore.writeBuffer_issue Examples.writer Examples.abcd = Some issued
    /\ GridStore.issued_handle issued = Some self'
    /\ (forall filemd5 now d,
          GridStore.writeBuffer filemd5 Examples.writer Examples.abcd false now d
          = Some (GridStore.Ok (), self',
                  GridStore.complete_saves self' (GridStore.issued_saves issued) d))
    /\ GridStore.chunkSize self' = 4
    /\ GridStore.currentChunk self' = Some cur'
    /\ 0 <= Chunk.position cur' < GridStore.chunkSize self'
    /\ (forall cur,
          GridStore.currentChunk Examples.writer = Some cur ->
          Chunk.length cur' < GridStore.chunkSize self'
          <-> (Chunk.length cur < 4 \/ 4 <= Chunk.position cur + 4))
    /\ forall cur,
         GridStore.currentChunk Examples.writer = Some cur ->
         Chunk.position cur + 4 = 4 ->
         cur' = Chunk.new (Some (Chunk.chunkNumber cur + 1)) None
         /\ GridStore.issued_saves issued = [Chunk.write cur Examples.abcd].
Proof.
  apply (current_chunk_cursor_below_size Examples.writer Examples.abcd).
  split; [ reflexivity | split ].
  - eexists. split; [ reflexivity | simpl; lia ].
  - vm_compute. discriminate.
Defined.

(** C10, as stated, fails after a seek back into a chunk that is full: in
    a session in mode [w] with chunks of four bytes, [abcdef] is written,
    [seek(1)] loads the first chunk again, and the write of one byte
    completes with that chunk as the current one, its cursor at 2 and its
    four bytes all held: as many as [chunkSize], not fewer. *)
Lemma overwrite_leaves_chunk_full :
  GridStore.writable (Examples.handle_of Examples.writer_moved_back)
  /\ GridStore.currentChunk (Examples.handle_of Examples.writer_moved_back)
     = Some (Chunk.mk 0 (list_byte_of_string "abcd") 1)
  /\ (fun r => r.1.1) <$> Examples.overwritten = Some (GridStore.Ok ())
  /\ GridStore.currentChunk (Examples.handle_of Examples.overwritten)
     = Some (Chunk.mk 0 (list_byte_of_string "aXcd") 2)
  /\ Chunk.length (Chunk.mk 0 (list_byte_of_string "aXcd") 2)
     = GridStore.chunkSize (Examples.handle_of Examples.overwritten)
  /\ GridStore.chunkSize (Examples.handle_of Examples.overwritten) = 4.
Proof.
  split; [ | repeat split; vm_compute; reflexivity ].
  split; [ reflexivity | split ].
  - eexists. split; [ reflexivity | vm_compute; discriminate ].
  - vm_compute. discriminate.
Qed.

(** ** Closing *)

Section Close.

Variable filemd5 : gmap Z Buffer -> option string.

(** A close that flushes buffered bytes keeps an upload date that is set. *)
Lemma close_keeps_uploadDate (self : GridStore.t) (cur : Chunk.t) now d date :
  GridStore.first_char_is "w" (GridStore.mode self) = true ->
  GridStore.currentChunk self = Some cur ->
  0 < Chunk.position cur ->
  GridStore.uploadDate self = Some date ->
  GridStore.uploadDate (GridStore.close filemd5 self now d).1.2 = Some date.
Proof.
  intros Hmode Hcur Hpos Hdate. unfold GridStore.close.
  rewrite Hmode, Hcur.
  destruct (Z.gtb_spec (Chunk.position cur) 0); [ | lia ].
  rewrite Hdate. simpl. exact Hdate.
Qed.

(** A close with nothing buffered assigns the upload date, set or not. *)
Lemma close_assigns_uploadDate (self : GridStore.t) now d :
  GridStore.first_char_is "w" (GridStore.mode self) = true ->
  (forall cur, GridStore.currentChunk self = Some cur -> Chunk.position cur <= 0) ->
  GridStore.uploadDate (GridStore.close filemd5 self now d).1.2 = Some now.
Proof.
  intros Hmode Hidle. unfold GridStore.close. rewrite Hmode.
  destruct (GridStore.currentChunk self) as [cur | ]; [ | reflexivity ].
  specialize (Hidle cur eq_refl).
  destruct (Z.gtb_spec (Chunk.position cur) 0); [ lia | reflexivity ].
Qed.

End Close.

(** C5, on the code: [abcd] fills the one chunk of a file with chunk size
    4, so nothing is buffered when the file is closed; the first close (at
    time 1000) sets the upload date, and the second (at time 2000) sets it
    again. *)
Theorem second_close_replaces_uploadDate :
  GridStore.uploadDate (Examples.handle_of Examples.abcd_closed) = Some 1000
  /\ GridStore.uploadDate (Examples.handle_of Examples.abcd_closed_again) = Some 2000
  /\ doc_uploadDate <$> files (Examples.db_of Examples.abcd_closed_again) = [Some 2000].
Proof. repeat split; vm_compute; reflexivity. Qed.

(** ** The chunk collection under saves *)

Lemma chunks_of_save_chunk id (ch : Chunk.t) (d : Db) :
  Collection.chunks_of id (Collection.save_chunk id ch d)
  = <[Chunk.chunkNumber ch := Chunk.data ch]> (Collection.chunks_of id d).
Proof.
  unfold Collection.chunks_of, Collection.save_chunk, Chunk.save. simpl.
  rewrite lookup_insert_eq. reflexivity.
Qed.

Lemma files_complete_saves (self : GridStore.t) saves d :
  files (GridStore.complete_saves self saves d) = files d.
Proof.
  induction saves as [ | ch saves IH] using rev_ind; [ reflexivity | ].
  unfold GridStore.complete_saves in *. rewrite foldl_app. simpl. exact IH.
Qed.

Lemma complete_saves_snoc (self : GridStore.t) saves ch d :
  GridStore.complete_saves self (saves ++ [ch]) d
  = Collection.save_chunk (GridStore.fileId self) ch
      (GridStore.complete_saves self saves d).
Proof. unfold GridStore.complete_saves. rewrite foldl_app. reflexivity. Qed.

(** A chunk number that no issued save carries keeps its document. *)
Lemma complete_saves_other (self : GridStore.t) saves d n :
  (forall ch, ch ∈ saves -> Chunk.chunkNumber ch <> n) ->
  Collection.chunks_of (GridStore.fileId self)
    (GridStore.complete_saves self saves d) !! n
  = Collection.chunks_of (GridStore.fileId self) d !! n.
Proof.
  induction saves as [ | ch saves IH] using rev_ind; intros Hother; [ reflexivity | ].
  rewrite complete_saves_snoc, chunks_of_save_chunk.
  rewrite lookup_insert_ne.
  - apply IH. intros ch' Hin. apply Hother. apply elem_of_app. left. exact Hin.
  - apply Hother. apply elem_of_app. right. apply list_elem_of_singleton. reflexivity.
Qed.

(** A chunk number that the issued saves carry, all with the same data,
    ends with that data. *)
Lemma complete_saves_saved (self : GridStore.t) saves d n v :
  (exists ch, ch ∈ saves /\ Chunk.chunkNumber ch = n) ->
  (forall ch, ch ∈ saves -> Chunk.chunkNumber ch = n -> Chunk.data ch = v) ->
  Collection.chunks_of (GridStore.fileId self)
    (GridStore.complete_saves self saves d) !! n
  = Some v.
Proof.
  induction saves as [ | ch saves IH] using rev_ind; intros [ch0 [Hin Hn]] Hsame.
  - apply elem_of_nil in Hin. contradiction.
  - rewrite complete_saves_snoc, chunks_of_save_chunk.
    destruct (decide (Chunk.chunkNumber ch = n)) as [Heq | Hne].
    + rewrite Heq, lookup_insert_eq. f_equal.
      apply Hsame; [ | exact Heq ].
      apply elem_of_app. right. apply list_elem_of_singleton. reflexivity.
    + rewrite lookup_insert_ne by exact Hne.
      apply IH.
      * exists ch0. split; [ | exact Hn ].
        apply elem_of_app in Hin as [Hin | Hin]; [ exact Hin | ].
        apply list_elem_of_singleton in Hin. congruence.
      * intros ch' Hin'. apply Hsame. apply elem_of_app. left. exact Hin'.
Qed.

(** The saves of one write are in flight together.  Their chunk numbers
    differ, so the order in which they complete does not matter. *)
Lemma save_chunk_commute id (c1 c2 : Chunk.t) (d : Db) :
  Chunk.chunkNumber c1 <> Chunk.chunkNumber c2 ->
  Collection.save_chunk id c2 (Collection.save_chunk id c1 d)
  = Collection.save_chunk id c1 (Collection.save_chunk id c2 d).
Proof.
  intros Hne. unfold Collection.save_chunk at 1 3. simpl.
  rewrite !chunks_of_save_chunk. unfold Chunk.save.
  rewrite !insert_insert_eq. f_equal. f_equal.
  apply insert_insert_ne. congruence.
Qed.

Lemma complete_saves_permutation (self : GridStore.t) (saves saves' : list Chunk.t) :
  saves ≡ₚ saves' ->
  NoDup (Chunk.chunkNumber <$> saves) ->
  forall d, GridStore.complete_saves self saves d
            = GridStore.complete_saves self saves' d.
Proof.
  unfold GridStore.complete_saves.
  induction 1 as [ | c l l' Hperm IH | c1 c2 l | l1 l2 l3 H12 IH12 H23 IH23];
    intros Hdistinct d; simpl.
  - reflexivity.
  - apply IH. simpl in Hdistinct. apply NoDup_cons in Hdistinct. apply Hdistinct.
  - rewrite save_chunk_commute; [ reflexivity | ].
    simpl in Hdistinct. apply NoDup_cons in Hdistinct as [Hnotin _].
    intros Heq. apply Hnotin. rewrite Heq. apply list_elem_of_here.
  - rewrite IH12 by assumption. apply IH23.
    rewrite <- H12. assumption.
Qed.

Lemma issued_saves_distinct (self : GridStore.t) (buffer : Buffer) issued :
  GridStore.writable self ->
  GridStore.writeBuffer_issue self buffer = Some issued ->
  NoDup (Chunk.chunkNumber <$> GridStore.issued_saves issued).
Proof.
  intros [Hmode [[cur [Hcur Hpos]] Hc]] Hissued.
  destruct (Z.lt_ge_cases (Chunk.position cur + Z.of_nat (length buffer))
              (GridStore.chunkSize self)) as [Hlt | Hge].
  - rewrite (issue_in_place self cur buffer Hmode Hcur Hlt) in Hissued.
    inversion Hissued. apply NoDup_nil_2.
  - destruct (issue_rollover self cur buffer Hmode Hcur Hc Hge) as [m [_ Hroll]].
    rewrite Hroll in Hissued. inversion Hissued. simpl.
    rewrite <- list_fmap_compose.
    apply NoDup_cons. split.
    + intros Hin. apply list_elem_of_fmap in Hin as [i [Hi _]]. simpl in Hi. lia.
    + apply NoDup_fmap; [ | apply NoDup_seq ].
      intros i j Hij. simpl in Hij. lia.
Qed.

(** ** Pieces of a payload *)

Lemma piece_app_whole (size : nat) (written more : Buffer) (n : nat) :
  ((n + 1) * size <= length written)%nat ->
  Layout.piece size (written ++ more) n = Layout.piece size written n.
Proof.
  intros Hn. unfold Layout.piece.
  rewrite drop_app_le by lia.
  rewrite take_app_le by (rewrite length_drop; lia).
  reflexivity.
Qed.

Lemma piece_of_drop (size : nat) (payload : Buffer) (k i : nat) :
  Layout.piece size (drop (k * size) payload) i = Layout.piece size payload (k + i).
Proof.
  unfold Layout.piece. rewrite drop_drop. do 2 f_equal; lia.
Qed.

Lemma piece_last (size : nat) (payload : Buffer) (q : nat) :
  (length payload <= (q + 1) * size)%nat ->
  Layout.piece size payload q = drop (q * size) payload.
Proof.
  intros Hlen. unfold Layout.piece. apply take_ge. rewrite length_drop. lia.
Qed.

Lemma piece_length (size : nat) (payload : Buffer) (n : nat) :
  ((n + 1) * size <= length payload)%nat ->
  length (Layout.piece size payload n) = size.
Proof.
  intros Hn. unfold Layout.piece. rewrite length_take, length_drop. lia.
Qed.

(** ** Writing a file *)

Section Sessions.

Variable filemd5 : gmap Z Buffer -> option string.

(** A write that stays within the current chunk keeps the session going. *)
Lemma write_in_place (self : GridStore.t) d (written b : Buffer) now (q r : nat) :
  let size := Z.to_nat (GridStore.chunkSize self) in
  length written = (q * size + r)%nat ->
  (r + length b < size)%nat ->
  GridStore.first_char_is "w" (GridStore.mode self) = true ->
  1 <= GridStore.chunkSize self ->
  GridStore.position self = Z.of_nat (length written) ->
  GridStore.currentChunk self
  = Some (Chunk.mk (Z.of_nat q) (drop (q * size) written) (Z.of_nat r)) ->
  (forall n : Z,
     Collection.chunks_of (GridStore.fileId self) d !! n =
     if bool_decide (0 <= n /\ (n + 1) * GridStore.chunkSize self
                               <= Z.of_nat (length written))
     then Some (Layout.piece size written (Z.to_nat n)) else None) ->
  exists self',
    GridStore.write filemd5 self b false now d = Some (GridStore.Ok (), self', d)
    /\ Session.in_progress self' d (written ++ b)
    /\ GridStore.fileId self' = GridStore.fileId self
    /\ GridStore.chunkSize self' = GridStore.chunkSize self
    /\ GridStore.uploadDate self' = GridStore.uploadDate self.
Proof.
  intros size Hlen Hfit Hmode Hc Hpos Hcur Hstore.
  assert (Hsize : GridStore.chunkSize self = Z.of_nat size) by (unfold size; lia).
  pose proof (issue_in_place self _ b Hmode Hcur) as Hissue.
  simpl in Hissue. specialize (Hissue ltac:(lia)).
  eexists. split; [ | split; [ | split; [ | split ] ] ].
  - unfold GridStore.write, GridStore.writeBuffer. rewrite Hissue. reflexivity.
  - exists q, (r + length b)%nat. cbn zeta.
    change (GridStore.chunkSize (GridStore.set_currentChunk _ _))
      with (GridStore.chunkSize self).
    fold size.
    split; [ rewrite length_app; lia | ].
    split; [ lia | ].
    split; [ exact Hmode | ].
    split; [ exact Hc | ].
    split; [ simpl; rewrite Hpos, length_app; lia | ].
    split.
    + simpl. f_equal.
      rewrite write_at_end by (rewrite length_drop, Nat2Z.id; lia).
      f_equal.
      * rewrite drop_app_le by lia. reflexivity.
      * lia.
    + intros n. simpl. rewrite Hstore.
      destruct (decide (0 <= n /\ (n + 1) * GridStore.chunkSize self
                                  <= Z.of_nat (length written))) as [Hn | Hn].
      * rewrite (bool_decide_eq_true_2 _ Hn).
        rewrite bool_decide_eq_true_2 by (rewrite length_app; lia).
        rewrite piece_app_whole; [ reflexivity | ].
        destruct Hn as [Hn0 Hn1]. rewrite Hsize in Hn1.
        apply Nat2Z.inj_le. rewrite Nat2Z.inj_mul, Nat2Z.inj_add, Z2Nat.id by lia.
        exact Hn1.
      * rewrite (bool_decide_eq_false_2 _ Hn).
        rewrite bool_decide_eq_false_2; [ reflexivity | ].
        intros [Hn0 Hn1]. apply Hn. split; [ exact Hn0 | ].
        rewrite length_app, Hsize in Hn1. rewrite Hsize.
        assert (Hq : n + 1 <= Z.of_nat q) by nia.
        nia.
  - reflexivity.
  - reflexivity.
  - reflexivity.
Qed.

(** A write that reaches the end of the current chunk saves the chunks
    it fills and keeps the session going in a new current chunk. *)
Lemma write_rollover (self : GridStore.t) d (written b : Buffer) now (q r : nat) :
  let size := Z.to_nat (GridStore.chunkSize self) in
  length written = (q * size + r)%nat ->
  (r < size)%nat ->
  (size <= r + length b)%nat ->
  GridStore.first_char_is "w" (GridStore.mode self) = true ->
  1 <= GridStore.chunkSize self ->
  GridStore.position self = Z.of_nat (length written) ->
  GridStore.currentChunk self
  = Some (Chunk.mk (Z.of_nat q) (drop (q * size) written) (Z.of_nat r)) ->
  (forall n : Z,
     Collection.chunks_of (GridStore.fileId self) d !! n =
     if bool_decide (0 <= n /\ (n + 1) * GridStore.chunkSize self
                               <= Z.of_nat (length written))
     then Some (Layout.piece size written (Z.to_nat n)) else None) ->
  exists self' d',
    GridStore.write filemd5 self b false now d = Some (GridStore.Ok (), self', d')
    /\ Session.in_progress self' d' (written ++ b)
    /\ GridStore.fileId self' = GridStore.fileId self
    /\ GridStore.chunkSize self' = GridStore.chunkSize self
    /\ GridStore.uploadDate self' = GridStore.uploadDate self
    /\ files d' = files d.
Proof.
  intros size Hlen Hr Hroll Hmode Hc Hpos Hcur Hstore.
  assert (Hsize : GridStore.chunkSize self = Z.of_nat size) by (unfold size; lia).
  destruct (issue_rollover self _ b Hmode Hcur Hc ltac:(simpl; lia)) as [m [Hm Hissue]].
  simpl in Hm, Hissue.
  rewrite slice_to, slice_from in Hissue by lia.
  rewrite slice_from in Hm by lia.
  replace (Z.to_nat (GridStore.chunkSize self - Z.of_nat r)) with (size - r)%nat
    in Hm, Hissue by lia.
  fold size in Hm, Hissue.
  set (rest := drop (size - r) b) in *.
  set (whole := written ++ b).
  assert (Hrest : rest = drop ((q + 1) * size) whole).
  { unfold rest, whole. rewrite drop_app_ge by lia. f_equal. lia. }
  assert (Hrestlen : length rest = (length b - (size - r))%nat)
    by (unfold rest; apply length_drop).
  assert (Hwhole : length whole = (q * size + r + length b)%nat)
    by (unfold whole; rewrite length_app; lia).
  set (first := Chunk.write
                  (Chunk.mk (Z.of_nat q) (drop (q * size) written) (Z.of_nat r))
                  (take (size - r) b)) in *.
  assert (Hfirst : Chunk.chunkNumber first = Z.of_nat q
                   /\ Chunk.data first = Layout.piece size whole q).
  { split; [ reflexivity | ].
    unfold first.
    rewrite write_at_end by (rewrite length_drop, Nat2Z.id; lia).
    unfold Layout.piece, whole. simpl.
    rewrite drop_app_le by lia.
    rewrite take_app, length_drop.
    rewrite (take_ge (drop (q * size) written) size) by (rewrite length_drop; lia).
    do 2 f_equal. lia. }
  set (saves := first :: _) in Hissue.
  assert (Hsaves : forall ch, ch ∈ saves ->
            exists j, (j <= m)%nat
                      /\ Chunk.chunkNumber ch = Z.of_nat (q + j)
                      /\ Chunk.data ch = Layout.piece size whole (q + j)).
  { intros ch Hin. unfold saves in Hin.
    apply elem_of_cons in Hin as [-> | Hin].
    - exists 0%nat. rewrite Nat.add_0_r. split; [ lia | exact Hfirst ].
    - apply list_elem_of_fmap in Hin as [i [-> Hi]].
      apply elem_of_seq in Hi. exists (S i). simpl.
      split; [ lia | split; [ lia | ] ].
      rewrite Hrest, piece_of_drop. f_equal. lia. }
  assert (Hsaved : forall j, (j <= m)%nat ->
            exists ch, ch ∈ saves /\ Chunk.chunkNumber ch = Z.of_nat (q + j)).
  { intros [ | i] Hj.
    - exists first. split; [ apply list_elem_of_here | ].
      rewrite Nat.add_0_r. apply Hfirst.
    - eexists. split.
      + unfold saves. apply list_elem_of_further, list_elem_of_fmap.
        exists i. split; [ reflexivity | apply elem_of_seq; lia ].
      + simpl. lia. }
  eexists; eexists.
  split; [ | split; [ | split; [ | split; [ | split ] ] ] ].
  - unfold GridStore.write, GridStore.writeBuffer. rewrite Hissue. reflexivity.
  - exists (q + 1 + m)%nat, (length rest - m * size)%nat. cbn zeta.
    change (GridStore.chunkSize (GridStore.set_position _ _))
      with (GridStore.chunkSize self).
    fold size. fold whole.
    split; [ nia | ].
    split; [ lia | ].
    split; [ exact Hmode | ].
    split; [ exact Hc | ].
    split; [ simpl; rewrite Hpos; unfold whole; rewrite length_app; lia | ].
    split.
    + simpl. f_equal. f_equal.
      * lia.
      * rewrite Hrest, drop_drop. f_equal. lia.
      * rewrite length_drop. reflexivity.
    + intros n.
      change (GridStore.fileId (GridStore.set_position _ _))
        with (GridStore.fileId self).
      change (GridStore.complete_saves (GridStore.set_position _ _) saves d)
        with (GridStore.complete_saves self saves d).
      destruct (Z.lt_ge_cases n 0) as [Hneg | Hnn].
      { rewrite complete_saves_other.
        - rewrite Hstore. rewrite !bool_decide_eq_false_2 by lia. reflexivity.
        - intros ch Hin. destruct (Hsaves ch Hin) as [j [_ [Hnum _]]]. lia. }
      destruct (Z.lt_ge_cases n (Z.of_nat q)) as [Hold | Hnew].
      { rewrite complete_saves_other.
        - rewrite Hstore.
          rewrite !bool_decide_eq_true_2 by (rewrite ?Hwhole, Hsize; nia).
          unfold whole. rewrite piece_app_whole; [ reflexivity | nia ].
        - intros ch Hin. destruct (Hsaves ch Hin) as [j [_ [Hnum _]]]. lia. }
      destruct (Z.le_gt_cases n (Z.of_nat (q + m))) as [Hin | Hout].
      { rewrite bool_decide_eq_true_2 by (rewrite Hwhole, Hsize; nia).
        apply complete_saves_saved.
        - destruct (Hsaved (Z.to_nat n - q)%nat ltac:(lia)) as [ch [Hch Hnum]].
          exists ch. split; [ exact Hch | lia ].
        - intros ch Hch Hnum.
          destruct (Hsaves ch Hch) as [j [_ [Hnum' Hdata]]].
          rewrite Hdata. f_equal. lia. }
      rewrite complete_saves_other.
      * rewrite Hstore.
        rewrite !bool_decide_eq_false_2 by (rewrite ?Hwhole, Hsize; nia).
        reflexivity.
      * intros ch Hch. destruct (Hsaves ch Hch) as [j [Hj [Hnum _]]]. lia.
  - reflexivity.
  - reflexivity.
  - reflexivity.
  - apply files_complete_saves.
Qed.

End Sessions.

Section SessionRuns.

Variable filemd5 : gmap Z Buffer -> option string.

(** Every write of a session succeeds and keeps the session going. *)
Lemma write_in_progress (self : GridStore.t) d (written b : Buffer) now :
  Session.in_progress self d written ->
  exists self' d',
    GridStore.write filemd5 self b false now d = Some (GridStore.Ok (), self', d')
    /\ Session.in_progress self' d' (written ++ b)
    /\ GridStore.fileId self' = GridStore.fileId self
    /\ GridStore.chunkSize self' = GridStore.chunkSize self
    /\ GridStore.uploadDate self' = GridStore.uploadDate self
    /\ files d' = files d.
Proof.
  intros (q & r & Hlen & Hr & Hmode & Hc & Hpos & Hcur & Hstore).
  destruct (Nat.lt_ge_cases (r + length b) (Z.to_nat (GridStore.chunkSize self)))
    as [Hfit | Hroll].
  - destruct (write_in_place filemd5 self d written b now q r Hlen Hfit Hmode Hc Hpos Hcur Hstore)
      as (self' & Hw & Hin & Hid & Hsz & Hdate).
    exists self', d. repeat split; assumption.
  - exact (write_rollover filemd5 self d written b now q r Hlen Hr Hroll Hmode Hc Hpos Hcur Hstore).
Qed.

Lemma write_all_in_progress (payloads : list Buffer) :
  forall (self : GridStore.t) d (written : Buffer) now,
    Session.in_progress self d written ->
    exists self' d',
      GridStore.write_all filemd5 self payloads now d
      = Some (GridStore.Ok (), self', d')
      /\ Session.in_progress self' d' (written ++ concat payloads)
      /\ GridStore.fileId self' = GridStore.fileId self
      /\ GridStore.chunkSize self' = GridStore.chunkSize self
      /\ GridStore.uploadDate self' = GridStore.uploadDate self
      /\ files d' = files d.
Proof.
  induction payloads as [ | b payloads IH]; intros self d written now Hin.
  - exists self, d. simpl. rewrite app_nil_r. repeat split; assumption.
  - destruct (write_in_progress self d written b now Hin)
      as (self1 & d1 & Hw & Hin1 & Hid1 & Hsz1 & Hdate1 & Hfiles1).
    destruct (IH self1 d1 (written ++ b) now Hin1)
      as (self2 & d2 & Hw2 & Hin2 & Hid2 & Hsz2 & Hdate2 & Hfiles2).
    exists self2, d2. simpl. rewrite Hw.
    split; [ exact Hw2 | ].
    split; [ rewrite app_assoc; exact Hin2 | ].
    repeat split; congruence.
Qed.

Lemma find_save (doc : FileDoc) (docs : list FileDoc) :
  Collection.find (Collection.by_id (doc_id doc)) (Collection.save doc docs)
  = Some doc.
Proof.
  induction docs as [ | d0 docs IH]; simpl.
  - unfold Collection.by_id. rewrite bool_decide_eq_true_2 by reflexivity. reflexivity.
  - destruct (Collection.by_id (doc_id doc) d0) eqn:Hd0; simpl.
    + unfold Collection.by_id. rewrite bool_decide_eq_true_2 by reflexivity. reflexivity.
    + rewrite Hd0. exact IH.
Qed.

Ltac found_after_save :=
  cbn [files];
  lazymatch goal with
  | |- Collection.find _ (Collection.save ?doc ?docs) = _ => exact (find_save doc docs)
  end.

(** Closing a session flushes the buffered rest and saves the metadata:
    the chunk collection then holds exactly the pieces of what was
    written, and the file is found under its identifier. *)
Lemma close_in_progress (self : GridStore.t) d (written : Buffer) now :
  Session.in_progress self d written ->
  exists doc self' d',
    GridStore.close filemd5 self now d = (GridStore.Ok (Some doc), self', d')
    /\ Layout.stored (GridStore.chunkSize self) written
         (Collection.chunks_of (GridStore.fileId self) d')
    /\ Collection.find (Collection.by_id (GridStore.fileId self)) (files d') = Some doc
    /\ doc_id doc = GridStore.fileId self
    /\ doc_length doc = Z.of_nat (length written)
    /\ doc_chunkSize doc = GridStore.chunkSize self.
Proof.
  intros (q & r & Hlen & Hr & Hmode & Hc & Hpos & Hcur & Hstore).
  set (size := Z.to_nat (GridStore.chunkSize self)) in *.
  assert (Hsize : GridStore.chunkSize self = Z.of_nat size) by (unfold size; lia).
  assert (Hdoclen : forall p, p = Z.of_nat (length written) ->
            (if p =? 0 then 0 else p) = Z.of_nat (length written)).
  { intros p ->. destruct (Z.eqb_spec (Z.of_nat (length written)) 0); lia. }
  unfold GridStore.close. rewrite Hmode, Hcur. simpl Chunk.position.
  destruct (Z.gtb_spec (Z.of_nat r) 0) as [Hbuf | Hidle].
  - assert (Hstored : Layout.stored (GridStore.chunkSize self) written
              (Collection.chunks_of (GridStore.fileId self)
                 (Collection.save_chunk (GridStore.fileId self)
                    (Chunk.mk (Z.of_nat q) (drop (q * size) written) (Z.of_nat r)) d))).
    { intros n. rewrite chunks_of_save_chunk. simpl.
      destruct (decide (n = Z.of_nat q)) as [-> | Hne].
      - rewrite lookup_insert_eq.
        rewrite bool_decide_eq_true_2 by (rewrite Hsize; nia).
        rewrite Nat2Z.id. fold size. rewrite piece_last by lia. reflexivity.
      - rewrite lookup_insert_ne by congruence. rewrite Hstore.
        destruct (decide (0 <= n /\ (n + 1) * GridStore.chunkSize self
                                    <= Z.of_nat (length written))) as [Hn | Hn].
        + rewrite (bool_decide_eq_true_2 _ Hn).
          rewrite bool_decide_eq_true_2 by (rewrite Hsize in *; nia).
          reflexivity.
        + rewrite (bool_decide_eq_false_2 _ Hn).
          rewrite bool_decide_eq_false_2; [ reflexivity | ].
          intros [Hn0 Hn1]. apply Hn. split; [ exact Hn0 | ].
          rewrite Hsize in *.
          assert (n < Z.of_nat q) by nia. nia. }
    destruct (bool_decide (GridStore.uploadDate self <> None));
      (eexists; eexists; eexists; split; [ reflexivity | ]);
      (split; [ exact Hstored | ]);
      (split; [ found_after_save | ]);
      (split; [ reflexivity | ]);
      (split; [ simpl; apply Hdoclen, Hpos | reflexivity ]).
  - assert (r = 0%nat) by lia. subst r.
    eexists; eexists; eexists. split; [ reflexivity | ].
    split.
    + intros n. simpl. rewrite Hstore.
      destruct (decide (0 <= n /\ (n + 1) * GridStore.chunkSize self
                                  <= Z.of_nat (length written))) as [Hn | Hn].
      * rewrite (bool_decide_eq_true_2 _ Hn).
        rewrite bool_decide_eq_true_2 by (rewrite Hsize in *; nia).
        reflexivity.
      * rewrite (bool_decide_eq_false_2 _ Hn).
        rewrite bool_decide_eq_false_2; [ reflexivity | ].
        intros [Hn0 Hn1]. apply Hn. split; [ exact Hn0 | ].
        rewrite Hsize in *.
        assert (n < Z.of_nat q) by nia. nia.
    + split; [ found_after_save | ].
      split; [ reflexivity | ].
      split; [ simpl; apply Hdoclen, Hpos | reflexivity ].
Qed.

End SessionRuns.

(** ** Opening a file for writing *)

Section Opening.

Variable StringToNumber : string -> option Z.
Variable toHexString : N -> string.

Lemma open_mode_truncate allowed (self : GridStore.t) (d : Db) :
  GridStore.mode self = "w" ->
  exists self',
    GridStore.open_mode allowed self d = (GridStore.Ok (), self', GridStore.deleteChunks self d)
    /\ GridStore.currentChunk self' = Some (Chunk.mk 0 [] 0)
    /\ GridStore.position self' = 0
    /\ GridStore.mode self' = "w"
    /\ GridStore.fileId self' = GridStore.fileId self
    /\ GridStore.uploadDate self' = GridStore.uploadDate self.
Proof.
  intros Hmode. unfold GridStore.open_mode. rewrite Hmode. simpl.
  eexists. split; [ reflexivity | ].
  repeat split; try reflexivity. simpl. exact Hmode.
Qed.

Lemma open_truncate (self : GridStore.t) (d : Db) fresh :
  GridStore.mode self = "w" ->
  exists self',
    GridStore._open toHexString self d fresh
    = (GridStore.Ok (), self', GridStore.deleteChunks self' d)
    /\ GridStore.currentChunk self' = Some (Chunk.mk 0 [] 0)
    /\ GridStore.position self' = 0
    /\ GridStore.mode self' = "w".
Proof.
  intros Hmode. unfold GridStore._open.
  destruct (negb _).
  - destruct (if GridStore.referenceBy self =? GridStore.REFERENCE_BY_ID then _ else _)
      as [doc | ].
    + match goal with
      | |- context [GridStore.open_mode true ?s d] =>
        destruct (open_mode_truncate true s d) as (self' & Hopen & Hcur & Hpos & Hm & Hid & _)
      end.
      { simpl. destruct (_ || _); simpl; exact Hmode. }
      exists self'. rewrite Hopen. unfold GridStore.deleteChunks. rewrite Hid.
      repeat split; assumption.
    + simpl. rewrite Hmode. simpl.
      match goal with
      | |- context [GridStore.open_mode true ?s d] =>
        destruct (open_mode_truncate true s d) as (self' & Hopen & Hcur & Hpos & Hm & Hid & _)
      end.
      { exact Hmode. }
      exists self'. rewrite Hopen. unfold GridStore.deleteChunks. rewrite Hid.
      repeat split; assumption.
  - match goal with
    | |- context [GridStore.open_mode false ?s d] =>
      destruct (open_mode_truncate false s d) as (self' & Hopen & Hcur & Hpos & Hm & Hid & _)
    end.
    { exact Hmode. }
    exists self'. rewrite Hopen. unfold GridStore.deleteChunks. rewrite Hid.
    repeat split; assumption.
Qed.

(** Opening in mode "w" starts a session: the chunks of the file are gone,
    the current chunk is a new chunk 0 and nothing is written yet. *)
Lemma open_starts_session (self0 self1 : GridStore.t) (d0 d1 : Db) fresh :
  GridStore.mode self0 = "w" ->
  GridStore.open StringToNumber toHexString self0 d0 fresh = (GridStore.Ok (), self1, d1) ->
  is_Some (GridStore.fileId self1) ->
  1 <= GridStore.chunkSize self1 ->
  Session.in_progress self1 d1 [] /\ files d1 = files d0.
Proof.
  intros Hmode Hopen Hid Hc.
  unfold GridStore.open in Hopen. rewrite Hmode in Hopen. simpl in Hopen.
  destruct (WriteConcern._getWriteConcern _ _ _ _) as [e | wc]; [ discriminate | ].
  destruct (open_truncate self0 d0 fresh Hmode) as (self' & Hopen' & Hcur & Hpos & Hm).
  rewrite Hopen' in Hopen. inversion Hopen; subst self1 d1; clear Hopen.
  simpl in Hid, Hc.
  split.
  - exists 0%nat, 0%nat. cbn zeta.
    split; [ reflexivity | ].
    split; [ unfold GridStore.chunkSize in *; simpl; lia | ].
    split; [ simpl; rewrite Hm; reflexivity | ].
    split; [ exact Hc | ].
    split; [ simpl; exact Hpos | ].
    split; [ simpl; rewrite Hcur; reflexivity | ].
    intros n. simpl.
    rewrite bool_decide_eq_false_2 by (unfold GridStore.chunkSize in *; simpl in *; nia).
    unfold GridStore.deleteChunks, Collection.chunks_of, Collection.remove_chunks.
    destruct Hid as [id Hid]. rewrite Hid. simpl.
    rewrite lookup_delete_eq. reflexivity.
  - unfold GridStore.deleteChunks. destruct (GridStore.fileId self'); reflexivity.
Qed.

End Opening.

(** ** What a stored layout means *)

Lemma pieces_bound (size len n : Z) :
  1 <= size -> 0 <= len ->
  (0 <= n /\ n * size < len) <-> 0 <= n < Layout.pieces size len.
Proof.
  intros Hsize Hlen. unfold Layout.pieces.
  pose proof (Z.div_mod (len + size - 1) size ltac:(lia)) as Hdiv.
  pose proof (Z.mod_pos_bound (len + size - 1) size ltac:(lia)) as Hmod.
  split; intros H; (split; [ lia | nia ]).
Qed.

Lemma stored_present (size : Z) (payload : Buffer) (docs : gmap Z Buffer) :
  1 <= size ->
  Layout.stored size payload docs ->
  forall n, is_Some (docs !! n)
            <-> 0 <= n < Layout.pieces size (Z.of_nat (length payload)).
Proof.
  intros Hsize Hstored n. rewrite Hstored.
  rewrite <- pieces_bound by lia.
  destruct (decide (0 <= n /\ n * size < Z.of_nat (length payload))) as [Hn | Hn].
  - rewrite (bool_decide_eq_true_2 _ Hn). split; [ intros _; exact Hn | eauto ].
  - rewrite (bool_decide_eq_false_2 _ Hn).
    split; [ intros [x Hx]; discriminate | intros H; contradiction ].
Qed.

Lemma stored_size (size : Z) (payload : Buffer) (docs : gmap Z Buffer) :
  1 <= size ->
  Layout.stored size payload docs ->
  Z.of_nat (base.size docs) = Layout.pieces size (Z.of_nat (length payload)).
Proof.
  intros Hsize Hstored.
  set (k := Layout.pieces size (Z.of_nat (length payload))).
  assert (Hk : 0 <= k).
  { unfold k, Layout.pieces. apply Z.div_pos; lia. }
  assert (Hdom : dom docs = list_to_set (Z.of_nat <$> seq 0 (Z.to_nat k))).
  { apply set_eq. intros n.
    rewrite elem_of_dom, (stored_present size payload docs Hsize Hstored n).
    rewrite elem_of_list_to_set, list_elem_of_fmap. fold k.
    split.
    - intros Hn. exists (Z.to_nat n). split; [ lia | apply elem_of_seq; lia ].
    - intros [i [-> Hi]]. apply elem_of_seq in Hi. lia. }
  rewrite <- size_dom, Hdom, size_list_to_set.
  - rewrite length_fmap, length_seq. lia.
  - apply NoDup_fmap; [ apply Nat2Z.inj' | apply NoDup_seq ].
Qed.

Lemma stored_lengths (size : Z) (payload : Buffer) (docs : gmap Z Buffer) :
  1 <= size ->
  Layout.stored size payload docs ->
  forall n data,
    docs !! n = Some data ->
    (0 < Z.of_nat (length data) <= size)
    /\ (n + 1 < Layout.pieces size (Z.of_nat (length payload)) ->
        Z.of_nat (length data) = size).
Proof.
  intros Hsize Hstored n data Hdata.
  rewrite Hstored in Hdata.
  destruct (decide (0 <= n /\ n * size < Z.of_nat (length payload))) as [Hn | Hn];
    [ rewrite (bool_decide_eq_true_2 _ Hn) in Hdata
    | rewrite (bool_decide_eq_false_2 _ Hn) in Hdata; discriminate ].
  inversion Hdata; subst data; clear Hdata.
  unfold Layout.piece. rewrite length_take, length_drop.
  split; [ nia | ].
  intros Hnext.
  assert (Hnext' : 0 <= n + 1 < Layout.pieces size (Z.of_nat (length payload))) by lia.
  apply (pieces_bound size (Z.of_nat (length payload)) (n + 1)) in Hnext'; [ | lia | lia ].
  nia.
Qed.

(** ** A whole write session *)

Section WholeSession.

Variable StringToNumber : string -> option Z.
Variable toHexString : N -> string.
Variable filemd5 : gmap Z Buffer -> option string.

(** C2, as the code has it: a file opened in mode "w" with a chunk size of
    at least 1, written in any number of writes and closed, has
    [ceil(L / chunkSize)] chunk documents for its [L] bytes (none for an
    empty file); they are numbered 0, 1, ... without gaps, every one but
    the last holds [chunkSize] bytes, none is empty or longer, and together
    they are the pieces of the bytes written. *)
Theorem chunks_after_close (self0 self1 : GridStore.t) (d0 d1 : Db) fresh
    (payloads : list Buffer) now :
  GridStore.mode self0 = "w" ->
  GridStore.open StringToNumber toHexString self0 d0 fresh
  = (GridStore.Ok (), self1, d1) ->
  is_Some (GridStore.fileId self1) ->
  1 <= GridStore.chunkSize self1 ->
  exists self2 d2 doc self3 d3,
    GridStore.write_all filemd5 self1 payloads now d1
    = Some (GridStore.Ok (), self2, d2)
    /\ GridStore.close filemd5 self2 now d2 = (GridStore.Ok (Some doc), self3, d3)
    /\ let docs := Collection.chunks_of (GridStore.fileId self1) d3 in
       let size := GridStore.chunkSize self1 in
       let count := Layout.pieces size (Z.of_nat (length (concat payloads))) in
       Z.of_nat (base.size docs) = count
       /\ (forall n, is_Some (docs !! n) <-> 0 <= n < count)
       /\ (forall n data, docs !! n = Some data ->
             0 < Z.of_nat (length data) <= size
             /\ (n + 1 < count -> Z.of_nat (length data) = size))
       /\ Layout.stored size (concat payloads) docs.
Proof.
  intros Hmode Hopen Hid Hc.
  destruct (open_starts_session StringToNumber toHexString self0 self1 d0 d1 fresh
              Hmode Hopen Hid Hc) as [Hstart _].
  destruct (write_all_in_progress filemd5 payloads self1 d1 [] now Hstart)
    as (self2 & d2 & Hwrite & Hin & Hid2 & Hsz2 & _).
  destruct (close_in_progress filemd5 self2 d2 _ now Hin)
    as (doc & self3 & d3 & Hclose & Hstored & _).
  simpl in Hstored. rewrite Hid2, Hsz2 in Hstored.
  exists self2, d2, doc, self3, d3.
  split; [ exact Hwrite | ]. split; [ exact Hclose | ].
  cbn zeta.
  split; [ apply stored_size; assumption | ].
  split; [ apply stored_present; assumption | ].
  split; [ apply stored_lengths; assumption | exact Hstored ].
Qed.

End WholeSession.

Lemma chunks_after_close_witness :
  exists self2 d2 doc self3 d3,
    GridStore.write_all Examples.no_md5 Examples.writer
      [list_byte_of_string "hello "; list_byte_of_string "world"] 0
      (Examples.db_of Examples.writer_opened)
    = Some (GridStore.Ok (), self2, d2)
    /\ GridStore.close Examples.no_md5 self2 0 d2 = (GridStore.Ok (Some doc), self3, d3)
    /\ let docs := Collection.chunks_of (GridStore.fileId Examples.writer) d3 in
       let size := GridStore.chunkSize Examples.writer in
       let count :=
         Layout.pieces size
           (Z.of_nat (length (concat [list_byte_of_string "hello ";
                                      list_byte_of_string "world"]))) in
       Z.of_nat (base.size docs) = count
       /\ (forall n, is_Some (docs !! n) <-> 0 <= n < count)
       /\ (forall n data, docs !! n = Some data ->
             0 < Z.of_nat (length data) <= size
             /\ (n + 1 < count -> Z.of_nat (length data) = size))
       /\ Layout.stored size
            (concat [list_byte_of_string "hello "; list_byte_of_string "world"]) docs.
Proof.
  apply (chunks_after_close Examples.no_number Examples.no_hex Examples.no_md5
           Examples.writer_created Examples.writer Examples.empty_db
           (Examples.db_of Examples.writer_opened) 3%N).
  - reflexivity.
  - reflexivity.
  - eexists. reflexivity.
  - vm_compute. discriminate.
Defined.

(** C2, as stated, fails for the empty file: closed with nothing written,
    it has no chunk document, where the claim counts max(1, 0) = 1. *)
Lemma empty_file_has_no_chunk :
  base.size (Collection.chunks_of (GridStore.fileId Examples.writer)
               (Examples.db_of Examples.nothing_closed)) = 0%nat
  /\ Z.max 1 (Layout.pieces (GridStore.chunkSize Examples.writer) 0) = 1.
Proof. split; vm_compute; reflexivity. Qed.

(** The scenario of the specification: [hello world] with chunk size 4
    gives three chunks of 4, 4 and 3 bytes. *)
Example hello_world_chunks :
  (fun n => Collection.chunks_of (GridStore.fileId Examples.writer)
              (Examples.db_of Examples.hello_closed) !! n) <$> [0; 1; 2; 3]
  = [Some (list_byte_of_string "hell"); Some (list_byte_of_string "o wo");
     Some (list_byte_of_string "rld"); None].
Proof. vm_compute. reflexivity. Qed.

(** ** Reading *)

(** One turn of [read], spelled out. *)
Lemma read_unfold fuel (self : GridStore.t) length_arg buffer d :
  GridStore.read fuel self length_arg buffer d =
  let finalLength :=
    match length_arg with
    | None => GridStore.length self - GridStore.position self
    | Some l => l
    end in
  let finalBuffer :=
    match buffer with
    | None => Buf.alloc finalLength
    | Some b => GridStore.bytes b
    end in
  let index :=
    match buffer with
    | Some b => GridStore.or_default (GridStore._index b) 0
    | None => 0
    end in
  match GridStore.currentChunk self with
  | None => Some (GridStore.Thrown TypeError, self)
  | Some current =>
    if Chunk.length current - Chunk.position current + index >=? finalLength then
      let '(slice, current) := Chunk.readSlice current (finalLength - index) in
      let finalBuffer := Buf.copy slice finalBuffer index in
      let self := GridStore.set_currentChunk (Some current) self in
      let self :=
        GridStore.set_position
          (GridStore.position self + Z.of_nat (length finalBuffer)) self in
      if (finalLength =? 0) && (Z.of_nat (length finalBuffer) =? 0)
      then Some (GridStore.Failed (Error "File does not exist"), self)
      else Some (GridStore.Ok (GridStore.mkReadBuffer finalBuffer (Some index)), self)
    else
      let '(slice, current) :=
        Chunk.readSlice current (Chunk.length current - Chunk.position current) in
      let finalBuffer := Buf.copy slice finalBuffer index in
      let index := index + Z.of_nat (length slice) in
      let self := GridStore.set_currentChunk (Some current) self in
      let chunk := GridStore.nthChunk self (Chunk.chunkNumber current + 1) d in
      if Chunk.length chunk >? 0 then
        match fuel with
        | O => None
        | S fuel' =>
          GridStore.read fuel' (GridStore.set_currentChunk (Some chunk) self) length_arg
            (Some (GridStore.mkReadBuffer finalBuffer (Some index))) d
        end
      else if index >? 0 then
        Some (GridStore.Ok (GridStore.mkReadBuffer finalBuffer (Some index)), self)
      else
        Some (GridStore.Failed (Error "no chunks found for file, possibly corrupt"), self)
  end.
Proof. destruct fuel; reflexivity. Qed.

(** A read without a buffer is a read into a new buffer, from index 0. *)
Lemma read_allocates fuel (self : GridStore.t) d :
  GridStore.read fuel self None None d
  = GridStore.read fuel self None
      (Some (GridStore.mkReadBuffer
               (Buf.alloc (GridStore.length self - GridStore.position self))
               (Some 0))) d.
Proof. rewrite !read_unfold. reflexivity. Qed.

Lemma piece_nonempty (size : nat) (payload : Buffer) (n : nat) :
  (0 < size)%nat -> (n * size < length payload)%nat ->
  (0 < length (Layout.piece size payload n))%nat.
Proof.
  intros Hsize Hn. unfold Layout.piece. rewrite length_take, length_drop. lia.
Qed.

(** The chunk that holds the end of the payload completes the read. *)
Lemma read_last (c : Z) (payload : Buffer) (d : Db) fuel (k : nat)
    (self : GridStore.t) (filled : Buffer) :
  1 <= c ->
  let size := Z.to_nat c in
  GridStore.length self = Z.of_nat (length payload) ->
  GridStore.position self = 0 ->
  (k * size < length payload)%nat ->
  (length payload <= (k + 1) * size)%nat ->
  GridStore.currentChunk self
  = Some (Chunk.mk (Z.of_nat k) (Layout.piece size payload k) 0) ->
  length filled = length payload ->
  take (k * size) filled = take (k * size) payload ->
  exists index self',
    GridStore.read fuel self None
      (Some (GridStore.mkReadBuffer filled (Some (Z.of_nat (k * size))))) d
    = Some (GridStore.Ok (GridStore.mkReadBuffer payload (Some index)), self')
    /\ GridStore.position self' = Z.of_nat (length payload).
Proof.
  intros Hc size Hlength Hposition Hk Hlast Hcur Hfilled Htake.
  assert (Hpiece : Layout.piece size payload k = drop (k * size) payload)
    by (apply piece_last; lia).
  rewrite read_unfold. cbn zeta. rewrite Hcur. simpl GridStore.bytes.
  simpl GridStore.or_default. rewrite Hlength, Hposition, Z.sub_0_r.
  unfold Chunk.length, Chunk.readSlice. simpl Chunk.data. simpl Chunk.position.
  rewrite Hpiece, length_drop.
  change (Z.to_nat 0) with 0%nat. rewrite drop_0.
  match goal with
  | |- context [?a >=? ?b] => destruct (Z.geb_spec a b) as [_ | ?]; [ | lia ]
  end.
  replace (Z.to_nat (Z.of_nat (length payload) - Z.of_nat (k * size)))
    with (length payload - k * size)%nat by lia.
  rewrite (take_ge (drop (k * size) payload)) by (rewrite length_drop; lia).
  assert (Hcopy : Buf.copy (drop (k * size) payload) filled (Z.of_nat (k * size)) = payload).
  { unfold Buf.copy. rewrite Nat2Z.id, Htake.
    rewrite (take_ge (drop (k * size) payload)) by (rewrite length_drop; lia).
    rewrite (drop_ge filled) by (rewrite length_drop; lia).
    rewrite app_nil_r. apply take_drop. }
  rewrite Hcopy.
  match goal with
  | |- context [(?a =? 0) && _] => destruct (Z.eqb_spec a 0) as [? | _]; [ lia | ]
  end.
  cbn [andb]. eexists; eexists. split; [ reflexivity | ]. simpl. lia.
Qed.

(** Reading on from chunk [k], with the pieces before it in the buffer,
    delivers the payload. *)
Lemma read_rest (c : Z) (payload : Buffer) (d : Db) :
  1 <= c ->
  forall fuel (k : nat) (self : GridStore.t) (filled : Buffer),
    let size := Z.to_nat c in
    Layout.stored c payload (Collection.chunks_of (GridStore.fileId self) d) ->
    GridStore.length self = Z.of_nat (length payload) ->
    GridStore.position self = 0 ->
    (k * size < length payload)%nat ->
    (length payload <= (k + 1 + fuel) * size)%nat ->
    GridStore.currentChunk self
    = Some (Chunk.mk (Z.of_nat k) (Layout.piece size payload k) 0) ->
    length filled = length payload ->
    take (k * size) filled = take (k * size) payload ->
    exists index self',
      GridStore.read fuel self None
        (Some (GridStore.mkReadBuffer filled (Some (Z.of_nat (k * size))))) d
      = Some (GridStore.Ok (GridStore.mkReadBuffer payload (Some index)), self')
      /\ GridStore.position self' = Z.of_nat (length payload).
Proof.
  intros Hc fuel. induction fuel as [ | fuel IH];
    intros k self filled size Hstored Hlength Hposition Hk Hfuel Hcur Hfilled Htake.
  - apply (read_last c); try assumption. fold size. lia.
  - destruct (Nat.le_gt_cases (length payload) ((k + 1) * size)) as [Hlast | Hmore].
    + apply (read_last c); assumption.
    + (* a whole chunk, and more to come *)
      assert (Hlen : length (Layout.piece size payload k) = size)
        by (apply piece_length; lia).
      rewrite read_unfold. cbn zeta. rewrite Hcur. simpl GridStore.bytes.
      simpl GridStore.or_default. rewrite Hlength, Hposition, Z.sub_0_r.
      unfold Chunk.length at 1 2, Chunk.readSlice.
      simpl Chunk.data. simpl Chunk.position.
      rewrite Hlen.
      change (Z.to_nat 0) with 0%nat. rewrite drop_0.
      match goal with
      | |- context [?a >=? ?b] => destruct (Z.geb_spec a b) as [? | _]; [ lia | ]
      end.
      rewrite Nat2Z.id.
      rewrite (take_ge (Layout.piece size payload k)) by lia.
      rewrite Hlen.
      simpl Chunk.chunkNumber.
      match goal with
      | |- context [GridStore.nthChunk ?s ?n d] =>
        assert (Hnext : GridStore.nthChunk s n d
                = Chunk.mk (Z.of_nat (k + 1)) (Layout.piece size payload (k + 1)) 0)
      end.
      { unfold GridStore.nthChunk, Collection.find_chunk. simpl GridStore.fileId.
        rewrite Hstored.
        rewrite bool_decide_eq_true_2 by nia.
        unfold Chunk.new. simpl. f_equal; [ lia | ].
        fold size. f_equal. lia. }
      rewrite Hnext. unfold Chunk.length. simpl Chunk.data.
      pose proof (piece_nonempty size payload (k + 1) ltac:(lia) ltac:(lia)) as Hne.
      match goal with
      | |- context [?a >? 0] => destruct (Z.gtb_spec a 0) as [_ | ?]; [ | lia ]
      end.
      replace (Z.of_nat (k * size) + Z.of_nat size) with (Z.of_nat ((k + 1) * size))
        by lia.
      apply IH; try assumption; try lia; try reflexivity.
      * rewrite copy_length. exact Hfilled.
      * unfold Buf.copy. rewrite Nat2Z.id, Htake.
        rewrite (take_ge (Layout.piece size payload k)) by lia.
        rewrite app_assoc.
        rewrite take_app_le by (rewrite length_app, length_take, Hlen; lia).
        rewrite take_ge by (rewrite length_app, length_take, Hlen; lia).
        unfold Layout.piece. rewrite take_take_drop. f_equal. lia.
Qed.

Section ReadBack.

Variable StringToNumber : string -> option Z.
Variable toHexString : N -> string.
Variable filemd5 : gmap Z Buffer -> option string.

Lemma open_mode_read (self : GridStore.t) (d : Db) :
  GridStore.mode self = "r" ->
  GridStore.open_mode true self d
  = (GridStore.Ok (),
     GridStore.set_position 0
       (GridStore.set_currentChunk (Some (GridStore.nthChunk self 0 d)) self), d).
Proof. intros Hmode. unfold GridStore.open_mode. rewrite Hmode. reflexivity. Qed.

(** Opening a reader on a file that is found by its identifier. *)
Lemma open_for_reading (rd : GridStore.t) (d : Db) fresh (doc : FileDoc) wc :
  Session.reader_of (doc_id doc) rd ->
  is_Some (doc_id doc) ->
  Collection.find (Collection.by_id (doc_id doc)) (files d) = Some doc ->
  WriteConcern._getWriteConcern StringToNumber (GridStore.db rd)
    (GridStore.opt_concern (GridStore.options rd))
    (GridStore.opt_safe (GridStore.options rd)) = inr wc ->
  exists rd',
    GridStore.open StringToNumber toHexString rd d fresh = (GridStore.Ok (), rd', d)
    /\ GridStore.length rd' = doc_length doc
    /\ GridStore.position rd' = 0
    /\ GridStore.fileId rd' = doc_id doc
    /\ GridStore.currentChunk rd'
       = Some (match Collection.find_chunk (doc_id doc) 0 d with
               | Some bytes => Chunk.new (Some 0) (Some bytes)
               | None => Chunk.new None None
               end).
Proof.
  intros (Hmode & Href & Hid) [id Hsome] Hfind Hwc.
  unfold GridStore.open. rewrite Hmode, Hwc. simpl.
  unfold GridStore._open. rewrite Hid, Href, Hsome. simpl.
  rewrite <- Hsome, Hfind.
  rewrite open_mode_read by (destruct (_ || _); simpl; exact Hmode).
  eexists. split; [ reflexivity | ].
  destruct (_ || _); repeat split.
Qed.

(** C1, as the code has it: the bytes written to a file opened in mode "w"
    with a chunk size of at least 1, in any number of writes, are what a
    reader of the closed file gets from a read in full, provided at least
    one byte was written. *)
Theorem read_back_what_was_written (self0 self1 : GridStore.t) (d0 d1 : Db) fresh
    (payloads : list Buffer) now (rd : GridStore.t) fresh' wc :
  GridStore.mode self0 = "w" ->
  GridStore.open StringToNumber toHexString self0 d0 fresh
  = (GridStore.Ok (), self1, d1) ->
  is_Some (GridStore.fileId self1) ->
  1 <= GridStore.chunkSize self1 ->
  concat payloads <> [] ->
  Session.reader_of (GridStore.fileId self1) rd ->
  WriteConcern._getWriteConcern StringToNumber (GridStore.db rd)
    (GridStore.opt_concern (GridStore.options rd))
    (GridStore.opt_safe (GridStore.options rd)) = inr wc ->
  exists self2 d2 doc self3 d3 rd1,
    GridStore.write_all filemd5 self1 payloads now d1
    = Some (GridStore.Ok (), self2, d2)
    /\ GridStore.close filemd5 self2 now d2 = (GridStore.Ok (Some doc), self3, d3)
    /\ GridStore.open StringToNumber toHexString rd d3 fresh'
       = (GridStore.Ok (), rd1, d3)
    /\ forall fuel,
         (length (concat payloads)
          <= (1 + fuel) * Z.to_nat (GridStore.chunkSize self1))%nat ->
         exists index rd2,
           GridStore.read fuel rd1 None None d3
           = Some (GridStore.Ok
                     (GridStore.mkReadBuffer (concat payloads) (Some index)), rd2)
           /\ GridStore.position rd2 = Z.of_nat (length (concat payloads)).
Proof.
  intros Hmode Hopen Hid Hc Hne Hreader Hwc.
  destruct (open_starts_session StringToNumber toHexString self0 self1 d0 d1 fresh
              Hmode Hopen Hid Hc) as [Hstart _].
  destruct (write_all_in_progress filemd5 payloads self1 d1 [] now Hstart)
    as (self2 & d2 & Hwrite & Hin & Hid2 & Hsz2 & _).
  destruct (close_in_progress filemd5 self2 d2 _ now Hin)
    as (doc & self3 & d3 & Hclose & Hstored & Hfound & Hdocid & Hdoclen & _).
  simpl in Hstored, Hdoclen. rewrite Hid2 in Hstored, Hfound, Hdocid.
  rewrite Hsz2 in Hstored.
  rewrite <- Hdocid in Hreader, Hfound, Hid, Hstored.
  destruct (open_for_reading rd d3 fresh' doc wc Hreader Hid Hfound Hwc)
    as (rd1 & Hopen1 & Hlen1 & Hpos1 & Hid1 & Hcur1).
  exists self2, d2, doc, self3, d3, rd1.
  split; [ exact Hwrite | ]. split; [ exact Hclose | ]. split; [ exact Hopen1 | ].
  intros fuel Hfuel.
  set (payload := concat payloads) in *.
  assert (Hlen : (0 < length payload)%nat).
  { destruct payload; [ contradiction | simpl; lia ]. }
  rewrite read_allocates, Hlen1, Hpos1, Hdoclen, Z.sub_0_r.
  apply (read_rest (GridStore.chunkSize self1) payload d3 Hc fuel 0%nat).
  - rewrite Hid1. exact Hstored.
  - congruence.
  - exact Hpos1.
  - simpl. exact Hlen.
  - lia.
  - rewrite Hcur1. unfold Collection.find_chunk. rewrite Hstored.
    rewrite bool_decide_eq_true_2 by lia. reflexivity.
  - unfold Buf.alloc. rewrite length_replicate. lia.
  - reflexivity.
Qed.

End ReadBack.

Lemma read_back_what_was_written_witness :
  exists self2 d2 doc self3 d3 rd1,
    GridStore.write_all Examples.no_md5 Examples.writer
      [list_byte_of_string "hello "; list_byte_of_string "world"] 0
      (Examples.db_of Examples.writer_opened)
    = Some (GridStore.Ok (), self2, d2)
    /\ GridStore.close Examples.no_md5 self2 0 d2 = (GridStore.Ok (Some doc), self3, d3)
    /\ GridStore.open Examples.no_number Examples.no_hex Examples.reader_created d3 5%N
       = (GridStore.Ok (), rd1, d3)
    /\ forall fuel,
         (length (concat [list_byte_of_string "hello "; list_byte_of_string "world"])
          <= (1 + fuel) * Z.to_nat (GridStore.chunkSize Examples.writer))%nat ->
         exists index rd2,
           GridStore.read fuel rd1 None None d3
           = Some (GridStore.Ok
                     (GridStore.mkReadBuffer
                        (concat [list_byte_of_string "hello ";
                                 list_byte_of_string "world"]) (Some index)), rd2)
           /\ GridStore.position rd2
              = Z.of_nat (length (concat [list_byte_of_string "hello ";
                                          list_byte_of_string "world"])).
Proof.
  apply (read_back_what_was_written Examples.no_number Examples.no_hex Examples.no_md5
           Examples.writer_created Examples.writer Examples.empty_db
           (Examples.db_of Examples.writer_opened) 3%N _ 0 Examples.reader_created 5%N
           (WriteConcern.only_w 1)).
  - reflexivity.
  - reflexivity.
  - eexists. reflexivity.
  - vm_compute. discriminate.
  - discriminate.
  - repeat split.
  - reflexivity.
Defined.

Section ReadNothing.

Variable StringToNumber : string -> option Z.
Variable toHexString : N -> string.
Variable filemd5 : gmap Z Buffer -> option string.

(** The other side of C1: a file closed with no byte written is read back
    as the error of a file that does not exist. *)
Lemma read_back_nothing (self0 self1 : GridStore.t) (d0 d1 : Db) fresh
    (payloads : list Buffer) now (rd : GridStore.t) fresh' wc :
  GridStore.mode self0 = "w" ->
  GridStore.open StringToNumber toHexString self0 d0 fresh
  = (GridStore.Ok (), self1, d1) ->
  is_Some (GridStore.fileId self1) ->
  1 <= GridStore.chunkSize self1 ->
  concat payloads = [] ->
  Session.reader_of (GridStore.fileId self1) rd ->
  WriteConcern._getWriteConcern StringToNumber (GridStore.db rd)
    (GridStore.opt_concern (GridStore.options rd))
    (GridStore.opt_safe (GridStore.options rd)) = inr wc ->
  exists self2 d2 doc self3 d3 rd1,
    GridStore.write_all filemd5 self1 payloads now d1
    = Some (GridStore.Ok (), self2, d2)
    /\ GridStore.close filemd5 self2 now d2 = (GridStore.Ok (Some doc), self3, d3)
    /\ GridStore.open StringToNumber toHexString rd d3 fresh'
       = (GridStore.Ok (), rd1, d3)
    /\ forall fuel,
         exists rd2,
           GridStore.read fuel rd1 None None d3
           = Some (GridStore.Failed (Error "File does not exist"), rd2).
Proof.
  intros Hmode Hopen Hid Hc Hnil Hreader Hwc.
  destruct (open_starts_session StringToNumber toHexString self0 self1 d0 d1 fresh
              Hmode Hopen Hid Hc) as [Hstart _].
  destruct (write_all_in_progress filemd5 payloads self1 d1 [] now Hstart)
    as (self2 & d2 & Hwrite & Hin & Hid2 & Hsz2 & _).
  destruct (close_in_progress filemd5 self2 d2 _ now Hin)
    as (doc & self3 & d3 & Hclose & Hstored & Hfound & Hdocid & Hdoclen & _).
  simpl in Hstored, Hdoclen. rewrite Hnil in Hstored, Hdoclen.
  rewrite Hid2 in Hstored, Hfound, Hdocid.
  rewrite <- Hdocid in Hreader, Hfound, Hid, Hstored.
  destruct (open_for_reading StringToNumber toHexString rd d3 fresh' doc wc
              Hreader Hid Hfound Hwc)
    as (rd1 & Hopen1 & Hlen1 & Hpos1 & Hid1 & Hcur1).
  exists self2, d2, doc, self3, d3, rd1.
  split; [ exact Hwrite | ]. split; [ exact Hclose | ]. split; [ exact Hopen1 | ].
  intros fuel.
  unfold Collection.find_chunk in Hcur1. rewrite Hstored in Hcur1.
  rewrite bool_decide_eq_false_2 in Hcur1 by (simpl; lia).
  rewrite read_unfold. cbn zeta. rewrite Hcur1, Hlen1, Hpos1, Hdoclen.
  simpl. eexists. reflexivity.
Qed.

End ReadNothing.

(** C1, as stated, fails for the empty payload: the file written with no
    bytes and closed is read back as an error, not as the empty sequence. *)
Lemma empty_file_read_fails :
  fst <$> GridStore.read 10 (Examples.handle_of Examples.reader_of_nothing) None None
            (Examples.db_of Examples.reader_of_nothing)
  = Some (GridStore.Failed (Error "File does not exist")).
Proof. vm_compute. reflexivity. Qed.

(** The scenario of the specification: [hello world] is read back. *)
Example hello_world_read_back :
  let rd := GridStore.open Examples.no_number Examples.no_hex Examples.reader_created
              (Examples.db_of Examples.hello_closed) 5%N in
  (fun r => GridStore.bytes <$> match r.1 with GridStore.Ok b => Some b | _ => None end)
    <$> GridStore.read 10 rd.1.2 None None rd.2
  = Some (Some Examples.hello_world).
Proof. vm_compute. reflexivity. Qed.

(** C4, as the code has it: when the current chunk is used up, more bytes
    are needed and the next chunk is missing or empty, the read fails with
    the corruption error if nothing has been copied into the buffer so
    far; if bytes have been copied, the buffer is delivered, filled up to
    its index, and no error is raised. *)
Theorem read_past_missing_chunk fuel (self : GridStore.t) length_arg buffer (d : Db)
    (cur : Chunk.t) :
  let finalLength :=
    match length_arg with
    | None => GridStore.length self - GridStore.position self
    | Some l => l
    end in
  let finalBuffer :=
    match buffer with
    | None => Buf.alloc finalLength
    | Some b => GridStore.bytes b
    end in
  let index :=
    match buffer with
    | Some b => GridStore.or_default (GridStore._index b) 0
    | None => 0
    end in
  let available := Chunk.length cur - Chunk.position cur in
  let slice := (Chunk.readSlice cur available).1 in
  let self' := GridStore.set_currentChunk (Some (Chunk.readSlice cur available).2) self in
  let copied := index + Z.of_nat (length slice) in
  GridStore.currentChunk self = Some cur ->
  available + index < finalLength ->
  Collection.find_chunk (GridStore.fileId self) (Chunk.chunkNumber cur + 1) d = None
  \/ Collection.find_chunk (GridStore.fileId self) (Chunk.chunkNumber cur + 1) d
     = Some [] ->
  (copied <= 0 ->
   GridStore.read fuel self length_arg buffer d
   = Some (GridStore.Failed (Error "no chunks found for file, possibly corrupt"), self'))
  /\ (0 < copied ->
      GridStore.read fuel self length_arg buffer d
      = Some (GridStore.Ok
                (GridStore.mkReadBuffer (Buf.copy slice finalBuffer index) (Some copied)),
              self')).
Proof.
  intros finalLength finalBuffer index available slice self' copied Hcur Hmore Hmissing.
  assert (Hnext : Chunk.length
                    (GridStore.nthChunk self' (Chunk.chunkNumber cur + 1) d) = 0).
  { unfold GridStore.nthChunk. change (GridStore.fileId self') with (GridStore.fileId self).
    destruct Hmissing as [-> | ->]; reflexivity. }
  assert (Hread :
    GridStore.read fuel self length_arg buffer d
    = if copied >? 0
      then Some (GridStore.Ok
                   (GridStore.mkReadBuffer (Buf.copy slice finalBuffer index) (Some copied)),
                 self')
      else Some (GridStore.Failed (Error "no chunks found for file, possibly corrupt"),
                 self')).
  { rewrite read_unfold. cbn zeta. rewrite Hcur.
    fold finalLength. fold index. fold finalBuffer. fold available.
    destruct (Z.geb_spec (available + index) finalLength) as [? | _]; [ lia | ].
    destruct (Chunk.readSlice cur available) as [s cur'] eqn:Hslice.
    unfold slice, self', copied in *. simpl fst in *. simpl snd in *.
    assert (Hnum : Chunk.chunkNumber cur' = Chunk.chunkNumber cur).
    { unfold Chunk.readSlice in Hslice. inversion Hslice. reflexivity. }
    rewrite Hnum, Hnext. reflexivity. }
  rewrite Hread. split; intros Hcopied.
  - destruct (Z.gtb_spec copied 0); [ lia | reflexivity ].
  - destruct (Z.gtb_spec copied 0); [ reflexivity | lia ].
Qed.

Lemma read_past_missing_chunk_witness :
  GridStore.read 10 (Examples.handle_of Examples.reader_on_gap) None None Examples.gap_db
  = Some (GridStore.Ok
            (GridStore.mkReadBuffer
               (Examples.abcd ++ [Byte.x00; Byte.x00; Byte.x00; Byte.x00]) (Some 4)),
          GridStore.set_currentChunk (Some (Chunk.mk 0 Examples.abcd 4))
            (Examples.handle_of Examples.reader_on_gap)).
Proof.
  apply (read_past_missing_chunk 10 (Examples.handle_of Examples.reader_on_gap)
           None None Examples.gap_db (Chunk.mk 0 Examples.abcd 0)).
  - reflexivity.
  - vm_compute. reflexivity.
  - left. reflexivity.
  - vm_compute. reflexivity.
Defined.

(** C4, as stated, fails: chunk 1 of an 8-byte file is missing, the read
    in full has copied chunk 0 and needs 4 more bytes, and the caller gets
    the buffer (its last 4 bytes never written) instead of an error. *)
Lemma missing_chunk_read_succeeds :
  Collection.find_chunk (Some (IdObjectID 1)) 1 Examples.gap_db = None
  /\ fst <$> GridStore.read 10 (Examples.handle_of Examples.reader_on_gap) None None
               Examples.gap_db
     = Some (GridStore.Ok
               (GridStore.mkReadBuffer
                  (Examples.abcd ++ [Byte.x00; Byte.x00; Byte.x00; Byte.x00]) (Some 4))).
Proof. split; vm_compute; reflexivity. Qed.

(** * Further properties of the handle and the cursor *)

(** ** Reading a range *)

(** A read without a buffer is a read into a new buffer, whatever length
    is asked for. *)
Lemma read_allocates_any fuel (self : GridStore.t) length_arg d :
  GridStore.read fuel self length_arg None d
  = GridStore.read fuel self length_arg
      (Some (GridStore.mkReadBuffer
               (Buf.alloc (match length_arg with
                           | None => GridStore.length self - GridStore.position self
                           | Some l => l
                           end))
               (Some 0))) d.
Proof. rewrite !read_unfold. reflexivity. Qed.

Lemma piece_size_length (size : nat) (payload : Buffer) (k : nat) :
  length (Layout.piece size payload k)
  = Nat.min size (length payload - k * size).
Proof. unfold Layout.piece. rewrite length_take, length_drop. reflexivity. Qed.

Lemma piece_slice (size : nat) (payload : Buffer) (k cur m : nat) :
  (cur + m <= length (Layout.piece size payload k))%nat ->
  take m (drop cur (Layout.piece size payload k))
  = take m (drop (k * size + cur) payload).
Proof.
  intros Hfit. rewrite piece_size_length in Hfit.
  unfold Layout.piece.
  replace (take size (drop (k * size) payload))
    with (take (cur + (size - cur)) (drop (k * size) payload)) by (f_equal; lia).
  rewrite <- take_drop_commute, drop_drop.
  rewrite take_take. f_equal. lia.
Qed.

(** The loop of [read], from chunk [k] on: [n] bytes are wanted from byte
    [p0] of the payload, and the buffer holds the first [i] of them. *)
Lemma read_span (c : Z) (payload : Buffer) (d : Db) (p0 n : nat) length_arg :
  1 <= c ->
  (p0 + n <= length payload)%nat ->
  forall fuel (k cur i : nat) (self : GridStore.t) (filled : Buffer),
    let size := Z.to_nat c in
    Layout.stored c payload (Collection.chunks_of (GridStore.fileId self) d) ->
    match length_arg with
    | None => GridStore.length self - GridStore.position self
    | Some l => l
    end = Z.of_nat n ->
    GridStore.position self = Z.of_nat p0 ->
    (p0 + i = k * size + cur)%nat ->
    (cur <= length (Layout.piece size payload k))%nat ->
    (i < n)%nat ->
    (p0 + n <= (k + 1 + fuel) * size)%nat ->
    GridStore.currentChunk self
    = Some (Chunk.mk (Z.of_nat k) (Layout.piece size payload k) (Z.of_nat cur)) ->
    length filled = n ->
    take i filled = take i (drop p0 payload) ->
    exists index k' cur' self',
      GridStore.read fuel self length_arg
        (Some (GridStore.mkReadBuffer filled (Some (Z.of_nat i)))) d
      = Some (GridStore.Ok
                (GridStore.mkReadBuffer (take n (drop p0 payload)) (Some index)),
              self')
      /\ GridStore.position self' = Z.of_nat (p0 + n)
      /\ (p0 + n = k' * size + cur')%nat
      /\ (cur' <= length (Layout.piece size payload k'))%nat
      /\ GridStore.currentChunk self'
         = Some (Chunk.mk (Z.of_nat k') (Layout.piece size payload k') (Z.of_nat cur'))
      /\ GridStore.fileId self' = GridStore.fileId self
      /\ GridStore.length self' = GridStore.length self
      /\ GridStore.chunkSize self' = GridStore.chunkSize self
      /\ GridStore.mode self' = GridStore.mode self.
Proof.
  intros Hc Hrange fuel. induction fuel as [ | fuel IH];
    intros k cur i self filled size Hstored Hfinal Hposition Habs Hcur Hneed Hfuel
           Hchunk Hfilled Htake.
  all: pose proof (piece_size_length size payload k) as Hplen.
  all: rewrite read_unfold; cbn zeta; rewrite Hchunk; simpl GridStore.bytes;
    simpl GridStore.or_default; rewrite Hfinal;
    unfold Chunk.length, Chunk.readSlice; simpl Chunk.data; simpl Chunk.position;
    simpl Chunk.chunkNumber.
  all: match goal with
       | |- context [?a >=? ?b] => destruct (Z.geb_spec a b) as [Hlast | Hmore]
       end.
  (* the chunk at hand holds the rest *)
  1, 3:
    replace (Z.to_nat (Z.of_nat n - Z.of_nat i)) with (n - i)%nat by lia;
    rewrite Nat2Z.id;
    rewrite (piece_slice size payload k cur (n - i)) by lia;
    assert (Hcopy :
      Buf.copy (take (n - i) (drop (k * size + cur) payload)) filled (Z.of_nat i)
      = take n (drop p0 payload));
    [ unfold Buf.copy; rewrite Nat2Z.id, Htake;
      rewrite (take_ge (take (n - i) _))
        by (rewrite length_take, length_drop; lia);
      rewrite (drop_ge filled)
        by (rewrite length_take, length_drop; lia);
      rewrite app_nil_r;
      replace (k * size + cur)%nat with (p0 + i)%nat by lia;
      rewrite <- drop_drop;
      rewrite take_take_drop; f_equal; lia
    | rewrite Hcopy;
      assert (Hlen : length (take n (drop p0 payload)) = n)
        by (rewrite length_take, length_drop; lia);
      rewrite Hlen;
      match goal with
      | |- context [(?a =? 0) && _] => destruct (Z.eqb_spec a 0) as [? | _]; [ lia | ]
      end;
      cbn [andb];
      exists (Z.of_nat i), k, (cur + (n - i))%nat; eexists;
      split; [ reflexivity | ];
      split; [ simpl; rewrite Hposition; lia | ];
      split; [ lia | ];
      split; [ lia | ];
      split; [ simpl; do 2 f_equal;
               rewrite length_take, length_drop; lia | ];
      repeat split ].
  - (* no fuel, and more chunks needed: excluded by the bound *)
    exfalso. lia.
  - (* the rest of this chunk, then the next one *)
    assert (Hwhole : length (Layout.piece size payload k) = size) by lia.
    rewrite Nat2Z.id.
    replace (Z.to_nat (Z.of_nat (length (Layout.piece size payload k)) - Z.of_nat cur))
      with (size - cur)%nat by lia.
    rewrite (take_ge (drop cur (Layout.piece size payload k)))
      by (rewrite length_drop; lia).
    rewrite length_drop, Hwhole.
    match goal with
    | |- context [GridStore.nthChunk ?s ?m d] =>
      assert (Hnext : GridStore.nthChunk s m d
              = Chunk.mk (Z.of_nat (k + 1)) (Layout.piece size payload (k + 1)) 0)
    end.
    { unfold GridStore.nthChunk, Collection.find_chunk. simpl GridStore.fileId.
      rewrite Hstored.
      rewrite bool_decide_eq_true_2 by nia.
      unfold Chunk.new. simpl. f_equal; [ lia | ].
      fold size. f_equal. lia. }
    rewrite Hnext. unfold Chunk.length. simpl Chunk.data.
    pose proof (piece_size_length size payload (k + 1)) as Hnlen.
    match goal with
    | |- context [?a >? 0] => destruct (Z.gtb_spec a 0) as [_ | ?]; [ | lia ]
    end.
    replace (Z.of_nat i + Z.of_nat (size - cur)) with (Z.of_nat (i + (size - cur)))
      by lia.
    destruct (IH (k + 1)%nat 0%nat (i + (size - cur))%nat
                (GridStore.set_currentChunk
                   (Some (Chunk.mk (Z.of_nat (k + 1))
                            (Layout.piece size payload (k + 1)) 0))
                   (GridStore.set_currentChunk
                      (Some (Chunk.mk (Z.of_nat k) (Layout.piece size payload k)
                               (Z.of_nat cur + Z.of_nat (size - cur)))) self))
                (Buf.copy (drop cur (Layout.piece size payload k)) filled (Z.of_nat i)))
      as (index & k' & cur' & self' & Hread & Hrest); try assumption; try lia.
    + reflexivity.
    + rewrite copy_length. exact Hfilled.
    + unfold Buf.copy. rewrite Nat2Z.id, Htake.
      rewrite (take_ge (drop cur (Layout.piece size payload k)))
        by (rewrite length_drop; lia).
      rewrite app_assoc.
      rewrite take_app_le
        by (rewrite length_app, length_take, !length_drop; lia).
      rewrite take_ge
        by (rewrite length_app, length_take, !length_drop; lia).
      replace (drop cur (Layout.piece size payload k))
        with (take (size - cur) (drop cur (Layout.piece size payload k)))
        by (apply take_ge; rewrite length_drop; lia).
      rewrite (piece_slice size payload k cur (size - cur)) by lia.
      replace (k * size + cur)%nat with (p0 + i)%nat by lia.
      rewrite <- drop_drop. rewrite take_take_drop. reflexivity.
    + exists index, k', cur', self'.
      split; [ exact Hread | ]. exact Hrest.
Qed.

(** A read of [n] bytes, asked for by number or as the rest of the file,
    from a handle whose head is at byte [p]. *)
Lemma read_at_offset (self : GridStore.t) (d : Db) (payload : Buffer) (p n : nat)
    length_arg fuel :
  Session.at_offset self d payload p ->
  (0 < n)%nat ->
  (p + n <= length payload)%nat ->
  match length_arg with
  | Some l => l = Z.of_nat n
  | None => (p + n)%nat = length payload
  end ->
  (n <= fuel)%nat ->
  exists index self',
    GridStore.read fuel self length_arg None d
    = Some (GridStore.Ok
              (GridStore.mkReadBuffer (take n (drop p payload)) (Some index)), self')
    /\ Session.at_offset self' d payload (p + n)
    /\ GridStore.mode self' = GridStore.mode self.
Proof.
  intros (k & cur & Hc & Hp & Hcur & Hstored & Hlength & Hposition & Hchunk)
         Hn Hrange Harg Hfuel.
  set (size := Z.to_nat (GridStore.chunkSize self)) in *.
  assert (Hfinal : match length_arg with
                   | None => GridStore.length self - GridStore.position self
                   | Some l => l
                   end = Z.of_nat n).
  { destruct length_arg as [l | ]; [ exact Harg | ]. rewrite Hlength, Hposition. lia. }
  pose proof (piece_size_length size payload k) as Hplen.
  rewrite read_allocates_any, Hfinal.
  destruct (read_span (GridStore.chunkSize self) payload d p n length_arg Hc Hrange
              fuel k cur 0%nat self (Buf.alloc (Z.of_nat n)))
    as (index & k' & cur' & self' & Hread & Hpos' & Hp' & Hcur' & Hchunk' & Hid' & Hlen'
        & Hsize' & Hmode'); try assumption; try (fold size; lia).
  - fold size. nia.
  - unfold Buf.alloc. rewrite length_replicate. lia.
  - reflexivity.
  - exists index, self'. split; [ exact Hread | ]. split; [ | exact Hmode' ].
    exists k', cur'. cbn zeta. rewrite Hsize', Hid', Hlen'. fold size.
    repeat split; assumption.
Qed.

(** X2 (read, tell): two reads in a row deliver consecutive ranges of the
    file, which together are what one read of both lengths delivers, and
    [tell] then gives the byte after them. *)
Theorem read_twice (self : GridStore.t) (d : Db) (payload : Buffer) (p n1 n2 : nat)
    fuel1 fuel2 :
  Session.at_offset self d payload p ->
  (0 < n1)%nat -> (0 < n2)%nat ->
  (p + n1 + n2 <= length payload)%nat ->
  (n1 <= fuel1)%nat -> (n2 <= fuel2)%nat ->
  exists index1 self1 index2 self2,
    GridStore.read fuel1 self (Some (Z.of_nat n1)) None d
    = Some (GridStore.Ok
              (GridStore.mkReadBuffer (take n1 (drop p payload)) (Some index1)), self1)
    /\ GridStore.read fuel2 self1 (Some (Z.of_nat n2)) None d
       = Some (GridStore.Ok
                 (GridStore.mkReadBuffer (take n2 (drop (p + n1) payload)) (Some index2)),
               self2)
    /\ take n1 (drop p payload) ++ take n2 (drop (p + n1) payload)
       = take (n1 + n2) (drop p payload)
    /\ GridStore.tell self2 = Z.of_nat (p + n1 + n2).
Proof.
  intros Hat Hn1 Hn2 Hrange Hfuel1 Hfuel2.
  destruct (read_at_offset self d payload p n1 (Some (Z.of_nat n1)) fuel1 Hat Hn1
              ltac:(lia) eq_refl Hfuel1) as (index1 & self1 & Hread1 & Hat1 & _).
  destruct (read_at_offset self1 d payload (p + n1) n2 (Some (Z.of_nat n2)) fuel2 Hat1 Hn2
              ltac:(lia) eq_refl Hfuel2) as (index2 & self2 & Hread2 & Hat2 & _).
  exists index1, self1, index2, self2.
  split; [ exact Hread1 | ]. split; [ exact Hread2 | ].
  split.
  - rewrite <- drop_drop. apply take_take_drop.
  - destruct Hat2 as (k & cur & _ & _ & _ & _ & _ & Hpos & _). exact Hpos.
Qed.


Section Readers.

Variable StringToNumber : string -> option Z.
Variable toHexString : N -> string.
Variable filemd5 : gmap Z Buffer -> option string.

(** Opening a reader on a stored file puts its head on byte 0. *)
Lemma open_reader_at_start (rd : GridStore.t) (d : Db) fresh (doc : FileDoc) wc
    (payload : Buffer) :
  Session.reader_of (doc_id doc) rd ->
  is_Some (doc_id doc) ->
  Collection.find (Collection.by_id (doc_id doc)) (files d) = Some doc ->
  WriteConcern._getWriteConcern StringToNumber (GridStore.db rd)
    (GridStore.opt_concern (GridStore.options rd))
    (GridStore.opt_safe (GridStore.options rd)) = inr wc ->
  1 <= doc_chunkSize doc ->
  Layout.stored (doc_chunkSize doc) payload (Collection.chunks_of (doc_id doc) d) ->
  doc_length doc = Z.of_nat (length payload) ->
  exists rd',
    GridStore.open StringToNumber toHexString rd d fresh = (GridStore.Ok (), rd', d)
    /\ Session.at_offset rd' d payload 0
    /\ GridStore.mode rd' = "r"
    /\ GridStore.fileId rd' = doc_id doc.
Proof.
  intros (Hmode & Href & Hid) [id Hsome] Hfind Hwc Hc Hstored Hlength.
  unfold GridStore.open. rewrite Hmode, Hwc. simpl.
  unfold GridStore._open. rewrite Hid, Href, Hsome. simpl.
  rewrite <- Hsome, Hfind.
  rewrite open_mode_read by (destruct (_ || _); simpl; exact Hmode).
  eexists. split; [ reflexivity | ].
  assert (Hchunk : GridStore.nthChunk
                     (GridStore.set_fileId (doc_id doc) rd) 0 d
                   = Chunk.mk 0 (Layout.piece (Z.to_nat (doc_chunkSize doc)) payload 0) 0).
  { unfold GridStore.nthChunk, Collection.find_chunk. simpl. rewrite Hstored.
    destruct payload as [ | b payload].
    - rewrite bool_decide_eq_false_2 by (simpl; lia).
      unfold Layout.piece. rewrite drop_nil, take_nil. reflexivity.
    - rewrite bool_decide_eq_true_2 by (simpl length; lia). reflexivity. }
  split; [ | split ].
  - exists 0%nat, 0%nat. cbn zeta.
    destruct (_ || _); unfold GridStore.chunkSize; simpl;
      (split; [ exact Hc | ]); (split; [ reflexivity | ]); (split; [ lia | ]);
      (split; [ exact Hstored | ]); (split; [ exact Hlength | ]);
      (split; [ reflexivity | ]);
      unfold GridStore.nthChunk in *; simpl in *; rewrite Hchunk; reflexivity.
  - destruct (_ || _); simpl; exact Hmode.
  - destruct (_ || _); reflexivity.
Qed.

(** A file written in a session and closed is found by a reader with its
    head on byte 0. *)
Lemma written_file_opens (self0 self1 : GridStore.t) (d0 d1 : Db) fresh
    (payloads : list Buffer) now now' (rd : GridStore.t) fresh' wc :
  GridStore.mode self0 = "w" ->
  GridStore.open StringToNumber toHexString self0 d0 fresh
  = (GridStore.Ok (), self1, d1) ->
  is_Some (GridStore.fileId self1) ->
  1 <= GridStore.chunkSize self1 ->
  Session.reader_of (GridStore.fileId self1) rd ->
  WriteConcern._getWriteConcern StringToNumber (GridStore.db rd)
    (GridStore.opt_concern (GridStore.options rd))
    (GridStore.opt_safe (GridStore.options rd)) = inr wc ->
  exists self2 d2 doc self3 d3 rd1,
    GridStore.write_all filemd5 self1 payloads now d1
    = Some (GridStore.Ok (), self2, d2)
    /\ GridStore.close filemd5 self2 now' d2 = (GridStore.Ok (Some doc), self3, d3)
    /\ GridStore.open StringToNumber toHexString rd d3 fresh'
       = (GridStore.Ok (), rd1, d3)
    /\ Session.at_offset rd1 d3 (concat payloads) 0
    /\ GridStore.mode rd1 = "r"
    /\ GridStore.chunkSize rd1 = GridStore.chunkSize self1.
Proof.
  intros Hmode Hopen Hid Hc Hreader Hwc.
  destruct (open_starts_session StringToNumber toHexString self0 self1 d0 d1 fresh
              Hmode Hopen Hid Hc) as [Hstart _].
  destruct (write_all_in_progress filemd5 payloads self1 d1 [] now Hstart)
    as (self2 & d2 & Hwrite & Hin & Hid2 & Hsz2 & _).
  destruct (close_in_progress filemd5 self2 d2 _ now' Hin)
    as (doc & self3 & d3 & Hclose & Hstored & Hfound & Hdocid & Hdoclen & Hdocsize).
  simpl in Hstored, Hdoclen. rewrite Hid2 in Hstored, Hfound, Hdocid.
  rewrite Hsz2 in Hstored, Hdocsize.
  rewrite <- Hdocid in Hreader, Hfound, Hid, Hstored.
  rewrite <- Hdocsize in Hstored, Hc.
  destruct (open_reader_at_start rd d3 fresh' doc wc (concat payloads)
              Hreader Hid Hfound Hwc Hc Hstored Hdoclen)
    as (rd1 & Hopen1 & Hat & Hmode1 & Hid1).
  exists self2, d2, doc, self3, d3, rd1.
  split; [ exact Hwrite | ]. split; [ exact Hclose | ]. split; [ exact Hopen1 | ].
  split; [ exact Hat | ]. split; [ exact Hmode1 | ].
  rewrite <- Hdocsize.
  unfold GridStore.open in Hopen1.
  destruct Hreader as (Hm & Href & Hfid).
  rewrite Hm, Hwc in Hopen1. simpl in Hopen1.
  unfold GridStore._open in Hopen1. rewrite Hfid, Href in Hopen1.
  destruct Hid as [id Hsome]. rewrite Hsome in Hopen1. simpl in Hopen1.
  rewrite <- Hsome, Hfound in Hopen1.
  rewrite open_mode_read in Hopen1 by (destruct (_ || _); simpl; exact Hm).
  inversion Hopen1. destruct (_ || _); reflexivity.
Qed.

End Readers.

(** The chunk of byte [t] and the place of [t] in it, as [seek] computes
    them. *)
Lemma seek_arithmetic (c : Z) (t : nat) :
  1 <= c ->
  Z.of_nat t `div` c = Z.of_nat (t / Z.to_nat c)
  /\ Z.rem (Z.of_nat t) c = Z.of_nat (t mod Z.to_nat c)
  /\ t = ((t / Z.to_nat c) * Z.to_nat c + t mod Z.to_nat c)%nat
  /\ (t mod Z.to_nat c < Z.to_nat c)%nat.
Proof.
  intros Hc.
  assert (Hsize : c = Z.of_nat (Z.to_nat c)) by lia.
  assert (Hpos : Z.to_nat c <> 0%nat) by lia.
  split; [ | split; [ | split ] ].
  - rewrite Hsize at 1. rewrite <- Nat2Z.inj_div. reflexivity.
  - rewrite Z.rem_mod_nonneg by lia.
    rewrite Hsize at 1. rewrite <- Nat2Z.inj_mod. reflexivity.
  - pose proof (Nat.div_mod_eq t (Z.to_nat c)). lia.
  - apply Nat.mod_upper_bound. exact Hpos.
Qed.

(** A reader that seeks to a byte of the file has its head on that byte:
    the chunk that holds it is loaded, and nothing is stored. *)
Lemma seek_at_offset (self : GridStore.t) (d : Db) (payload : Buffer) (p t : nat)
    position_arg seekLocation :
  Session.at_offset self d payload p ->
  GridStore.mode self = "r" ->
  GridStore.targetPosition self position_arg seekLocation = Z.of_nat t ->
  (t < length payload)%nat ->
  exists self',
    GridStore.seek self position_arg seekLocation d = (GridStore.Ok (), self', d)
    /\ Session.at_offset self' d payload t
    /\ GridStore.tell self' = Z.of_nat t
    /\ GridStore.mode self' = "r".
Proof.
  intros (k & cur & Hc & Hp & Hcur & Hstored & Hlength & Hposition & Hchunk)
         Hmode Htarget Ht.
  set (size := Z.to_nat (GridStore.chunkSize self)) in *.
  destruct (seek_arithmetic (GridStore.chunkSize self) t Hc)
    as (Hdiv & Hrem & Hsplit & Hbound).
  fold size in Hdiv, Hrem, Hsplit, Hbound.
  assert (Hsize : GridStore.chunkSize self = Z.of_nat size) by (unfold size; lia).
  assert (Hpiece : (t mod size <= length (Layout.piece size payload (t / size)))%nat).
  { rewrite piece_size_length. lia. }
  unfold GridStore.seek. rewrite Htarget, Hchunk, Hdiv. simpl Chunk.chunkNumber.
  destruct (Z.eqb_spec (Z.of_nat (t / size)) (Z.of_nat k)) as [Hsame | Hother]; simpl negb; cbv iota.
  - apply Nat2Z.inj in Hsame.
    eexists. split; [ reflexivity | ].
    split; [ | split; [ reflexivity | exact Hmode ] ].
    exists k, (t mod size)%nat. cbn zeta.
    unfold GridStore.chunkSize in *. simpl. fold size.
    split; [ exact Hc | ].
    split; [ rewrite <- Hsame; exact Hsplit | ].
    split; [ rewrite <- Hsame; exact Hpiece | ].
    split; [ exact Hstored | ].
    split; [ exact Hlength | ].
    split; [ reflexivity | ].
    unfold GridStore.move_cursor. simpl. rewrite Hrem. reflexivity.
  - rewrite Hmode. simpl GridStore.first_char_is. cbv iota.
    eexists. split; [ reflexivity | ].
    split; [ | split; [ reflexivity | exact Hmode ] ].
    exists (t / size)%nat, (t mod size)%nat. cbn zeta.
    unfold GridStore.chunkSize in *. simpl. fold size.
    split; [ exact Hc | ].
    split; [ exact Hsplit | ].
    split; [ exact Hpiece | ].
    split; [ exact Hstored | ].
    split; [ exact Hlength | ].
    split; [ reflexivity | ].
    unfold GridStore.move_cursor, GridStore.nthChunk, Collection.find_chunk.
    rewrite Hstored.
    rewrite bool_decide_eq_true_2 by (rewrite Hsize; nia).
    simpl. rewrite Hrem, Nat2Z.id. fold size. reflexivity.
Qed.

(** X5 (seek, read, eof): a reader that seeks to byte [t] of the file and
    reads without a length gets the bytes from [t] to the end, and [eof]
    is then true. *)
Theorem seek_then_read (self : GridStore.t) (d : Db) (payload : Buffer) (p t : nat)
    position_arg seekLocation fuel :
  Session.at_offset self d payload p ->
  GridStore.mode self = "r" ->
  GridStore.targetPosition self position_arg seekLocation = Z.of_nat t ->
  (t < length payload)%nat ->
  (length payload - t <= fuel)%nat ->
  exists self1 index self2,
    GridStore.seek self position_arg seekLocation d = (GridStore.Ok (), self1, d)
    /\ GridStore.read fuel self1 None None d
       = Some (GridStore.Ok (GridStore.mkReadBuffer (drop t payload) (Some index)),
               self2)
    /\ GridStore.eof self2 = true.
Proof.
  intros Hat Hmode Htarget Ht Hfuel.
  destruct (seek_at_offset self d payload p t position_arg seekLocation
              Hat Hmode Htarget Ht) as (self1 & Hseek & Hat1 & _).
  destruct (read_at_offset self1 d payload t (length payload - t) None fuel Hat1)
    as (index & self2 & Hread & Hat2 & _); try lia.
  exists self1, index, self2.
  split; [ exact Hseek | ].
  rewrite take_ge in Hread by (rewrite length_drop; lia).
  split; [ exact Hread | ].
  destruct Hat2 as (k & cur & _ & _ & _ & _ & Hlen & Hpos & _).
  unfold GridStore.eof. rewrite Hlen, Hpos. apply Z.eqb_eq. lia.
Qed.

(** The example reader has its head on byte 0 of [hello world]. *)
Lemma hello_reader_at_start :
  Session.at_offset Examples.hello_reader Examples.hello_db Examples.hello_world 0.
Proof.
  destruct (written_file_opens Examples.no_number Examples.no_hex Examples.no_md5
              Examples.writer_created Examples.writer Examples.empty_db
              (Examples.db_of Examples.writer_opened) 3%N
              [list_byte_of_string "hello "; list_byte_of_string "world"] 0 1000
              Examples.reader_created 5%N (WriteConcern.only_w 1))
    as (self2 & d2 & doc & self3 & d3 & rd1 & Hwrite & Hclose & Hopen & Hat & _).
  - reflexivity.
  - reflexivity.
  - eexists. reflexivity.
  - vm_compute. discriminate.
  - repeat split.
  - reflexivity.
  - unfold Examples.hello_reader, Examples.hello_db, Examples.hello_closed,
      Examples.hello_written.
    rewrite Hwrite. simpl Examples.handle_of. simpl Examples.db_of.
    rewrite Hclose. simpl Examples.db_of. rewrite Hopen. exact Hat.
Qed.

Lemma hello_reader_mode : GridStore.mode Examples.hello_reader = "r".
Proof. reflexivity. Qed.

(** X1 (read): a read of [n] bytes, [0 < n], by a handle whose head is on
    byte [p] of a stored file delivers the bytes [p .. p + n) of the file
    and leaves the head on byte [p + n], whether [n] is the length asked
    for or, when no length is given, what is left of the file; the read
    crosses as many chunks as it takes. *)
Theorem read_range (self : GridStore.t) (d : Db) (payload : Buffer) (p n : nat)
    length_arg fuel :
  Session.at_offset self d payload p ->
  (0 < n)%nat ->
  (p + n <= length payload)%nat ->
  match length_arg with
  | Some l => l = Z.of_nat n
  | None => (p + n)%nat = length payload
  end ->
  (n <= fuel)%nat ->
  exists index self',
    GridStore.read fuel self length_arg None d
    = Some (GridStore.Ok
              (GridStore.mkReadBuffer (take n (drop p payload)) (Some index)), self')
    /\ Session.at_offset self' d payload (p + n)
    /\ GridStore.mode self' = GridStore.mode self.
Proof. exact (read_at_offset self d payload p n length_arg fuel). Qed.

Lemma read_range_witness :
  exists index self',
    GridStore.read 7 Examples.hello_reader (Some 7) None Examples.hello_db
    = Some (GridStore.Ok
              (GridStore.mkReadBuffer (list_byte_of_string "hello w") (Some index)),
            self')
    /\ Session.at_offset self' Examples.hello_db Examples.hello_world 7
    /\ GridStore.mode self' = GridStore.mode Examples.hello_reader.
Proof.
  apply (read_range Examples.hello_reader Examples.hello_db Examples.hello_world
           0 7 (Some 7) 7 hello_reader_at_start).
  - lia.
  - vm_compute. lia.
  - reflexivity.
  - lia.
Defined.

(** A read that asks for no byte. *)
Lemma read_nothing (self : GridStore.t) (d : Db) (payload : Buffer) (p : nat)
    length_arg fuel :
  Session.at_offset self d payload p ->
  match length_arg with
  | Some l => l = 0
  | None => p = length payload
  end ->
  exists self',
    GridStore.read fuel self length_arg None d
    = Some (GridStore.Failed (Error "File does not exist"), self')
    /\ GridStore.position self' = GridStore.position self.
Proof.
  intros (k & cur & Hc & Hp & Hcur & Hstored & Hlength & Hposition & Hchunk) Harg.
  assert (Hfinal : match length_arg with
                   | None => GridStore.length self - GridStore.position self
                   | Some l => l
                   end = 0).
  { destruct length_arg as [l | ]; [ exact Harg | ]. rewrite Hlength, Hposition. lia. }
  rewrite read_unfold. cbn zeta. rewrite Hfinal, Hchunk.
  unfold Chunk.length. simpl Chunk.data. simpl Chunk.position.
  match goal with
  | |- context [?a >=? ?b] => destruct (Z.geb_spec a b) as [_ | ?]; [ | lia ]
  end.
  simpl. eexists. split; [ reflexivity | ]. simpl. lia.
Qed.

(** X3 (read): a read that asks for no byte, be it a length of 0 or no
    length with the head at the end of the file, is answered with the error
    "File does not exist", though the file exists; the head stays where it
    is. *)
Theorem read_nothing_fails (self : GridStore.t) (d : Db) (payload : Buffer) (p : nat)
    length_arg fuel :
  Session.at_offset self d payload p ->
  match length_arg with
  | Some l => l = 0
  | None => p = length payload
  end ->
  exists self',
    GridStore.read fuel self length_arg None d
    = Some (GridStore.Failed (Error "File does not exist"), self')
    /\ GridStore.position self' = GridStore.position self.
Proof. exact (read_nothing self d payload p length_arg fuel). Qed.

Lemma read_nothing_fails_witness :
  exists self',
    GridStore.read 0 Examples.hello_reader (Some 0) None Examples.hello_db
    = Some (GridStore.Failed (Error "File does not exist"), self')
    /\ GridStore.position self' = GridStore.position Examples.hello_reader.
Proof.
  apply (read_nothing_fails Examples.hello_reader Examples.hello_db
           Examples.hello_world 0 (Some 0) 0 hello_reader_at_start).
  reflexivity.
Defined.

Lemma read_twice_witness :
  exists index1 self1 index2 self2,
    GridStore.read 6 Examples.hello_reader (Some 6) None Examples.hello_db
    = Some (GridStore.Ok
              (GridStore.mkReadBuffer (list_byte_of_string "hello ") (Some index1)),
            self1)
    /\ GridStore.read 5 self1 (Some 5) None Examples.hello_db
       = Some (GridStore.Ok
                 (GridStore.mkReadBuffer (list_byte_of_string "world") (Some index2)),
               self2)
    /\ list_byte_of_string "hello " ++ list_byte_of_string "world"
       = take (6 + 5) (drop 0 Examples.hello_world)
    /\ GridStore.tell self2 = 11.
Proof.
  apply (read_twice Examples.hello_reader Examples.hello_db Examples.hello_world
           0 6 5 6 5 hello_reader_at_start).
  - lia.
  - lia.
  - vm_compute. lia.
  - lia.
  - lia.
Defined.

(** X4 (seek): a reader that seeks to a byte of the file, counted from the
    start, from the head or from the end, has its head on that byte: the
    chunk that holds the byte is the current one, [tell] gives the byte,
    and nothing is stored. *)
Theorem seek_within_file (self : GridStore.t) (d : Db) (payload : Buffer) (p t : nat)
    position_arg seekLocation :
  Session.at_offset self d payload p ->
  GridStore.mode self = "r" ->
  GridStore.targetPosition self position_arg seekLocation = Z.of_nat t ->
  (t < length payload)%nat ->
  exists self',
    GridStore.seek self position_arg seekLocation d = (GridStore.Ok (), self', d)
    /\ Session.at_offset self' d payload t
    /\ GridStore.tell self' = Z.of_nat t
    /\ GridStore.mode self' = "r".
Proof. exact (seek_at_offset self d payload p t position_arg seekLocation). Qed.

Lemma seek_within_file_witness :
  exists self',
    GridStore.seek Examples.hello_reader 6 None Examples.hello_db
    = (GridStore.Ok (), self', Examples.hello_db)
    /\ Session.at_offset self' Examples.hello_db Examples.hello_world 6
    /\ GridStore.tell self' = 6
    /\ GridStore.mode self' = "r".
Proof.
  apply (seek_within_file Examples.hello_reader Examples.hello_db Examples.hello_world
           0 6 6 None hello_reader_at_start).
  - reflexivity.
  - reflexivity.
  - vm_compute. lia.
Defined.

Lemma seek_then_read_witness :
  exists self1 index self2,
    GridStore.seek Examples.hello_reader (-5) (Some GridStore.IO_SEEK_END)
      Examples.hello_db
    = (GridStore.Ok (), self1, Examples.hello_db)
    /\ GridStore.read 5 self1 None None Examples.hello_db
       = Some (GridStore.Ok
                 (GridStore.mkReadBuffer (list_byte_of_string "world") (Some index)),
               self2)
    /\ GridStore.eof self2 = true.
Proof.
  apply (seek_then_read Examples.hello_reader Examples.hello_db Examples.hello_world
           0 6 (-5) (Some GridStore.IO_SEEK_END) 5 hello_reader_at_start).
  - reflexivity.
  - reflexivity.
  - vm_compute. lia.
  - vm_compute. lia.
Defined.

Section StaticRead.

Variable StringToNumber : string -> option Z.
Variable DEFAULT_CHUNK_SIZE : Z.
Variable toHexString : N -> string.

(** The handle that [GridStore.read] makes for a file named by an
    identifier. *)
Lemma static_reader (database : WriteConcern.DbConfig) (i : N) options_arg fresh wc :
  WriteConcern._getWriteConcern StringToNumber database
    (GridStore.opt_concern (GridStore.or_default options_arg GridStore.no_options))
    (GridStore.opt_safe (GridStore.or_default options_arg GridStore.no_options))
  = inr wc ->
  exists rd,
    GridStore.new StringToNumber DEFAULT_CHUNK_SIZE database (Some (IdObjectID i))
      (GridStore.NameString "r")
      match options_arg with
      | Some o => GridStore.ModeObject o
      | None => GridStore.ModeNull
      end None fresh = inr rd
    /\ Session.reader_of (Some (IdObjectID i)) rd
    /\ GridStore.db rd = database
    /\ GridStore.options rd = GridStore.or_default options_arg GridStore.no_options.
Proof.
  intros Hwc. unfold GridStore.new.
  destruct options_arg as [o | ]; simpl in *; rewrite Hwc;
    eexists; (split; [ reflexivity | ]); repeat split.
Qed.

(** X6 (GridStore.read): for a stored file named by its identifier, the
    static [read] with an offset [t] and a length [n] that stay within the
    file ([0 < n], [t + n] at most the length) calls back with the bytes
    [t .. t + n); without an offset it starts at byte 0, without a length
    it goes to the end. *)
Theorem read_static_range (database : WriteConcern.DbConfig) (i : N) (d : Db)
    (doc : FileDoc) (payload : Buffer) options_arg wc fresh fresh'
    (offset length_arg : option Z) (t n : nat) fuel :
  WriteConcern._getWriteConcern StringToNumber database
    (GridStore.opt_concern (GridStore.or_default options_arg GridStore.no_options))
    (GridStore.opt_safe (GridStore.or_default options_arg GridStore.no_options))
  = inr wc ->
  Collection.find (Collection.by_id (Some (IdObjectID i))) (files d) = Some doc ->
  doc_id doc = Some (IdObjectID i) ->
  1 <= doc_chunkSize doc ->
  Layout.stored (doc_chunkSize doc) payload (Collection.chunks_of (doc_id doc) d) ->
  doc_length doc = Z.of_nat (length payload) ->
  GridStore.or_default offset 0 = Z.of_nat t ->
  match length_arg with
  | Some l => l = Z.of_nat n
  | None => (t + n)%nat = length payload
  end ->
  (0 < n)%nat ->
  (t + n <= length payload)%nat ->
  (n <= fuel)%nat ->
  exists index,
    GridStore.read_static StringToNumber DEFAULT_CHUNK_SIZE toHexString fuel database
      (Some (IdObjectID i)) length_arg offset options_arg fresh fresh' d
    = Some (GridStore.Passed
              (GridStore.Ok
                 (GridStore.mkReadBuffer (take n (drop t payload)) (Some index)))).
Proof.
  intros Hwc Hfind Hid Hc Hstored Hlength Hoffset Harg Hn Hrange Hfuel.
  destruct (static_reader database i options_arg fresh wc Hwc)
    as (rd & Hnew & Hreader & Hdb & Hoptions).
  unfold GridStore.read_static. rewrite Hnew.
  rewrite <- Hid in Hreader, Hfind.
  destruct (open_reader_at_start StringToNumber toHexString rd d fresh' doc wc payload)
    as (rd1 & Hopen & Hat & Hmode & _); try assumption.
  { rewrite Hid. eexists. reflexivity. }
  { rewrite Hdb, Hoptions. exact Hwc. }
  rewrite Hopen.
  assert (Hlen1 : GridStore.length rd1 = Z.of_nat (length payload)).
  { destruct Hat as (k & cur & _ & _ & _ & _ & Hl & _). exact Hl. }
  rewrite Hlen1.
  assert (Hcheck1 : GridStore.truthy offset
                    && (GridStore.or_default offset 0 >=? Z.of_nat (length payload))
                    = false).
  { rewrite Hoffset. apply andb_false_iff. right.
    destruct (Z.geb_spec (Z.of_nat t) (Z.of_nat (length payload))); [ lia | reflexivity ]. }
  assert (Hcheck2 : GridStore.truthy length_arg
                    && (GridStore.or_default length_arg 0 >? Z.of_nat (length payload))
                    = false).
  { destruct length_arg as [l | ]; [ | reflexivity ].
    apply andb_false_iff. right. simpl. subst l.
    destruct (Z.gtb_spec (Z.of_nat n) (Z.of_nat (length payload))); [ lia | reflexivity ]. }
  assert (Hcheck3 : GridStore.truthy offset && GridStore.truthy length_arg
                    && (GridStore.or_default offset 0 + GridStore.or_default length_arg 0
                        >? Z.of_nat (length payload)) = false).
  { destruct length_arg as [l | ]; [ | rewrite andb_false_r; reflexivity ].
    apply andb_false_iff. right. rewrite Hoffset. simpl. subst l.
    destruct (Z.gtb_spec (Z.of_nat t + Z.of_nat n) (Z.of_nat (length payload)));
      [ lia | reflexivity ]. }
  rewrite Hcheck1, Hcheck2, Hcheck3.
  destruct offset as [off | ]; simpl in Hoffset.
  - destruct (seek_at_offset rd1 d payload 0 t off None Hat Hmode)
      as (rd2 & Hseek & Hat2 & _); [ exact Hoffset | lia | ].
    rewrite Hseek.
    destruct (read_at_offset rd2 d payload t n length_arg fuel Hat2 Hn Hrange Harg Hfuel)
      as (index & rd3 & Hread & _).
    rewrite Hread. exists index. reflexivity.
  - assert (t = 0%nat) by lia. subst t.
    destruct (read_at_offset rd1 d payload 0 n length_arg fuel Hat Hn Hrange Harg Hfuel)
      as (index & rd3 & Hread & _).
    rewrite Hread. exists index. reflexivity.
Qed.

(** X7 (GridStore.read): the static [read] checks offset and length
    against the length of the file before it reads, and answers with a
    string, not an [Error]: an offset other than 0 at or past the end,
    then a length beyond the file, then an offset and a length that together
    pass the end.  An offset of 0 passes the first check even on an empty
    file. *)
Theorem read_static_bounds (database : WriteConcern.DbConfig) (i : N) (d : Db)
    (doc : FileDoc) options_arg wc fresh fresh' (off len : Z) fuel :
  WriteConcern._getWriteConcern StringToNumber database
    (GridStore.opt_concern (GridStore.or_default options_arg GridStore.no_options))
    (GridStore.opt_safe (GridStore.or_default options_arg GridStore.no_options))
  = inr wc ->
  Collection.find (Collection.by_id (Some (IdObjectID i))) (files d) = Some doc ->
  doc_id doc = Some (IdObjectID i) ->
  let run := GridStore.read_static StringToNumber DEFAULT_CHUNK_SIZE toHexString fuel
               database (Some (IdObjectID i)) (Some len) (Some off) options_arg
               fresh fresh' d in
  (off <> 0 -> doc_length doc <= off ->
   run = Some (GridStore.Message "offset larger than size of file"))
  /\ ((off = 0 \/ off < doc_length doc) -> len <> 0 -> doc_length doc < len ->
      run = Some (GridStore.Message "length is larger than the size of the file"))
  /\ (off <> 0 -> off < doc_length doc -> len <> 0 -> len <= doc_length doc ->
      doc_length doc < off + len ->
      run = Some (GridStore.Message
                    "offset and length is larger than the size of the file")).
Proof.
  intros Hwc Hfind Hid run.
  destruct (static_reader database i options_arg fresh wc Hwc)
    as (rd & Hnew & Hreader & Hdb & Hoptions).
  rewrite <- Hid in Hreader, Hfind.
  destruct (open_for_reading StringToNumber toHexString rd d fresh' doc wc)
    as (rd1 & Hopen & Hlen1 & _); try assumption.
  { rewrite Hid. eexists. reflexivity. }
  { rewrite Hdb, Hoptions. exact Hwc. }
  assert (Hrun : run =
    if GridStore.truthy (Some off) && (off >=? doc_length doc)
    then Some (GridStore.Message "offset larger than size of file")
    else if GridStore.truthy (Some len) && (len >? doc_length doc)
    then Some (GridStore.Message "length is larger than the size of the file")
    else if GridStore.truthy (Some off) && GridStore.truthy (Some len)
            && (off + len >? doc_length doc)
    then Some (GridStore.Message "offset and length is larger than the size of the file")
    else run).
  { unfold run, GridStore.read_static. rewrite Hnew, Hopen, Hlen1. simpl GridStore.or_default.
    repeat (destruct (_ && _); [ reflexivity | ]). reflexivity. }
  unfold GridStore.truthy in Hrun.
  split; [ | split ].
  - intros Hoff Hge. rewrite Hrun.
    destruct (Z.eqb_spec off 0); [ contradiction | ].
    destruct (Z.geb_spec off (doc_length doc)); [ reflexivity | lia ].
  - intros Hoff Hlen Hgt. rewrite Hrun.
    destruct (Z.eqb_spec len 0); [ contradiction | ].
    destruct (Z.gtb_spec len (doc_length doc)); [ | lia ].
    destruct (Z.eqb_spec off 0); [ reflexivity | ].
    destruct (Z.geb_spec off (doc_length doc)); [ lia | reflexivity ].
  - intros Hoff Hlt Hlen Hle Hsum. rewrite Hrun.
    destruct (Z.eqb_spec off 0); [ contradiction | ].
    destruct (Z.eqb_spec len 0); [ contradiction | ].
    destruct (Z.geb_spec off (doc_length doc)); [ lia | ].
    destruct (Z.gtb_spec len (doc_length doc)); [ lia | ].
    destruct (Z.gtb_spec (off + len) (doc_length doc)); [ reflexivity | lia ].
Qed.

End StaticRead.

(** The example file is stored in chunks of 4 bytes. *)
Lemma hello_stored :
  Layout.stored (doc_chunkSize Examples.hello_doc) Examples.hello_world
    (Collection.chunks_of (doc_id Examples.hello_doc) Examples.hello_db).
Proof.
  destruct hello_reader_at_start as (k & cur & _ & _ & _ & Hstored & _).
  exact Hstored.
Qed.

Lemma read_static_range_witness :
  exists index,
    GridStore.read_static Examples.no_number 261120 Examples.no_hex 5
      Examples.plain_db (Some (IdObjectID 1)) (Some 5) (Some 3) None 4%N 5%N
      Examples.hello_db
    = Some (GridStore.Passed
              (GridStore.Ok
                 (GridStore.mkReadBuffer (list_byte_of_string "lo wo") (Some index)))).
Proof.
  apply (read_static_range Examples.no_number 261120 Examples.no_hex
           Examples.plain_db 1 Examples.hello_db Examples.hello_doc
           Examples.hello_world None (WriteConcern.only_w 1) 4%N 5%N
           (Some 3) (Some 5) 3 5 5).
  - reflexivity.
  - reflexivity.
  - reflexivity.
  - simpl. lia.
  - exact hello_stored.
  - reflexivity.
  - reflexivity.
  - reflexivity.
  - lia.
  - vm_compute. lia.
  - lia.
Defined.

Lemma read_static_bounds_witness :
  GridStore.read_static Examples.no_number 261120 Examples.no_hex 5
    Examples.plain_db (Some (IdObjectID 1)) (Some 5) (Some 7) None 4%N 5%N
    Examples.hello_db
  = Some (GridStore.Message "offset and length is larger than the size of the file").
Proof.
  apply (read_static_bounds Examples.no_number 261120 Examples.no_hex
           Examples.plain_db 1 Examples.hello_db Examples.hello_doc
           None (WriteConcern.only_w 1) 4%N 5%N 7 5 5);
    first [ reflexivity | simpl; lia ].
Defined.

(** ** Other files are left alone *)

Lemma untouched_refl id d : Session.untouched id d d.
Proof. split; reflexivity. Qed.

Lemma untouched_trans id d1 d2 d3 :
  Session.untouched id d1 d2 -> Session.untouched id d2 d3 ->
  Session.untouched id d1 d3.
Proof. intros [H1 H2] [H3 H4]. split; congruence. Qed.

Lemma untouched_save_chunk id id' (c : Chunk.t) d :
  id <> id' -> Session.untouched id d (Collection.save_chunk id' c d).
Proof.
  intros Hne. split; [ | reflexivity ].
  unfold Collection.chunks_of, Collection.save_chunk. simpl.
  rewrite lookup_insert_ne by congruence. reflexivity.
Qed.

Lemma untouched_remove_chunks id id' d :
  id <> id' -> Session.untouched id d (Collection.remove_chunks id' d).
Proof.
  intros Hne. split; [ | reflexivity ].
  unfold Collection.chunks_of, Collection.remove_chunks. simpl.
  rewrite lookup_delete_ne by congruence. reflexivity.
Qed.

Lemma filter_save id (doc : FileDoc) docs :
  id <> doc_id doc ->
  List.filter (Collection.by_id id) (Collection.save doc docs)
  = List.filter (Collection.by_id id) docs.
Proof.
  intros Hne.
  assert (Hdoc : Collection.by_id id doc = false).
  { unfold Collection.by_id. apply bool_decide_eq_false_2. congruence. }
  induction docs as [ | d0 docs IH]; simpl.
  - rewrite Hdoc. reflexivity.
  - destruct (Collection.by_id (doc_id doc) d0) eqn:Hd0; simpl.
    + rewrite Hdoc.
      assert (Hd : Collection.by_id id d0 = false).
      { unfold Collection.by_id in *. apply bool_decide_eq_true_1 in Hd0.
        apply bool_decide_eq_false_2. congruence. }
      rewrite Hd. reflexivity.
    + rewrite IH. reflexivity.
Qed.

Lemma filter_remove id id' docs :
  id <> id' ->
  List.filter (Collection.by_id id) (Collection.remove id' docs)
  = List.filter (Collection.by_id id) docs.
Proof.
  intros Hne. unfold Collection.remove.
  induction docs as [ | d0 docs IH]; simpl; [ reflexivity | ].
  destruct (Collection.by_id id' d0) eqn:Hd0; simpl.
  - assert (Hd : Collection.by_id id d0 = false).
    { unfold Collection.by_id in *. apply bool_decide_eq_true_1 in Hd0.
      apply bool_decide_eq_false_2. congruence. }
    rewrite Hd. exact IH.
  - rewrite IH. reflexivity.
Qed.

Lemma untouched_files_save id (doc : FileDoc) d :
  id <> doc_id doc ->
  Session.untouched id d (mkDb (Collection.save doc (files d)) (chunks d)).
Proof. intros Hne. split; [ reflexivity | ]. simpl. apply filter_save. exact Hne. Qed.

Lemma untouched_files_remove id id' d :
  id <> id' ->
  Session.untouched id d (mkDb (Collection.remove id' (files d)) (chunks d)).
Proof. intros Hne. split; [ reflexivity | ]. simpl. apply filter_remove. exact Hne. Qed.

Lemma untouched_deleteChunks id (self : GridStore.t) d :
  id <> GridStore.fileId self ->
  Session.untouched id d (GridStore.deleteChunks self d).
Proof.
  intros Hne. unfold GridStore.deleteChunks.
  destruct (GridStore.fileId self) eqn:Hid; [ | apply untouched_refl ].
  rewrite <- Hid. apply untouched_remove_chunks. congruence.
Qed.

Lemma untouched_complete_saves id (self : GridStore.t) saves d :
  id <> GridStore.fileId self ->
  Session.untouched id d (GridStore.complete_saves self saves d).
Proof.
  intros Hne.
  induction saves as [ | ch saves IH] using rev_ind; [ apply untouched_refl | ].
  rewrite complete_saves_snoc.
  eapply untouched_trans; [ exact IH | ].
  apply untouched_save_chunk. exact Hne.
Qed.

(** What is found under an identifier is read off the documents that
    carry it. *)
Lemma find_filter id docs :
  Collection.find (Collection.by_id id) docs
  = head (List.filter (Collection.by_id id) docs).
Proof.
  induction docs as [ | d0 docs IH]; simpl; [ reflexivity | ].
  destruct (Collection.by_id id d0); [ reflexivity | exact IH ].
Qed.

Section Frame.

Variable StringToNumber : string -> option Z.
Variable toHexString : N -> string.
Variable filemd5 : gmap Z Buffer -> option string.

Lemma close_frame (self : GridStore.t) now d id :
  id <> GridStore.fileId self ->
  Session.untouched id d (GridStore.close filemd5 self now d).2
  /\ GridStore.fileId (GridStore.close filemd5 self now d).1.2 = GridStore.fileId self.
Proof.
  intros Hne. unfold GridStore.close.
  destruct (GridStore.first_char_is "w" (GridStore.mode self)).
  - destruct (match GridStore.currentChunk self with
              | Some c => if Chunk.position c >? 0 then Some c else None
              | None => None
              end) as [c | ].
    + destruct (bool_decide (GridStore.uploadDate self <> None)); cbn [fst snd].
      * split; [ | reflexivity ].
        eapply untouched_trans; [ apply untouched_save_chunk; exact Hne | ].
        eapply untouched_trans; [ apply untouched_files_remove; exact Hne | ].
        apply untouched_files_save. exact Hne.
      * split; [ | reflexivity ].
        eapply untouched_trans; [ apply untouched_save_chunk; exact Hne | ].
        apply untouched_files_save. exact Hne.
    + cbn [fst snd]. split; [ | reflexivity ].
      apply untouched_files_save. exact Hne.
  - destruct (GridStore.first_char_is "r" (GridStore.mode self)); cbn [fst snd];
      (split; [ apply untouched_refl | reflexivity ]).
Qed.

Lemma issue_keeps_fileId (self : GridStore.t) buffer i self' :
  GridStore.writeBuffer_issue self buffer = Some i ->
  GridStore.issued_handle i = Some self' ->
  GridStore.fileId self' = GridStore.fileId self.
Proof.
  unfold GridStore.writeBuffer_issue.
  destruct (negb _); [ intros [= <-]; discriminate | ].
  destruct (GridStore.currentChunk self) as [current | ];
    [ | intros [= <-]; discriminate ].
  destruct (_ >=? _).
  - destruct (GridStore.fill_chunks _ _ _ _ _) as [[[n left] saves] | ];
      [ | discriminate ].
    intros [= <-] [= <-]. reflexivity.
  - intros [= <-] [= <-]. reflexivity.
Qed.

End Frame.

Section FrameOperations.

Variable StringToNumber : string -> option Z.
Variable toHexString : N -> string.
Variable filemd5 : gmap Z Buffer -> option string.

Lemma write_frame (self : GridStore.t) bytes finalClose now d id o self' d' :
  id <> GridStore.fileId self ->
  GridStore.write filemd5 self bytes finalClose now d = Some (o, self', d') ->
  Session.untouched id d d' /\ GridStore.fileId self' = GridStore.fileId self.
Proof.
  intros Hne. unfold GridStore.write, GridStore.writeBuffer.
  destruct (GridStore.writeBuffer_issue self bytes) as [i | ] eqn:Hissue;
    [ | discriminate ].
  destruct i as [o1 | self1 | self1 saves].
  - intros [= <- <- <-]. split; [ apply untouched_refl | reflexivity ].
  - assert (Hid : GridStore.fileId self1 = GridStore.fileId self)
      by (apply (issue_keeps_fileId self bytes _ self1 Hissue); reflexivity).
    destruct finalClose.
    + destruct (close_frame filemd5 self1 now d id) as [Hu Hf];
        [ congruence | ].
      destruct (GridStore.close filemd5 self1 now d) as [[o2 self2] d2].
      cbn [fst snd] in Hu, Hf.
      destruct o2; intros [= <- <- <-]; (split; [ exact Hu | congruence ]).
    + intros [= <- <- <-]. split; [ apply untouched_refl | exact Hid ].
  - assert (Hid : GridStore.fileId self1 = GridStore.fileId self)
      by (apply (issue_keeps_fileId self bytes _ self1 Hissue); reflexivity).
    assert (Hsaves : Session.untouched id d (GridStore.complete_saves self1 saves d))
      by (apply untouched_complete_saves; congruence).
    destruct finalClose.
    + destruct (close_frame filemd5 self1 now
                  (GridStore.complete_saves self1 saves d) id) as [Hu Hf];
        [ congruence | ].
      destruct (GridStore.close filemd5 self1 now _) as [[o2 self2] d2].
      cbn [fst snd] in Hu, Hf.
      destruct o2; intros [= <- <- <-];
        (split; [ exact (untouched_trans _ _ _ _ Hsaves Hu) | congruence ]).
    + intros [= <- <- <-]. split; [ exact Hsaves | exact Hid ].
Qed.

Lemma seek_frame (self : GridStore.t) position_arg seekLocation d id :
  id <> GridStore.fileId self ->
  Session.untouched id d (GridStore.seek self position_arg seekLocation d).2
  /\ GridStore.fileId (GridStore.seek self position_arg seekLocation d).1.2
     = GridStore.fileId self.
Proof.
  intros Hne. unfold GridStore.seek.
  destruct (GridStore.currentChunk self) as [current | ];
    [ | split; [ apply untouched_refl | reflexivity ] ].
  destruct (negb _); cbn [fst snd];
    [ | split; [ apply untouched_refl | reflexivity ] ].
  split; [ | reflexivity ].
  destruct (GridStore.first_char_is "w" (GridStore.mode self));
    [ apply untouched_save_chunk; exact Hne | apply untouched_refl ].
Qed.

Lemma rewind_frame (self : GridStore.t) d id :
  id <> GridStore.fileId self ->
  Session.untouched id d (GridStore.rewind self d).2
  /\ GridStore.fileId (GridStore.rewind self d).1.2 = GridStore.fileId self.
Proof.
  intros Hne. unfold GridStore.rewind.
  destruct (GridStore.currentChunk self) as [current | ];
    [ | split; [ apply untouched_refl | reflexivity ] ].
  destruct (negb _); cbn [fst snd];
    [ | split; [ apply untouched_refl | reflexivity ] ].
  destruct (GridStore.first_char_is "w" (GridStore.mode self)); cbn [fst snd];
    (split; [ | reflexivity ]);
    [ apply untouched_deleteChunks; exact Hne | apply untouched_refl ].
Qed.

Lemma unlink_frame (self : GridStore.t) d id :
  id <> GridStore.fileId self ->
  Session.untouched id d (GridStore.unlink self d).2.
Proof.
  intros Hne. unfold GridStore.unlink. cbn [fst snd].
  eapply untouched_trans; [ apply untouched_deleteChunks; exact Hne | ].
  apply untouched_files_remove. exact Hne.
Qed.

Lemma open_mode_fileId (read_allowed : bool) (self : GridStore.t) d :
  GridStore.fileId (GridStore.open_mode read_allowed self d).1.2 = GridStore.fileId self.
Proof.
  unfold GridStore.open_mode.
  destruct (bool_decide (GridStore.mode self = "r")).
  { destruct read_allowed; reflexivity. }
  destruct (bool_decide (GridStore.mode self = "w")); [ reflexivity | ].
  destruct (bool_decide (GridStore.mode self = "w+")); reflexivity.
Qed.

Lemma open_mode_frame (read_allowed : bool) (self : GridStore.t) d id :
  id <> GridStore.fileId (GridStore.open_mode read_allowed self d).1.2 ->
  Session.untouched id d (GridStore.open_mode read_allowed self d).2.
Proof.
  rewrite open_mode_fileId. intros Hne. unfold GridStore.open_mode.
  destruct (bool_decide (GridStore.mode self = "r")).
  { destruct read_allowed; apply untouched_refl. }
  destruct (bool_decide (GridStore.mode self = "w")).
  { cbn [fst snd]. apply untouched_deleteChunks. exact Hne. }
  destruct (bool_decide (GridStore.mode self = "w+")); apply untouched_refl.
Qed.

Lemma _open_frame (self : GridStore.t) d fresh id :
  id <> GridStore.fileId (GridStore._open toHexString self d fresh).1.2 ->
  Session.untouched id d (GridStore._open toHexString self d fresh).2.
Proof.
  unfold GridStore._open.
  destruct (negb _); [ | apply open_mode_frame ].
  destruct (if GridStore.referenceBy self =? GridStore.REFERENCE_BY_ID then _ else _)
    as [doc | ]; [ apply open_mode_frame | ].
  destruct (negb _); [ apply open_mode_frame | ].
  intros _. apply untouched_refl.
Qed.

Lemma open_frame (self : GridStore.t) d fresh id :
  id <> GridStore.fileId (GridStore.open StringToNumber toHexString self d fresh).1.2 ->
  Session.untouched id d (GridStore.open StringToNumber toHexString self d fresh).2.
Proof.
  unfold GridStore.open.
  destruct (negb _); [ intros _; apply untouched_refl | ].
  destruct (WriteConcern._getWriteConcern _ _ _ _) as [e | wc];
    [ intros _; apply untouched_refl | ].
  pose proof (_open_frame self d fresh id) as Hinner.
  destruct (GridStore._open toHexString self d fresh) as [[o self'] d'].
  cbn [fst snd] in Hinner.
  destruct o; cbn [fst snd]; exact Hinner.
Qed.

End FrameOperations.

Section OneFile.

Variable StringToNumber : string -> option Z.
Variable toHexString : N -> string.
Variable filemd5 : gmap Z Buffer -> option string.

(** X9 (write, close, seek, rewind, unlink): none of these operations on
    a handle changes the chunks or the documents of a file other than the
    handle's own, and [write], [close], [seek] and [rewind] keep the file
    identifier of the handle. *)
Theorem operations_touch_one_file (self : GridStore.t) (d : Db) (id : option JsId) :
  id <> GridStore.fileId self ->
  (forall bytes finalClose now o self' d',
     GridStore.write filemd5 self bytes finalClose now d = Some (o, self', d') ->
     Session.untouched id d d' /\ GridStore.fileId self' = GridStore.fileId self)
  /\ (forall now,
        Session.untouched id d (GridStore.close filemd5 self now d).2
        /\ GridStore.fileId (GridStore.close filemd5 self now d).1.2
           = GridStore.fileId self)
  /\ (forall position_arg seekLocation,
        Session.untouched id d (GridStore.seek self position_arg seekLocation d).2
        /\ GridStore.fileId (GridStore.seek self position_arg seekLocation d).1.2
           = GridStore.fileId self)
  /\ (Session.untouched id d (GridStore.rewind self d).2
      /\ GridStore.fileId (GridStore.rewind self d).1.2 = GridStore.fileId self)
  /\ Session.untouched id d (GridStore.unlink self d).2.
Proof.
  intros Hne.
  split; [ intros bytes finalClose now o self' d'; apply write_frame; exact Hne | ].
  split; [ intros now; apply close_frame; exact Hne | ].
  split; [ intros position_arg seekLocation; apply seek_frame; exact Hne | ].
  split; [ apply rewind_frame; exact Hne | ].
  apply unlink_frame. exact Hne.
Qed.

(** Only mode "w" has [open] change a document. *)
Lemma open_keeps_db (self : GridStore.t) (d : Db) fresh :
  GridStore.mode self <> "w" ->
  (GridStore.open StringToNumber toHexString self d fresh).2 = d.
Proof.
  intros Hmode. unfold GridStore.open.
  destruct (negb _); [ reflexivity | ].
  destruct (WriteConcern._getWriteConcern _ _ _ _) as [e | wc]; [ reflexivity | ].
  assert (Hinner : (GridStore._open toHexString self d fresh).2 = d).
  { assert (Hm : forall b s, GridStore.mode s = GridStore.mode self ->
                   (GridStore.open_mode b s d).2 = d).
    { intros b s Hs. unfold GridStore.open_mode. rewrite Hs.
      destruct (bool_decide (GridStore.mode self = "r")); [ destruct b; reflexivity | ].
      rewrite (bool_decide_eq_false_2 _ Hmode).
      destruct (bool_decide (GridStore.mode self = "w+")); reflexivity. }
    unfold GridStore._open.
    destruct (negb _); [ | apply Hm; reflexivity ].
    destruct (if GridStore.referenceBy self =? GridStore.REFERENCE_BY_ID then _ else _)
      as [doc | ].
    - apply Hm. destruct (_ || _); reflexivity.
    - destruct (negb _); [ apply Hm; reflexivity | reflexivity ]. }
  destruct (GridStore._open toHexString self d fresh) as [[o self'] d'].
  cbn [snd] in Hinner. destruct o; exact Hinner.
Qed.

(** X10 (open): [open] changes no chunk and no document of a file other
    than the one the handle ends up with, and in a mode other than "w" it
    changes no document at all. *)
Theorem open_touches_one_file (self : GridStore.t) (d : Db) fresh (id : option JsId) :
  id <> GridStore.fileId (GridStore.open StringToNumber toHexString self d fresh).1.2 ->
  Session.untouched id d (GridStore.open StringToNumber toHexString self d fresh).2
  /\ (GridStore.mode self <> "w" ->
      (GridStore.open StringToNumber toHexString self d fresh).2 = d).
Proof.
  intros Hne. split; [ apply open_frame; exact Hne | apply open_keeps_db ].
Qed.

End OneFile.

Lemma operations_touch_one_file_witness :
  (forall bytes finalClose now o self' d',
     GridStore.write Examples.no_md5 Examples.writer bytes finalClose now
       Examples.hello_db = Some (o, self', d') ->
     Session.untouched (Some (IdObjectID 9)) Examples.hello_db d'
     /\ GridStore.fileId self' = GridStore.fileId Examples.writer)
  /\ (forall now,
        Session.untouched (Some (IdObjectID 9)) Examples.hello_db
          (GridStore.close Examples.no_md5 Examples.writer now Examples.hello_db).2
        /\ GridStore.fileId
             (GridStore.close Examples.no_md5 Examples.writer now Examples.hello_db).1.2
           = GridStore.fileId Examples.writer)
  /\ (forall position_arg seekLocation,
        Session.untouched (Some (IdObjectID 9)) Examples.hello_db
          (GridStore.seek Examples.writer position_arg seekLocation
             Examples.hello_db).2
        /\ GridStore.fileId
             (GridStore.seek Examples.writer position_arg seekLocation
                Examples.hello_db).1.2
           = GridStore.fileId Examples.writer)
  /\ (Session.untouched (Some (IdObjectID 9)) Examples.hello_db
        (GridStore.rewind Examples.writer Examples.hello_db).2
      /\ GridStore.fileId (GridStore.rewind Examples.writer Examples.hello_db).1.2
         = GridStore.fileId Examples.writer)
  /\ Session.untouched (Some (IdObjectID 9)) Examples.hello_db
       (GridStore.unlink Examples.writer Examples.hello_db).2.
Proof.
  apply (operations_touch_one_file Examples.no_md5 Examples.writer Examples.hello_db
           (Some (IdObjectID 9))).
  discriminate.
Defined.

Lemma open_touches_one_file_witness :
  Session.untouched (Some (IdObjectID 9)) Examples.hello_db
    (GridStore.open Examples.no_number Examples.no_hex Examples.writer_created
       Examples.hello_db 3%N).2
  /\ (GridStore.mode Examples.writer_created <> "w" ->
      (GridStore.open Examples.no_number Examples.no_hex Examples.writer_created
         Examples.hello_db 3%N).2 = Examples.hello_db).
Proof.
  apply (open_touches_one_file Examples.no_number Examples.no_hex
           Examples.writer_created Examples.hello_db 3%N (Some (IdObjectID 9))).
  discriminate.
Defined.

Lemma find_remove_same id docs :
  Collection.find (Collection.by_id id) (Collection.remove id docs) = None.
Proof.
  unfold Collection.remove.
  induction docs as [ | d0 docs IH]; simpl; [ reflexivity | ].
  destruct (Collection.by_id id d0) eqn:Hd0; simpl; [ exact IH | ].
  rewrite Hd0. exact IH.
Qed.

(** X11 (unlink, exist): [unlink] on a handle with a file identifier
    succeeds in any mode; afterwards the file has no chunk and no document,
    [GridStore.exist] answers false for its identifier, and every other
    file is as before. *)
Theorem unlink_removes_file (self : GridStore.t) (d : Db) :
  is_Some (GridStore.fileId self) ->
  exists d',
    GridStore.unlink self d = (GridStore.Ok (), self, d')
    /\ Collection.chunks_of (GridStore.fileId self) d' = ∅
    /\ Collection.find (Collection.by_id (GridStore.fileId self)) (files d') = None
    /\ (forall i, GridStore.fileId self = Some (IdObjectID i) ->
          GridStore.exist (IdObjectID i) d' = false)
    /\ forall id, id <> GridStore.fileId self -> Session.untouched id d d'.
Proof.
  intros [i Hid]. eexists. split; [ reflexivity | ].
  assert (Hfind : Collection.find (Collection.by_id (GridStore.fileId self))
                    (files (mkDb (Collection.remove (GridStore.fileId self)
                                    (files (GridStore.deleteChunks self d)))
                                 (chunks (GridStore.deleteChunks self d)))) = None).
  { simpl. apply find_remove_same. }
  split; [ | split; [ exact Hfind | split ] ].
  - unfold GridStore.deleteChunks, Collection.chunks_of, Collection.remove_chunks.
    rewrite Hid. simpl. rewrite lookup_delete_eq. reflexivity.
  - intros j Hj. unfold GridStore.exist. rewrite <- Hj, Hfind. reflexivity.
  - intros id Hne. apply (unlink_frame self d id Hne).
Qed.

Lemma unlink_removes_file_witness :
  exists d',
    GridStore.unlink Examples.hello_reader Examples.hello_db
    = (GridStore.Ok (), Examples.hello_reader, d')
    /\ Collection.chunks_of (GridStore.fileId Examples.hello_reader) d' = ∅
    /\ Collection.find (Collection.by_id (GridStore.fileId Examples.hello_reader))
         (files d') = None
    /\ (forall i, GridStore.fileId Examples.hello_reader = Some (IdObjectID i) ->
          GridStore.exist (IdObjectID i) d' = false)
    /\ forall id, id <> GridStore.fileId Examples.hello_reader ->
         Session.untouched id Examples.hello_db d'.
Proof.
  apply (unlink_removes_file Examples.hello_reader Examples.hello_db).
  eexists. reflexivity.
Defined.

Section Missing.

Variable StringToNumber : string -> option Z.
Variable DEFAULT_CHUNK_SIZE : Z.
Variable toHexString : N -> string.

(** X8 (GridStore.read, exist): the static [read] of a name or identifier
    for which [GridStore.exist] answers false calls back with the error
    "<name> does not exist", for an identifier with its hex string, whatever
    length and offset are asked for. *)
Theorem read_static_missing (database : WriteConcern.DbConfig) (name : JsId) (d : Db)
    options_arg wc fresh fresh' length_arg offset fuel :
  WriteConcern._getWriteConcern StringToNumber database
    (GridStore.opt_concern (GridStore.or_default options_arg GridStore.no_options))
    (GridStore.opt_safe (GridStore.or_default options_arg GridStore.no_options))
  = inr wc ->
  GridStore.exist name d = false ->
  GridStore.read_static StringToNumber DEFAULT_CHUNK_SIZE toHexString fuel database
    (Some name) length_arg offset options_arg fresh fresh' d
  = Some (GridStore.Passed
            (GridStore.Failed
               (Error (match name with
                       | IdString s => s
                       | IdObjectID i => toHexString i
                       end ++ " does not exist")))).
Proof.
  intros Hwc Hexist.
  unfold GridStore.read_static, GridStore.new.
  unfold GridStore.exist in Hexist.
  destruct name as [i | s].
  - destruct (Collection.find (Collection.by_id (Some (IdObjectID i))) (files d))
      as [doc | ] eqn:Hfind; [ discriminate | ].
    destruct options_arg as [o | ]; simpl in Hwc |- *; rewrite Hwc;
      unfold GridStore.open; simpl; rewrite Hwc;
      unfold GridStore._open; simpl; rewrite Hfind; reflexivity.
  - destruct (Collection.find (Collection.by_filename (Some s)) (files d))
      as [doc | ] eqn:Hfind; [ discriminate | ].
    destruct options_arg as [o | ]; simpl in Hwc |- *; rewrite Hwc;
      unfold GridStore.open; simpl; rewrite Hwc;
      unfold GridStore._open; simpl; rewrite Hfind; reflexivity.
Qed.

End Missing.

Lemma read_static_missing_witness :
  GridStore.read_static Examples.no_number 261120 Examples.no_hex 0 Examples.plain_db
    (Some (IdString "notes.txt")) None None None 4%N 5%N Examples.hello_db
  = Some (GridStore.Passed (GridStore.Failed (Error "notes.txt does not exist"))).
Proof.
  apply (read_static_missing Examples.no_number 261120 Examples.no_hex
           Examples.plain_db (IdString "notes.txt") Examples.hello_db None
           (WriteConcern.only_w 1) 4%N 5%N None None 0).
  - reflexivity.
  - reflexivity.
Defined.

(** X13 (rewind): on a reader, [rewind] works only within the first
    chunk, where it puts the head back on byte 0; with the head beyond the
    first chunk the call throws a [TypeError] (the current chunk is called
    as a function) and changes nothing. *)
Theorem rewind_reader (self : GridStore.t) (d : Db) (payload : Buffer) (p : nat) :
  Session.at_offset self d payload p ->
  GridStore.mode self = "r" ->
  (Z.of_nat p < GridStore.chunkSize self ->
   exists self',
     GridStore.rewind self d = (GridStore.Ok (), self', d)
     /\ Session.at_offset self' d payload 0)
  /\ (GridStore.chunkSize self < Z.of_nat p ->
      GridStore.rewind self d = (GridStore.Thrown TypeError, self, d)).
Proof.
  intros (k & cur & Hc & Hp & Hcur & Hstored & Hlength & Hposition & Hchunk) Hmode.
  set (size := Z.to_nat (GridStore.chunkSize self)) in *.
  pose proof (piece_size_length size payload k) as Hplen.
  unfold GridStore.rewind. rewrite Hchunk. simpl Chunk.chunkNumber.
  split.
  - intros Hfirst.
    assert (k = 0%nat) by nia. subst k.
    simpl. eexists. split; [ reflexivity | ].
    exists 0%nat, 0%nat. cbn zeta. unfold GridStore.chunkSize in *. simpl. fold size.
    split; [ exact Hc | ]. split; [ lia | ]. split; [ lia | ].
    split; [ exact Hstored | ]. split; [ exact Hlength | ].
    split; reflexivity.
  - intros Hbeyond.
    assert (1 <= k)%nat by nia.
    destruct (Z.eqb_spec (Z.of_nat k) 0) as [Hz | _]; [ lia | ].
    simpl. rewrite Hmode. reflexivity.
Qed.

Lemma hello_reader_at_six :
  Session.at_offset Examples.hello_reader_moved Examples.hello_db Examples.hello_world 6.
Proof.
  destruct (seek_at_offset Examples.hello_reader Examples.hello_db Examples.hello_world
              0 6 6 None hello_reader_at_start) as (self & Hseek & Hat & _ & Hmode).
  - reflexivity.
  - reflexivity.
  - vm_compute. lia.
  - unfold Examples.hello_reader_moved. rewrite Hseek. exact Hat.
Qed.

Lemma rewind_reader_witness :
  (Z.of_nat 6 < GridStore.chunkSize Examples.hello_reader_moved ->
   exists self',
     GridStore.rewind Examples.hello_reader_moved Examples.hello_db
     = (GridStore.Ok (), self', Examples.hello_db)
     /\ Session.at_offset self' Examples.hello_db Examples.hello_world 0)
  /\ (GridStore.chunkSize Examples.hello_reader_moved < Z.of_nat 6 ->
      GridStore.rewind Examples.hello_reader_moved Examples.hello_db
      = (GridStore.Thrown TypeError, Examples.hello_reader_moved, Examples.hello_db)).
Proof.
  apply (rewind_reader Examples.hello_reader_moved Examples.hello_db
           Examples.hello_world 6 hello_reader_at_six).
  reflexivity.
Defined.

(** X14 (rewind): in a write session that has filled at least one chunk,
    [rewind] deletes the chunks written and leaves the session as it was
    after [open]: nothing written, the head on byte 0, the files collection
    untouched. *)
Theorem rewind_restarts_writing (self : GridStore.t) (d : Db) (written : Buffer) :
  Session.in_progress self d written ->
  is_Some (GridStore.fileId self) ->
  GridStore.chunkSize self <= Z.of_nat (length written) ->
  exists self' d',
    GridStore.rewind self d = (GridStore.Ok (), self', d')
    /\ Session.in_progress self' d' []
    /\ GridStore.fileId self' = GridStore.fileId self
    /\ GridStore.chunkSize self' = GridStore.chunkSize self
    /\ files d' = files d.
Proof.
  intros (q & r & Hlen & Hr & Hmode & Hc & Hpos & Hcur & Hstore) [i Hid] Hfull.
  set (size := Z.to_nat (GridStore.chunkSize self)) in *.
  assert (1 <= q)%nat by nia.
  unfold GridStore.rewind. rewrite Hcur. simpl Chunk.chunkNumber.
  destruct (Z.eqb_spec (Z.of_nat q) 0) as [Hz | _]; [ lia | ].
  simpl negb. cbv iota. rewrite Hmode.
  eexists. eexists. split; [ reflexivity | ].
  split; [ | split; [ reflexivity | split; [ reflexivity | ] ] ].
  - exists 0%nat, 0%nat. cbn zeta. unfold GridStore.chunkSize in *. simpl. fold size.
    split; [ reflexivity | ]. split; [ lia | ]. split; [ exact Hmode | ].
    split; [ exact Hc | ]. split; [ reflexivity | ]. split; [ reflexivity | ].
    intros n. rewrite bool_decide_eq_false_2 by nia.
    unfold GridStore.deleteChunks, Collection.chunks_of, Collection.remove_chunks.
    rewrite Hid. simpl. rewrite lookup_delete_eq. reflexivity.
  - unfold GridStore.deleteChunks. rewrite Hid. reflexivity.
Qed.

Lemma hello_written_in_progress :
  Session.in_progress (Examples.handle_of Examples.hello_written)
    (Examples.db_of Examples.hello_written) Examples.hello_world.
Proof.
  destruct (open_starts_session Examples.no_number Examples.no_hex
              Examples.writer_created Examples.writer Examples.empty_db
              (Examples.db_of Examples.writer_opened) 3%N) as [Hstart _].
  - reflexivity.
  - reflexivity.
  - eexists. reflexivity.
  - vm_compute. discriminate.
  - destruct (write_all_in_progress Examples.no_md5
                [list_byte_of_string "hello "; list_byte_of_string "world"]
                Examples.writer (Examples.db_of Examples.writer_opened) [] 0 Hstart)
      as (self2 & d2 & Hwrite & Hin & _).
    unfold Examples.hello_written. rewrite Hwrite. exact Hin.
Qed.

Lemma rewind_restarts_writing_witness :
  exists self' d',
    GridStore.rewind (Examples.handle_of Examples.hello_written)
      (Examples.db_of Examples.hello_written)
    = (GridStore.Ok (), self', d')
    /\ Session.in_progress self' d' []
    /\ GridStore.fileId self'
       = GridStore.fileId (Examples.handle_of Examples.hello_written)
    /\ GridStore.chunkSize self'
       = GridStore.chunkSize (Examples.handle_of Examples.hello_written)
    /\ files d' = files (Examples.db_of Examples.hello_written).
Proof.
  apply (rewind_restarts_writing (Examples.handle_of Examples.hello_written)
           (Examples.db_of Examples.hello_written) Examples.hello_world
           hello_written_in_progress).
  - eexists. reflexivity.
  - vm_compute. discriminate.
Defined.

(** ** Reading a cursor to its end *)

Section CursorReading.

Context {Core Doc Order : Type}.
Variable core_next : Core -> Cursor.Fetched Doc * Core.
Variable core_isDead : Core -> bool.
Variable formattedOrderClause : Order -> JsError + Order.
Variable pair_order : Order -> JsVal -> Order.
Variable core_bufferedCount : Core -> Z.
Variable core_readBufferedDocuments : Z -> Core -> list Doc * Core.
Variable core_kill : Core -> Core.

Local Abbreviation fetchDocs :=
  (Cursor.fetchDocs core_next core_bufferedCount core_readBufferedDocuments).
Local Abbreviation toArray :=
  (Cursor.toArray core_next core_isDead core_bufferedCount core_readBufferedDocuments).
Local Abbreviation drain := (Cursor.drain core_next core_bufferedCount).
Local Abbreviation each := (Cursor.each core_next core_isDead core_bufferedCount).
Local Abbreviation close := (Cursor.close core_kill).
Local Abbreviation nextObject :=
  (Cursor.nextObject core_next core_isDead formattedOrderClause).
Local Abbreviation _read :=
  (Cursor._read core_next core_isDead formattedOrderClause core_kill).

Lemma fetchDocs_state fuel : forall (c : @Cursor.t Core Order) items r c',
  fetchDocs fuel c items = Some (r, c') ->
  Cursor.tailable c' = Cursor.tailable c
  /\ Cursor.state c' = match r with
                       | inr _ => Cursor.CLOSED
                       | inl _ => Cursor.state c
                       end.
Proof.
  induction fuel as [ | fuel IH]; intros c items r c'; simpl;
    destruct (core_next (Cursor.core c)) as [[tl err | [doc | ]] core'];
    try (intros [= <- <-]; split; reflexivity).
  - destruct (core_bufferedCount _ >? 0); [ | discriminate ].
    destruct (core_readBufferedDocuments _ _); discriminate.
  - destruct (core_bufferedCount _ >? 0).
    + destruct (core_readBufferedDocuments _ _) as [docs core''].
      intros Hrun. apply IH in Hrun. exact Hrun.
    + intros Hrun. apply IH in Hrun. exact Hrun.
Qed.

(** A cursor in the state CLOSED answers without a call to the core
    cursor. *)
Lemma closed_refuses (c : @Cursor.t Core Order) :
  Cursor.state c = Cursor.CLOSED ->
  nextObject c
  = Some (Cursor.mkAnswer (inl (MongoError "Cursor is closed")) [], c)
  /\ (forall fuel calls,
        each fuel c calls = Some (calls ++ [inl (MongoError "Cursor is closed")], c))
  /\ (forall fuel,
        toArray fuel c
        = Some (inl (MongoError (if Cursor.tailable c
                                 then "Tailable cursor cannot be converted to array"
                                 else "Cursor is closed")), c))
  /\ (forall transform, _read transform c = Some (None, c)).
Proof.
  intros Hstate.
  split; [ | split; [ | split ] ].
  - unfold Cursor.nextObject.
    destruct (Z.to_nat _); simpl; rewrite Hstate; reflexivity.
  - intros fuel calls. destruct fuel; simpl; rewrite Hstate; reflexivity.
  - intros fuel. unfold Cursor.toArray. rewrite Hstate.
    destruct (Cursor.tailable c); reflexivity.
  - intros transform. unfold Cursor._read. rewrite Hstate. reflexivity.
Qed.

(** X19 (toArray, nextObject): when [toArray] calls back with documents,
    the cursor is in the state CLOSED, so that [nextObject] and a second
    [toArray] answer "Cursor is closed"; when it calls back with an error,
    the state is what it was. *)
Theorem toArray_ends_closed (c : @Cursor.t Core Order) fuel r c' :
  toArray fuel c = Some (r, c') ->
  match r with
  | inr items =>
    Cursor.state c' = Cursor.CLOSED
    /\ nextObject c'
       = Some (Cursor.mkAnswer (inl (MongoError "Cursor is closed")) [], c')
    /\ forall fuel',
         toArray fuel' c' = Some (inl (MongoError "Cursor is closed"), c')
  | inl _ => Cursor.state c' = Cursor.state c
  end.
Proof.
  unfold Cursor.toArray at 1.
  destruct (Cursor.tailable c) eqn:Htail; [ intros [= <- <-]; reflexivity | ].
  destruct (_ || _); [ intros [= <- <-]; reflexivity | ].
  intros Hrun. apply fetchDocs_state in Hrun. destruct Hrun as [Ht Hs].
  destruct r as [err | items]; [ exact Hs | ].
  split; [ exact Hs | ].
  destruct (closed_refuses c' Hs) as (Hnext & _ & Harray & _).
  split; [ exact Hnext | ].
  intros fuel'. rewrite Harray, Ht, Htail. reflexivity.
Qed.

(** X21 (close): after [close], [nextObject], [each], [toArray] and
    [_read] answer at once, with "Cursor is closed" (for a tailable cursor,
    [toArray] with its own message) or the null that ends the stream, and
    leave the cursor as it is; [limit], [skip], [batchSize] and [sort]
    throw. *)
Theorem close_ends_cursor (c : @Cursor.t Core Order) :
  let c' := close c in
  nextObject c'
  = Some (Cursor.mkAnswer (inl (MongoError "Cursor is closed")) [], c')
  /\ (forall fuel calls,
        each fuel c' calls = Some (calls ++ [inl (MongoError "Cursor is closed")], c'))
  /\ (forall fuel,
        toArray fuel c'
        = Some (inl (MongoError (if Cursor.tailable c
                                 then "Tailable cursor cannot be converted to array"
                                 else "Cursor is closed")), c'))
  /\ (forall transform, _read transform c' = Some (None, c'))
  /\ (forall value,
        (exists e, Cursor.limit core_isDead value c' = inl e)
        /\ (exists e, Cursor.skip core_isDead value c' = inl e)
        /\ (exists e, Cursor.batchSize core_isDead value c' = inl e))
  /\ (forall keyOrList direction,
        exists e, Cursor.sort core_isDead pair_order keyOrList direction c' = inl e).
Proof.
  intros c'.
  assert (Hstate : Cursor.state c' = Cursor.CLOSED) by reflexivity.
  destruct (closed_refuses c' Hstate) as (Hnext & Heach & Harray & Hread).
  split; [ exact Hnext | ]. split; [ exact Heach | ].
  split; [ exact Harray | ]. split; [ exact Hread | ].
  split.
  - intros value.
    unfold Cursor.limit, Cursor.skip, Cursor.batchSize. rewrite Hstate.
    destruct (Cursor.tailable c'); simpl; repeat split; eexists; reflexivity.
  - intros keyOrList direction. unfold Cursor.sort. rewrite Hstate.
    destruct (Cursor.tailable c'); simpl; eexists; reflexivity.
Qed.

End CursorReading.

Lemma toArray_ends_closed_witness :
  Cursor.state (Cursor.set_state Cursor.CLOSED (Examples.list_cursor [])) = Cursor.CLOSED
  /\ Cursor.nextObject Examples.list_next Examples.list_isDead Examples.keep_order
       (Cursor.set_state Cursor.CLOSED (Examples.list_cursor []))
     = Some (Cursor.mkAnswer (inl (MongoError "Cursor is closed")) [],
             Cursor.set_state Cursor.CLOSED (Examples.list_cursor []))
  /\ forall fuel',
       Cursor.toArray Examples.list_next Examples.list_isDead
         Examples.list_bufferedCount Examples.list_readBufferedDocuments fuel'
         (Cursor.set_state Cursor.CLOSED (Examples.list_cursor []))
       = Some (inl (MongoError "Cursor is closed"),
               Cursor.set_state Cursor.CLOSED (Examples.list_cursor [])).
Proof.
  apply (toArray_ends_closed Examples.list_next Examples.list_isDead Examples.keep_order
           Examples.list_bufferedCount Examples.list_readBufferedDocuments
           Examples.list_kill (Examples.list_cursor [1; 2; 3]) 3 (inr [1; 2; 3])).
  reflexivity.
Defined.

Section CursorContract.

Context {Core Doc Order : Type}.
Variable core_next : Core -> Cursor.Fetched Doc * Core.
Variable core_isDead : Core -> bool.
Variable core_bufferedCount : Core -> Z.
Variable core_readBufferedDocuments : Z -> Core -> list Doc * Core.

(** What the core cursor is taken to do: it holds the documents still to
    come, [next] hands out the first of them (null when there is none),
    a number of them is buffered, and [readBufferedDocuments] hands out
    that many at once. *)
Variable remaining : Core -> list Doc.
Hypothesis next_contract : forall core,
  fst (core_next core) = Cursor.FetchDoc (head (remaining core))
  /\ remaining (snd (core_next core)) = tail (remaining core).
Hypothesis buffered_contract : forall core,
  0 <= core_bufferedCount core <= Z.of_nat (length (remaining core)).
Hypothesis read_contract : forall core,
  let n := Z.to_nat (core_bufferedCount core) in
  fst (core_readBufferedDocuments (core_bufferedCount core) core)
  = take n (remaining core)
  /\ remaining (snd (core_readBufferedDocuments (core_bufferedCount core) core))
     = drop n (remaining core).

Local Abbreviation fetchDocs :=
  (Cursor.fetchDocs core_next core_bufferedCount core_readBufferedDocuments).
Local Abbreviation toArray :=
  (Cursor.toArray core_next core_isDead core_bufferedCount core_readBufferedDocuments).
Local Abbreviation drain := (Cursor.drain core_next core_bufferedCount).
Local Abbreviation each := (Cursor.each core_next core_isDead core_bufferedCount).

Lemma fetchDocs_collects fuel : forall (c : @Cursor.t Core Order) items,
  (length (remaining (Cursor.core c)) <= fuel)%nat ->
  exists c',
    fetchDocs fuel c items = Some (inr (items ++ remaining (Cursor.core c)), c')
    /\ Cursor.state c' = Cursor.CLOSED
    /\ remaining (Cursor.core c') = [].
Proof.
  induction fuel as [ | fuel IH]; intros c items Hfuel.
  - destruct (next_contract (Cursor.core c)) as [Hdoc Hrest].
    destruct (remaining (Cursor.core c)) as [ | x rest] eqn:Hrem; [ | simpl in Hfuel; lia ].
    simpl. destruct (core_next (Cursor.core c)) as [fetched core'].
    simpl in Hdoc, Hrest. subst fetched. simpl.
    eexists. split; [ rewrite app_nil_r; reflexivity | ].
    split; [ reflexivity | exact Hrest ].
  - destruct (next_contract (Cursor.core c)) as [Hdoc Hrest].
    simpl. destruct (core_next (Cursor.core c)) as [fetched core'].
    simpl in Hdoc, Hrest. subst fetched.
    destruct (remaining (Cursor.core c)) as [ | x rest] eqn:Hrem; simpl.
    + eexists. split; [ rewrite app_nil_r; reflexivity | ].
      split; [ reflexivity | exact Hrest ].
    + simpl in Hrest, Hfuel.
      pose proof (buffered_contract core') as Hb.
      destruct (read_contract core') as [Hdocs Hleft].
      destruct (Z.gtb_spec (core_bufferedCount core') 0) as [Hsome | Hnone].
      * destruct (core_readBufferedDocuments (core_bufferedCount core') core')
          as [docs core''].
        simpl in Hdocs, Hleft. subst docs.
        destruct (IH (Cursor.set_core core'' (Cursor.set_core core' c))
                     ((items ++ [x]) ++ take (Z.to_nat (core_bufferedCount core'))
                                          (remaining core')))
          as (c' & Hrun & Hstate & Hempty).
        { simpl. rewrite Hleft, length_drop, Hrest. lia. }
        exists c'. split; [ | split; assumption ].
        rewrite Hrun. simpl. rewrite Hleft, <- !app_assoc, take_drop, Hrest.
        reflexivity.
      * destruct (IH (Cursor.set_core core' c) (items ++ [x]))
          as (c' & Hrun & Hstate & Hempty).
        { simpl. rewrite Hrest. lia. }
        exists c'. split; [ | split; assumption ].
        rewrite Hrun. simpl. rewrite Hrest, <- app_assoc. reflexivity.
Qed.

(** X18 (toArray): on a cursor that is not tailable, not closed and not
    dead, over a core cursor that hands out its documents in order,
    [toArray] calls back with all remaining documents in order, whatever
    part of them is buffered, and leaves the cursor closed. *)
Theorem toArray_collects (c : @Cursor.t Core Order) fuel :
  Cursor.tailable c = false ->
  Cursor.state c <> Cursor.CLOSED ->
  core_isDead (Cursor.core c) = false ->
  (length (remaining (Cursor.core c)) <= fuel)%nat ->
  exists c',
    toArray fuel c = Some (inr (remaining (Cursor.core c)), c')
    /\ Cursor.state c' = Cursor.CLOSED
    /\ remaining (Cursor.core c') = [].
Proof.
  intros Htail Hstate Hdead Hfuel.
  unfold Cursor.toArray, Cursor.isDead. rewrite Htail, Hdead.
  rewrite bool_decide_eq_false_2 by exact Hstate. simpl.
  apply (fetchDocs_collects fuel c [] Hfuel).
Qed.

Lemma drain_spec fuel : forall (c : @Cursor.t Core Order) calls,
  (length (remaining (Cursor.core c)) <= fuel)%nat ->
  exists (k : nat) c',
    drain fuel c calls
    = Some (calls ++ ((fun doc => inr (Some doc)) <$> take k (remaining (Cursor.core c))),
            c')
    /\ remaining (Cursor.core c') = drop k (remaining (Cursor.core c))
    /\ Cursor.state c' = Cursor.state c
    /\ (0 < core_bufferedCount (Cursor.core c) -> (1 <= k)%nat)
    /\ (k <= length (remaining (Cursor.core c)))%nat.
Proof.
  induction fuel as [ | fuel IH]; intros c calls Hfuel.
  - pose proof (buffered_contract (Cursor.core c)) as Hb.
    simpl. destruct (Z.eqb_spec (core_bufferedCount (Cursor.core c)) 0) as [Hz | Hnz];
      [ | lia ].
    exists 0%nat, c. rewrite take_0, drop_0. simpl. rewrite app_nil_r.
    repeat split; lia.
  - pose proof (buffered_contract (Cursor.core c)) as Hb.
    simpl. destruct (Z.eqb_spec (core_bufferedCount (Cursor.core c)) 0) as [Hz | Hnz].
    + exists 0%nat, c. rewrite take_0, drop_0. simpl. rewrite app_nil_r.
      repeat split; lia.
    + destruct (next_contract (Cursor.core c)) as [Hdoc Hrest].
      destruct (core_next (Cursor.core c)) as [fetched core'].
      simpl in Hdoc, Hrest. subst fetched.
      destruct (remaining (Cursor.core c)) as [ | x rest] eqn:Hrem;
        [ simpl in Hb; lia | ].
      simpl in Hrest, Hfuel.
      destruct (IH (Cursor.set_core core' c) (calls ++ [Cursor.reply (Cursor.FetchDoc (Some x))]))
        as (k & c' & Hrun & Hleft & Hstate & _ & Hk).
      { simpl. rewrite Hrest. lia. }
      simpl in Hrun, Hleft, Hstate, Hk. rewrite Hrest in Hrun, Hleft, Hk.
      exists (S k), c'. simpl. rewrite Hrun. simpl. rewrite <- app_assoc. simpl.
      repeat split; try assumption; lia.
Qed.

Hypothesis never_dead : forall core, core_isDead core = false.

Lemma each_step fuel (c : @Cursor.t Core Order) calls :
  each (S fuel) c calls
  = if bool_decide (Cursor.state c = Cursor.CLOSED) || Cursor.isDead core_isDead c
    then Some (calls ++ [inl (MongoError "Cursor is closed")], c)
    else if core_bufferedCount (Cursor.core c) >? 0 then
      match drain (S fuel) c calls with
      | None => None
      | Some (calls, c) => each fuel c calls
      end
    else
      let '(fetched, core') := core_next (Cursor.core c) in
      let c := Cursor.set_core core' c in
      match fetched with
      | Cursor.FetchError _ err => Some (calls ++ [inl err], c)
      | Cursor.FetchDoc None => Some (calls ++ [inr None], c)
      | Cursor.FetchDoc (Some item) => each fuel c (calls ++ [inr (Some item)])
      end.
Proof. reflexivity. Qed.

Lemma each_spec fuel : forall (c : @Cursor.t Core Order) calls,
  Cursor.state c <> Cursor.CLOSED ->
  (length (remaining (Cursor.core c)) <= fuel)%nat ->
  exists c',
    each fuel c calls
    = Some (calls ++ ((fun doc => inr (Some doc)) <$> remaining (Cursor.core c))
                  ++ [inr None], c')
    /\ Cursor.state c' = Cursor.state c
    /\ remaining (Cursor.core c') = [].
Proof.
  induction fuel as [ | fuel IH]; intros c calls Hstate Hfuel.
  - pose proof (buffered_contract (Cursor.core c)) as Hb.
    destruct (next_contract (Cursor.core c)) as [Hdoc Hrest].
    destruct (remaining (Cursor.core c)) as [ | x rest] eqn:Hrem; [ | simpl in Hfuel; lia ].
    simpl. unfold Cursor.isDead. rewrite never_dead.
    rewrite bool_decide_eq_false_2 by exact Hstate. simpl in *.
    destruct (Z.gtb_spec (core_bufferedCount (Cursor.core c)) 0); [ lia | ].
    destruct (core_next (Cursor.core c)) as [fetched core'].
    simpl in Hdoc, Hrest. subst fetched.
    eexists. split; [ reflexivity | ]. split; [ reflexivity | exact Hrest ].
  - pose proof (buffered_contract (Cursor.core c)) as Hb.
    rewrite each_step. unfold Cursor.isDead. rewrite never_dead.
    rewrite bool_decide_eq_false_2 by exact Hstate. cbn [orb].
    destruct (Z.gtb_spec (core_bufferedCount (Cursor.core c)) 0) as [Hsome | Hnone].
    + destruct (drain_spec (S fuel) c calls Hfuel)
        as (k & c1 & Hdrain & Hleft & Hstate1 & Hk & Hle).
      rewrite Hdrain.
      destruct (IH c1 (calls ++ ((fun doc => inr (Some doc))
                                   <$> take k (remaining (Cursor.core c)))))
        as (c' & Hrun & Hstate' & Hempty).
      { congruence. }
      { rewrite Hleft, length_drop. specialize (Hk ltac:(lia)). lia. }
      exists c'. split; [ | split; [ congruence | exact Hempty ] ].
      rewrite Hrun, Hleft.
      rewrite <- (take_drop k (remaining (Cursor.core c))) at 3.
      rewrite fmap_app, <- !app_assoc. reflexivity.
    + destruct (next_contract (Cursor.core c)) as [Hdoc Hrest].
      destruct (core_next (Cursor.core c)) as [fetched core'].
      simpl in Hdoc, Hrest. subst fetched.
      destruct (remaining (Cursor.core c)) as [ | x rest] eqn:Hrem; simpl.
      * eexists. split; [ reflexivity | ]. split; [ reflexivity | exact Hrest ].
      * simpl in Hrest, Hfuel.
        destruct (IH (Cursor.set_core core' c) (calls ++ [inr (Some x)]))
          as (c' & Hrun & Hstate' & Hempty).
        { exact Hstate. }
        { simpl. rewrite Hrest. lia. }
        exists c'. split; [ | split; [ exact Hstate' | exact Hempty ] ].
        rewrite Hrun. simpl. rewrite Hrest, <- app_assoc. reflexivity.
Qed.

(** X20 (each): over a core cursor that hands out its documents in order
    and does not die, [each] calls back once per remaining document, in
    order, then once with null, and leaves the state of the cursor as it
    was. *)
Theorem each_visits_all (c : @Cursor.t Core Order) fuel :
  Cursor.state c <> Cursor.CLOSED ->
  (length (remaining (Cursor.core c)) <= fuel)%nat ->
  exists c',
    each fuel c []
    = Some (((fun doc => inr (Some doc)) <$> remaining (Cursor.core c)) ++ [inr None],
            c')
    /\ Cursor.state c' = Cursor.state c
    /\ remaining (Cursor.core c') = [].
Proof. intros Hstate Hfuel. exact (each_spec fuel c [] Hstate Hfuel). Qed.

End CursorContract.

(** The list-backed core cursor of the examples keeps the contract. *)
Lemma list_next_contract : forall core : list Z,
  fst (Examples.list_next core) = Cursor.FetchDoc (head core)
  /\ snd (Examples.list_next core) = tail core.
Proof. intros core. split; reflexivity. Qed.

Lemma list_buffered_contract : forall core : list Z,
  0 <= Examples.list_bufferedCount core <= Z.of_nat (length core).
Proof. intros core. unfold Examples.list_bufferedCount. lia. Qed.

Lemma list_read_contract : forall core : list Z,
  let n := Z.to_nat (Examples.list_bufferedCount core) in
  fst (Examples.list_readBufferedDocuments (Examples.list_bufferedCount core) core)
  = take n core
  /\ snd (Examples.list_readBufferedDocuments (Examples.list_bufferedCount core) core)
     = drop n core.
Proof. intros core. split; reflexivity. Qed.

Lemma toArray_collects_witness :
  exists c',
    Cursor.toArray Examples.list_next Examples.list_isDead Examples.list_bufferedCount
      Examples.list_readBufferedDocuments 4 (Examples.list_cursor [1; 2; 3; 4])
    = Some (inr [1; 2; 3; 4], c')
    /\ Cursor.state c' = Cursor.CLOSED
    /\ Cursor.core c' = [].
Proof.
  apply (toArray_collects Examples.list_next Examples.list_isDead
           Examples.list_bufferedCount Examples.list_readBufferedDocuments
           (fun core => core) list_next_contract list_buffered_contract
           list_read_contract (Examples.list_cursor [1; 2; 3; 4]) 4).
  - reflexivity.
  - discriminate.
  - reflexivity.
  - simpl. lia.
Defined.

Lemma each_visits_all_witness :
  exists c',
    Cursor.each Examples.list_next Examples.list_isDead Examples.list_bufferedCount
      4 (Examples.list_cursor [1; 2; 3; 4]) []
    = Some ([inr (Some 1); inr (Some 2); inr (Some 3); inr (Some 4); inr None], c')
    /\ Cursor.state c' = Cursor.state (Examples.list_cursor [1; 2; 3; 4])
    /\ Cursor.core c' = [].
Proof.
  apply (each_visits_all Examples.list_next Examples.list_isDead
           Examples.list_bufferedCount
           (fun core => core) list_next_contract list_buffered_contract
           (fun core => eq_refl) (Examples.list_cursor [1; 2; 3; 4]) 4).
  - discriminate.
  - simpl. lia.
Defined.

(** ** Reading past the end *)

(** A read of more bytes than are left, from chunk [k] on: the buffer
    holds the first [i] of the bytes from [p0] on, and takes what is left
    of the file; what the loop leaves behind is the last chunk, read to
    its end. *)
Lemma read_tail (c : Z) (payload : Buffer) (d : Db) (p0 n : nat) :
  1 <= c ->
  (p0 <= length payload)%nat ->
  (length payload - p0 < n)%nat ->
  forall fuel (k cur i : nat) (self : GridStore.t) (filled : Buffer),
    let size := Z.to_nat c in
    let m := (length payload - p0)%nat in
    Layout.stored c payload (Collection.chunks_of (GridStore.fileId self) d) ->
    (p0 + i = k * size + cur)%nat ->
    (cur <= length (Layout.piece size payload k))%nat ->
    (i <= m)%nat ->
    (length payload <= (k + 1 + fuel) * size)%nat ->
    GridStore.currentChunk self
    = Some (Chunk.mk (Z.of_nat k) (Layout.piece size payload k) (Z.of_nat cur)) ->
    filled = take i (drop p0 payload) ++ replicate (n - i) Byte.x00 ->
    exists k' self',
      GridStore.read fuel self (Some (Z.of_nat n))
        (Some (GridStore.mkReadBuffer filled (Some (Z.of_nat i)))) d
      = Some (if (0 <? m)%nat
              then GridStore.Ok
                     (GridStore.mkReadBuffer
                        (drop p0 payload ++ replicate (n - m) Byte.x00)
                        (Some (Z.of_nat m)))
              else GridStore.Failed
                     (Error "no chunks found for file, possibly corrupt"),
              self')
      /\ GridStore.currentChunk self'
         = Some (Chunk.mk (Z.of_nat k') (Layout.piece size payload k')
                   (Z.of_nat (length (Layout.piece size payload k'))))
      /\ (length payload <= (k' + 1) * size)%nat
      /\ (k' * size + length (Layout.piece size payload k') = length payload)%nat
      /\ GridStore.fileId self' = GridStore.fileId self
      /\ GridStore.length self' = GridStore.length self
      /\ GridStore.chunkSize self' = GridStore.chunkSize self
      /\ GridStore.mode self' = GridStore.mode self.
Proof.
  intros Hc Hp0 Hmore fuel. induction fuel as [ | fuel IH];
    intros k cur i self filled size m Hstored Habs Hcur Hi Hfuel Hchunk Hfilled.
  all: pose proof (piece_size_length size payload k) as Hplen.
  all: assert (Hflen : length filled = n)
         by (rewrite Hfilled, length_app, length_take, length_drop, length_replicate; lia).
  all: assert (Hslice : drop cur (Layout.piece size payload k)
                        = take (length (Layout.piece size payload k) - cur)
                            (drop (p0 + i) payload))
         by (rewrite Habs, <- (piece_slice size payload k cur) by lia;
             symmetry; apply take_ge; rewrite length_drop; lia).
  all: assert (Hcopy :
         Buf.copy (drop cur (Layout.piece size payload k)) filled (Z.of_nat i)
         = take (i + (length (Layout.piece size payload k) - cur)) (drop p0 payload)
           ++ replicate (n - (i + (length (Layout.piece size payload k) - cur)))
                Byte.x00).
  1, 3: unfold Buf.copy; rewrite Nat2Z.id, Hflen, length_drop;
    rewrite Hfilled at 1;
    rewrite take_app_le by (rewrite length_take, length_drop; lia);
    rewrite take_take, Nat.min_id;
    rewrite (take_ge (drop cur _)) by (rewrite length_drop; lia);
    rewrite Hfilled, drop_app_ge by (rewrite length_take, length_drop; lia);
    rewrite length_take, length_drop, drop_replicate;
    rewrite Hslice, <- drop_drop, app_assoc, take_take_drop;
    do 2 f_equal; lia.
  all: rewrite read_unfold; cbn zeta; rewrite Hchunk; simpl GridStore.bytes;
    simpl GridStore.or_default;
    unfold Chunk.length, Chunk.readSlice; simpl Chunk.data; simpl Chunk.position;
    simpl Chunk.chunkNumber.
  all: match goal with
       | |- context [?a >=? ?b] => destruct (Z.geb_spec a b) as [Hlast | _]; [ lia | ]
       end.
  all: rewrite Nat2Z.id;
    replace (Z.to_nat (Z.of_nat (length (Layout.piece size payload k)) - Z.of_nat cur))
      with (length (Layout.piece size payload k) - cur)%nat by lia;
    rewrite (take_ge (drop cur (Layout.piece size payload k)))
      by (rewrite length_drop; lia);
    rewrite Hcopy, length_drop.
  all: unfold GridStore.nthChunk, Collection.find_chunk; simpl GridStore.fileId;
    rewrite Hstored.
  all: destruct (decide ((k + 1) * size < length payload)%nat) as [Hnext | Hend].
  (* fuel 0, next chunk present: excluded *)
  - exfalso. lia.
  (* fuel 0, at the last chunk *)
  - rewrite bool_decide_eq_false_2 by nia.
    unfold Chunk.new. simpl.
    assert (Hm : (i + (length (Layout.piece size payload k) - cur) = m)%nat) by lia.
    rewrite Hm.
    destruct (Nat.ltb_spec 0 m) as [Hpos | Hzero].
    + destruct (Z.gtb_spec (Z.of_nat i + Z.of_nat (length (Layout.piece size payload k) - cur)) 0);
        [ | lia ].
      exists k. eexists. split.
      { rewrite take_ge by (rewrite length_drop; lia).
        replace (Z.of_nat i + Z.of_nat (length (Layout.piece size payload k) - cur))
          with (Z.of_nat m) by lia.
        reflexivity. }
      split; [ simpl; do 2 f_equal; lia | ].
      split; [ lia | ]. split; [ lia | ]. repeat split.
    + destruct (Z.gtb_spec (Z.of_nat i + Z.of_nat (length (Layout.piece size payload k) - cur)) 0);
        [ lia | ].
      exists k. eexists. split; [ reflexivity | ].
      split; [ simpl; do 2 f_equal; lia | ].
      split; [ lia | ]. split; [ lia | ]. repeat split.
  (* next chunk present *)
  - rewrite bool_decide_eq_true_2 by nia.
    unfold Chunk.new. simpl default.
    pose proof (piece_size_length size payload (k + 1)) as Hnlen.
    replace (Z.to_nat (Z.of_nat k + 1)) with (k + 1)%nat by lia.
    fold size. simpl Chunk.data.
    match goal with
    | |- context [?a >? 0] => destruct (Z.gtb_spec a 0) as [_ | ?]; [ | lia ]
    end.
    replace (Z.of_nat i + Z.of_nat (length (Layout.piece size payload k) - cur))
      with (Z.of_nat (i + (length (Layout.piece size payload k) - cur))) by lia.
    replace (Z.of_nat k + 1) with (Z.of_nat (k + 1)) by lia.
    destruct (IH (k + 1)%nat 0%nat (i + (length (Layout.piece size payload k) - cur))%nat
                (GridStore.set_currentChunk
                   (Some (Chunk.mk (Z.of_nat (k + 1))
                            (Layout.piece size payload (k + 1)) 0))
                   (GridStore.set_currentChunk
                      (Some (Chunk.mk (Z.of_nat k) (Layout.piece size payload k)
                               (Z.of_nat cur
                                + Z.of_nat (length (Layout.piece size payload k) - cur))))
                      self))
                (take (i + (length (Layout.piece size payload k) - cur)) (drop p0 payload)
                 ++ replicate (n - (i + (length (Layout.piece size payload k) - cur)))
                      Byte.x00))
      as (k' & self' & Hread & Hrest); try assumption; try lia.
    + reflexivity.
    + reflexivity.
    + exists k', self'. split; [ exact Hread | exact Hrest ].
  (* at the last chunk *)
  - rewrite bool_decide_eq_false_2 by nia.
    unfold Chunk.new. simpl.
    assert (Hm : (i + (length (Layout.piece size payload k) - cur) = m)%nat) by lia.
    rewrite Hm.
    destruct (Nat.ltb_spec 0 m) as [Hpos | Hzero].
    + destruct (Z.gtb_spec (Z.of_nat i + Z.of_nat (length (Layout.piece size payload k) - cur)) 0);
        [ | lia ].
      exists k. eexists. split.
      { rewrite take_ge by (rewrite length_drop; lia).
        replace (Z.of_nat i + Z.of_nat (length (Layout.piece size payload k) - cur))
          with (Z.of_nat m) by lia.
        reflexivity. }
      split; [ simpl; do 2 f_equal; lia | ].
      split; [ lia | ]. split; [ lia | ]. repeat split.
    + destruct (Z.gtb_spec (Z.of_nat i + Z.of_nat (length (Layout.piece size payload k) - cur)) 0);
        [ lia | ].
      exists k. eexists. split; [ reflexivity | ].
      split; [ simpl; do 2 f_equal; lia | ].
      split; [ lia | ]. split; [ lia | ]. repeat split.
Qed.

(** ** The stream of a file *)

(** A read changes the head and the current chunk of the handle, and
    nothing else. *)
Lemma read_keeps_handle fuel : forall (self : GridStore.t) length_arg buffer d o self',
  GridStore.read fuel self length_arg buffer d = Some (o, self') ->
  GridStore.chunkSize self' = GridStore.chunkSize self
  /\ GridStore.fileId self' = GridStore.fileId self
  /\ GridStore.length self' = GridStore.length self
  /\ GridStore.mode self' = GridStore.mode self.
Proof.
  induction fuel as [ | fuel IH]; intros self length_arg buffer d o self';
    rewrite read_unfold; cbn zeta;
    (destruct (GridStore.currentChunk self) as [current | ];
       [ | intros [= <- <-]; repeat split ]);
    destruct (_ >=? _).
  1, 3: destruct (Chunk.readSlice current _) as [slice current'];
    destruct (_ && _); intros [= <- <-]; repeat split.
  all: destruct (Chunk.readSlice current _) as [slice current'];
    destruct (Chunk.length _ >? 0).
  - discriminate.
  - destruct (_ >? 0); intros [= <- <-]; repeat split.
  - intros Hrun. apply IH in Hrun. exact Hrun.
  - destruct (_ >? 0); intros [= <- <-]; repeat split.
Qed.

Lemma at_offset_end (self : GridStore.t) (d : Db) (payload : Buffer) :
  Session.at_offset self d payload (length payload) ->
  Session.at_end self d payload.
Proof.
  intros (k & cur & Hc & Hp & Hcur & Hstored & Hlength & Hposition & Hchunk).
  set (size := Z.to_nat (GridStore.chunkSize self)) in *.
  pose proof (piece_size_length size payload k) as Hplen.
  exists k. cbn zeta. fold size.
  assert (cur = length (Layout.piece size payload k)) by lia. subst cur.
  repeat split; try assumption. lia.
Qed.

(** At the end of the file a read of at least one byte finds no chunk. *)
Lemma read_at_end (self : GridStore.t) (d : Db) (payload : Buffer) (n : nat) fuel :
  Session.at_end self d payload ->
  (0 < n)%nat ->
  exists self',
    GridStore.read fuel self (Some (Z.of_nat n)) None d
    = Some (GridStore.Failed (Error "no chunks found for file, possibly corrupt"),
            self')
    /\ Session.at_end self' d payload.
Proof.
  intros (k & Hc & Hstored & Hlength & Hk & Hchunk) Hn.
  set (size := Z.to_nat (GridStore.chunkSize self)) in *.
  pose proof (piece_size_length size payload k) as Hplen.
  rewrite read_allocates_any.
  destruct (read_tail (GridStore.chunkSize self) payload d (length payload) n Hc
              ltac:(lia) ltac:(lia) fuel k (length (Layout.piece size payload k))
              0%nat self (Buf.alloc (Z.of_nat n)))
    as (k' & self' & Hread & Hchunk' & _ & Hk' & Hid & Hlen & Hsize & _);
    try assumption; try (fold size; lia).
  - unfold Buf.alloc. rewrite Nat2Z.id, take_0, Nat.sub_0_r. reflexivity.
  - rewrite Nat.sub_diag in Hread. simpl in Hread.
    exists self'. split; [ exact Hread | ].
    exists k'. cbn zeta. rewrite Hsize, Hid, Hlen. fold size.
    repeat split; assumption.
Qed.

(** A read of more bytes than are left delivers what is left, in a
    buffer of the length asked for, with the number of bytes in [_index]. *)
Lemma read_rest_short (self : GridStore.t) (d : Db) (payload : Buffer) (p n : nat) fuel :
  Session.at_offset self d payload p ->
  (p < length payload)%nat ->
  (length payload - p < n)%nat ->
  (length payload <= fuel)%nat ->
  exists self',
    GridStore.read fuel self (Some (Z.of_nat n)) None d
    = Some (GridStore.Ok
              (GridStore.mkReadBuffer
                 (drop p payload ++ replicate (n - (length payload - p)) Byte.x00)
                 (Some (Z.of_nat (length payload - p)))),
            self')
    /\ Session.at_end self' d payload.
Proof.
  intros (k & cur & Hc & Hp & Hcur & Hstored & Hlength & Hposition & Hchunk)
         Hin Hmore Hfuel.
  set (size := Z.to_nat (GridStore.chunkSize self)) in *.
  rewrite read_allocates_any.
  destruct (read_tail (GridStore.chunkSize self) payload d p n Hc
              ltac:(lia) ltac:(lia) fuel k cur 0%nat self (Buf.alloc (Z.of_nat n)))
    as (k' & self' & Hread & Hchunk' & _ & Hk' & Hid & Hlen & Hsize & _);
    try assumption; try (fold size; lia); try (fold size; nia).
  - unfold Buf.alloc. rewrite Nat2Z.id, take_0, Nat.sub_0_r. reflexivity.
  - destruct (Nat.ltb_spec 0 (length payload - p)) as [_ | ?]; [ | lia ].
    exists self'. split; [ exact Hread | ].
    exists k'. cbn zeta. rewrite Hsize, Hid, Hlen. fold size.
    repeat split; assumption.
Qed.

(** Once the stream is at the end of the file, the next call ends it. *)
Lemma stream_read_at_end (s : GridStore.Stream) (d : Db) (payload : Buffer) fuel :
  Session.at_end (GridStore.gs s) d payload ->
  (0 < length payload)%nat ->
  GridStore.seekPosition s = 0 ->
  exists s', GridStore.stream_read fuel s d = Some (GridStore.Ok None, s').
Proof.
  intros Hend Hlen Hseek.
  assert (Hin := Hend). destruct Hin as (k & Hc & _ & Hlength & _).
  unfold GridStore.stream_read.
  set (len := if GridStore.length (GridStore.gs s) <? GridStore.chunkSize (GridStore.gs s)
              then _ else _).
  assert (Hpos : 0 < len).
  { unfold len. destruct (_ <? _); lia. }
  replace len with (Z.of_nat (Z.to_nat len)) by lia.
  destruct (read_at_end (GridStore.gs s) d payload (Z.to_nat len) fuel Hend ltac:(lia))
    as (self' & Hread & _).
  rewrite Hread. eexists. reflexivity.
Qed.

(** A call of [_read] with a chunk's worth of bytes left. *)
Lemma stream_read_chunk (s : GridStore.Stream) (d : Db) (payload : Buffer) (p : nat)
    fuel :
  let size := Z.to_nat (GridStore.chunkSize (GridStore.gs s)) in
  Session.at_offset (GridStore.gs s) d payload p ->
  GridStore.chunkSize (GridStore.gs s) <= Z.of_nat (length payload) ->
  GridStore.endCalled s = false ->
  GridStore.totalBytesToRead s = Z.of_nat (length payload - p) ->
  (p + size <= length payload)%nat ->
  (length payload <= fuel)%nat ->
  exists s1,
    GridStore.stream_read fuel s d
    = Some (GridStore.Ok (Some (take size (drop p payload))), s1)
    /\ Session.at_offset (GridStore.gs s1) d payload (p + size)
    /\ GridStore.chunkSize (GridStore.gs s1) = GridStore.chunkSize (GridStore.gs s)
    /\ GridStore.endCalled s1 = bool_decide (p + size = length payload)%nat
    /\ GridStore.totalBytesToRead s1 = Z.of_nat (length payload - (p + size))
    /\ GridStore.seekPosition s1 = GridStore.seekPosition s.
Proof.
  intros size Hat Hbig Hlive Htotal Hfull Hfuel.
  assert (Hat' := Hat).
  destruct Hat' as (k & cur & Hc & _ & _ & _ & Hlength & _ & _).
  fold size in Hc.
  destruct (read_at_offset (GridStore.gs s) d payload p size (Some (Z.of_nat size)) fuel
              Hat ltac:(lia) Hfull eq_refl ltac:(lia))
    as (index & self' & Hread & Hat1 & _).
  destruct (read_keeps_handle _ _ _ _ _ _ _ Hread) as (Hsize1 & _).
  unfold GridStore.stream_read.
  replace (if GridStore.length (GridStore.gs s) <? GridStore.chunkSize (GridStore.gs s)
           then GridStore.length (GridStore.gs s) - GridStore.seekPosition s
           else GridStore.chunkSize (GridStore.gs s))
    with (Z.of_nat size)
    by (destruct (Z.ltb_spec (GridStore.length (GridStore.gs s))
                    (GridStore.chunkSize (GridStore.gs s))); unfold size; lia).
  rewrite Hread, Hlive. simpl GridStore.bytes.
  rewrite length_take, length_drop, Htotal.
  destruct (Z.leb_spec (Z.of_nat (size `min` (length payload - p)))
              (Z.of_nat (length payload - p))) as [_ | ?]; [ | lia ].
  eexists. split; [ reflexivity | ]. simpl.
  split; [ exact Hat1 | ]. split; [ exact Hsize1 | ].
  split; [ | split; [ lia | reflexivity ] ].
  destruct (decide (p + size = length payload)%nat) as [Heq | Hne].
  - rewrite bool_decide_eq_true_2 by exact Heq. apply Z.leb_le. lia.
  - rewrite bool_decide_eq_false_2 by exact Hne. apply Z.leb_gt. lia.
Qed.

(** A call of [_read] with less than a chunk's worth of bytes left. *)
Lemma stream_read_last (s : GridStore.Stream) (d : Db) (payload : Buffer) (p : nat)
    fuel :
  let size := Z.to_nat (GridStore.chunkSize (GridStore.gs s)) in
  Session.at_offset (GridStore.gs s) d payload p ->
  GridStore.chunkSize (GridStore.gs s) <= Z.of_nat (length payload) ->
  GridStore.endCalled s = false ->
  GridStore.totalBytesToRead s = Z.of_nat (length payload - p) ->
  (p < length payload)%nat ->
  (length payload < p + size)%nat ->
  (length payload <= fuel)%nat ->
  exists s1,
    GridStore.stream_read fuel s d = Some (GridStore.Ok (Some (drop p payload)), s1)
    /\ Session.at_end (GridStore.gs s1) d payload
    /\ GridStore.seekPosition s1 = GridStore.seekPosition s.
Proof.
  intros size Hat Hbig Hlive Htotal Hin Hshort Hfuel.
  assert (Hat' := Hat).
  destruct Hat' as (k & cur & Hc & _ & _ & _ & Hlength & _ & _).
  fold size in Hc.
  destruct (read_rest_short (GridStore.gs s) d payload p size fuel Hat Hin
              ltac:(lia) Hfuel) as (self' & Hread & Hend).
  unfold GridStore.stream_read.
  replace (if GridStore.length (GridStore.gs s) <? GridStore.chunkSize (GridStore.gs s)
           then GridStore.length (GridStore.gs s) - GridStore.seekPosition s
           else GridStore.chunkSize (GridStore.gs s))
    with (Z.of_nat size)
    by (destruct (Z.ltb_spec (GridStore.length (GridStore.gs s))
                    (GridStore.chunkSize (GridStore.gs s))); unfold size; lia).
  rewrite Hread, Hlive. simpl GridStore.bytes. simpl GridStore._index.
  rewrite length_app, length_drop, length_replicate, Htotal.
  destruct (Z.leb_spec (Z.of_nat (length payload - p + (size - (length payload - p))))
              (Z.of_nat (length payload - p))) as [? | _]; [ lia | ].
  assert (Hslice :
    Buf.slice (drop p payload ++ replicate (size - (length payload - p)) Byte.x00) 0
      (Some (GridStore.or_default (Some (Z.of_nat (length payload - p))) 0))
    = drop p payload).
  { unfold Buf.slice, Buf.index, GridStore.or_default.
    rewrite length_app, length_drop, length_replicate.
    change (0 <? 0) with false.
    destruct (Z.ltb_spec (Z.of_nat (length payload - p)) 0) as [? | _]; [ lia | ].
    cbv iota.
    replace (Z.to_nat (_ - _)) with (length payload - p)%nat by lia.
    replace (Z.to_nat (0 `min` _)) with 0%nat by lia.
    rewrite drop_0, take_app_le by (rewrite length_drop; lia).
    apply take_ge. rewrite length_drop. lia. }
  rewrite Hslice.
  eexists. split; [ reflexivity | ]. split; [ exact Hend | reflexivity ].
Qed.

Lemma stream_run_from (payload : Buffer) (d : Db) fuel :
  (length payload <= fuel)%nat ->
  forall calls (p : nat) (s : GridStore.Stream) (pushed : list Buffer),
    (length payload - p + 2 <= calls)%nat ->
    (p < length payload)%nat ->
    Session.at_offset (GridStore.gs s) d payload p ->
    GridStore.chunkSize (GridStore.gs s) <= Z.of_nat (length payload) ->
    GridStore.endCalled s = false ->
    GridStore.totalBytesToRead s = Z.of_nat (length payload - p) ->
    GridStore.seekPosition s = 0 ->
    exists pushes s',
      GridStore.stream_run calls fuel s d pushed
      = Some (GridStore.Ok (pushed ++ pushes), s')
      /\ concat pushes = drop p payload
      /\ Forall (fun b : Buffer =>
                   (0 < length b)%nat
                   /\ Z.of_nat (length b) <= GridStore.chunkSize (GridStore.gs s))
                pushes.
Proof.
  intros Hfuel calls.
  induction calls as [ | calls IH]; intros p s pushed Hcalls Hin Hat Hbig Hlive Htotal Hseek;
    [ lia | ].
  assert (Hat' := Hat).
  destruct Hat' as (k & cur & Hc & _ & _ & _ & Hlength & _ & _).
  set (size := Z.to_nat (GridStore.chunkSize (GridStore.gs s))) in *.
  destruct (decide (p + size <= length payload)%nat) as [Hfull | Hshort].
  - (* a whole chunk's worth is left *)
    destruct (stream_read_chunk s d payload p fuel Hat Hbig Hlive Htotal Hfull Hfuel)
      as (s1 & Hread & Hat1 & Hsize1 & Hend1 & Htotal1 & Hseek1).
    fold size in Hread, Hat1, Hend1, Htotal1.
    assert (Hb : (0 < length (take size (drop p payload)))%nat
                 /\ Z.of_nat (length (take size (drop p payload)))
                    <= GridStore.chunkSize (GridStore.gs s)).
    { rewrite length_take, length_drop. lia. }
    simpl. rewrite Hread.
    destruct (decide (p + size = length payload)%nat) as [Hlast | Hmore].
    + destruct (stream_read_at_end s1 d payload fuel) as (s2 & Hnull).
      { apply at_offset_end. rewrite <- Hlast. exact Hat1. }
      { lia. }
      { congruence. }
      destruct calls as [ | calls]; [ lia | ].
      simpl. rewrite Hnull.
      exists [take size (drop p payload)], s2.
      split; [ reflexivity | ].
      split; [ simpl; rewrite app_nil_r; apply take_ge; rewrite length_drop; lia | ].
      constructor; [ exact Hb | constructor ].
    + rewrite bool_decide_eq_false_2 in Hend1 by exact Hmore.
      destruct (IH (p + size)%nat s1 (pushed ++ [take size (drop p payload)]))
        as (pushes & s' & Hrun & Hconcat & Hall); try assumption; try lia; try congruence.
      exists (take size (drop p payload) :: pushes), s'.
      split; [ rewrite Hrun, <- app_assoc; reflexivity | ].
      split; [ simpl; rewrite Hconcat, <- drop_drop; apply take_drop | ].
      constructor; [ exact Hb | ].
      rewrite Hsize1 in Hall. exact Hall.
  - (* the rest of the file is shorter than a chunk *)
    destruct (stream_read_last s d payload p fuel Hat Hbig Hlive Htotal Hin
                ltac:(fold size; lia) Hfuel) as (s1 & Hread & Hend & Hseek1).
    simpl. rewrite Hread.
    destruct (stream_read_at_end s1 d payload fuel Hend ltac:(lia) ltac:(congruence))
      as (s2 & Hnull).
    destruct calls as [ | calls]; [ lia | ].
    simpl. rewrite Hnull.
    exists [drop p payload], s2.
    split; [ reflexivity | ].
    split; [ simpl; apply app_nil_r | ].
    constructor; [ | constructor ].
    rewrite length_drop. fold size. lia.
Qed.

(** X16 (stream, GridStoreStream._read): the stream of a reader whose
    head is on byte 0 pushes the file in order, in buffers of at most a
    chunk and none of them empty, and then ends; the buffers together are
    the file. *)
Theorem stream_delivers_file (self : GridStore.t) (d : Db) (payload : Buffer)
    calls fuel :
  Session.at_offset self d payload 0 ->
  (length payload + 2 <= calls)%nat ->
  (length payload <= fuel)%nat ->
  exists pushes s',
    GridStore.stream_run calls fuel (GridStore.stream self) d []
    = Some (GridStore.Ok pushes, s')
    /\ concat pushes = payload
    /\ Forall (fun b : Buffer =>
                 (0 < length b)%nat
                 /\ Z.of_nat (length b) <= GridStore.chunkSize self)
              pushes.
Proof.
  intros Hat Hcalls Hfuel.
  assert (Hat' := Hat).
  destruct Hat' as (k & cur & Hc & _ & _ & _ & Hlength & Hposition & _).
  destruct (Z.ltb_spec (GridStore.length self) (GridStore.chunkSize self))
    as [Hsmall | Hbig].
  - (* the file is shorter than a chunk: one read for all of it *)
    destruct calls as [ | calls]; [ lia | ].
    destruct (decide (length payload = 0%nat)) as [Hempty | Hsome].
    + destruct (read_nothing self d payload 0 (Some 0) fuel Hat eq_refl)
        as (self' & Hread & _).
      exists [], (GridStore.mkStream self' false (GridStore.length self - GridStore.position self)
                    (GridStore.position self)).
      split; [ | split; [ | constructor ] ].
      * simpl. unfold GridStore.stream_read, GridStore.stream. simpl.
        destruct (Z.ltb_spec (GridStore.length self) (GridStore.chunkSize self));
          [ | lia ].
        replace (GridStore.length self - GridStore.position self) with 0 by lia.
        rewrite Hread. reflexivity.
      * symmetry. apply nil_length_inv. exact Hempty.
    + destruct (read_at_offset self d payload 0 (length payload)
                  (Some (Z.of_nat (length payload))) fuel Hat ltac:(lia) ltac:(lia)
                  eq_refl Hfuel) as (index & self' & Hread & Hat1 & _).
      rewrite drop_0, firstn_all in Hread.
      set (s1 := GridStore.mkStream self' true 0 (GridStore.position self)).
      destruct (stream_read_at_end s1 d payload fuel) as (s2 & Hnull).
      { apply at_offset_end. exact Hat1. }
      { lia. }
      { simpl. lia. }
      destruct calls as [ | calls]; [ lia | ].
      exists [payload], s2.
      split; [ | split ].
      * change (GridStore.stream_run (S (S calls)) fuel (GridStore.stream self) d [])
          with (match GridStore.stream_read fuel (GridStore.stream self) d with
                | None => None
                | Some (GridStore.Ok (Some buffer), s) =>
                  GridStore.stream_run (S calls) fuel s d ([] ++ [buffer])
                | Some (GridStore.Ok None, s) => Some (GridStore.Ok [], s)
                | Some (GridStore.Failed e, s) => Some (GridStore.Failed e, s)
                | Some (GridStore.Thrown e, s) => Some (GridStore.Thrown e, s)
                | Some (GridStore.Pending, s) => Some (GridStore.Pending, s)
                end).
        assert (Hfirst : GridStore.stream_read fuel (GridStore.stream self) d
                         = Some (GridStore.Ok (Some payload), s1)).
        { unfold GridStore.stream_read, GridStore.stream. simpl.
          destruct (Z.ltb_spec (GridStore.length self) (GridStore.chunkSize self));
            [ | lia ].
          replace (GridStore.length self - GridStore.position self)
            with (Z.of_nat (length payload)) by lia.
          rewrite Hread. simpl.
          destruct (Z.leb_spec (Z.of_nat (length payload)) (Z.of_nat (length payload)));
            [ | lia ].
          rewrite Z.sub_diag. reflexivity. }
        rewrite Hfirst. simpl. rewrite Hnull. reflexivity.
      * simpl. apply app_nil_r.
      * constructor; [ lia | constructor ].
  - (* at least one whole chunk *)
    destruct (stream_run_from payload d fuel Hfuel calls 0 (GridStore.stream self) [])
      as (pushes & s' & Hrun & Hconcat & Hall).
    + lia.
    + lia.
    + exact Hat.
    + simpl. lia.
    + reflexivity.
    + simpl. lia.
    + simpl. lia.
    + exists pushes, s'. split; [ exact Hrun | ].
      split; [ exact Hconcat | exact Hall ].
Qed.

Lemma stream_delivers_file_witness :
  exists pushes s',
    GridStore.stream_run 13 11 (GridStore.stream Examples.hello_reader)
      Examples.hello_db []
    = Some (GridStore.Ok pushes, s')
    /\ concat pushes = Examples.hello_world
    /\ Forall (fun b : Buffer =>
                 (0 < length b)%nat
                 /\ Z.of_nat (length b) <= GridStore.chunkSize Examples.hello_reader)
              pushes.
Proof.
  apply (stream_delivers_file Examples.hello_reader Examples.hello_db
           Examples.hello_world 13 11 hello_reader_at_start).
  - simpl. lia.
  - simpl. lia.
Defined.

Section Reader.

Variable StringToNumber : string -> option Z.
Variable toHexString : N -> string.
Variable filemd5 : gmap Z Buffer -> option string.

(** X15 (write, close, open, seek, rewind): a handle in mode "r" stores
    nothing: [write] is refused with "<filename> not opened for writing",
    or throws a [TypeError] when the handle refers to its file by
    identifier (the handle has no [toHexString]); [close] calls back with
    null; [open], [seek] and [rewind] leave the database as it is. *)
Theorem reader_never_writes (self : GridStore.t) (d : Db) :
  GridStore.mode self = "r" ->
  (forall bytes finalClose now,
     GridStore.write filemd5 self bytes finalClose now d
     = Some (if GridStore.referenceBy self =? GridStore.REFERENCE_BY_ID
             then GridStore.Thrown TypeError
             else GridStore.Failed
                    (Error (GridStore.or_default (GridStore.filename self) "undefined"
                            ++ " not opened for writing")),
             self, d))
  /\ (forall now, GridStore.close filemd5 self now d = (GridStore.Ok None, self, d))
  /\ (forall fresh, (GridStore.open StringToNumber toHexString self d fresh).2 = d)
  /\ (forall position_arg seekLocation,
        (GridStore.seek self position_arg seekLocation d).2 = d)
  /\ (GridStore.rewind self d).2 = d.
Proof.
  intros Hmode.
  split; [ | split; [ | split; [ | split ] ] ].
  - intros bytes finalClose now.
    unfold GridStore.write, GridStore.writeBuffer, GridStore.writeBuffer_issue.
    rewrite Hmode. simpl. destruct (_ =? _); reflexivity.
  - intros now. unfold GridStore.close. rewrite Hmode. reflexivity.
  - intros fresh.
    apply (open_keeps_db StringToNumber toHexString self d fresh).
    rewrite Hmode. discriminate.
  - intros position_arg seekLocation. unfold GridStore.seek.
    destruct (GridStore.currentChunk self); [ | reflexivity ].
    rewrite Hmode. destruct (negb _); reflexivity.
  - unfold GridStore.rewind.
    destruct (GridStore.currentChunk self); [ | reflexivity ].
    rewrite Hmode. destruct (negb _); reflexivity.
Qed.

End Reader.

Lemma reader_never_writes_witness :
  (forall bytes finalClose now,
     GridStore.write Examples.no_md5 Examples.hello_reader bytes finalClose now
       Examples.hello_db
     = Some (if GridStore.referenceBy Examples.hello_reader
                =? GridStore.REFERENCE_BY_ID
             then GridStore.Thrown TypeError
             else GridStore.Failed
                    (Error (GridStore.or_default
                              (GridStore.filename Examples.hello_reader) "undefined"
                            ++ " not opened for writing")),
             Examples.hello_reader, Examples.hello_db))
  /\ (forall now,
        GridStore.close Examples.no_md5 Examples.hello_reader now Examples.hello_db
        = (GridStore.Ok None, Examples.hello_reader, Examples.hello_db))
  /\ (forall fresh,
        (GridStore.open Examples.no_number Examples.no_hex Examples.hello_reader
           Examples.hello_db fresh).2 = Examples.hello_db)
  /\ (forall position_arg seekLocation,
        (GridStore.seek Examples.hello_reader position_arg seekLocation
           Examples.hello_db).2 = Examples.hello_db)
  /\ (GridStore.rewind Examples.hello_reader Examples.hello_db).2 = Examples.hello_db.
Proof.
  apply (reader_never_writes Examples.no_number Examples.no_hex Examples.no_md5
           Examples.hello_reader Examples.hello_db).
  reflexivity.
Defined.

Section StaticUnlink.

Variable StringToNumber : string -> option Z.
Variable DEFAULT_CHUNK_SIZE : Z.
Variable toHexString : N -> string.

(** X12 (GridStore.unlink): the static [unlink] of one name or identifier
    removes the first file found under it, its chunks and its document, and
    leaves every other file as it is. *)
Theorem unlink_static_removes (database : WriteConcern.DbConfig) (name : JsId) (d : Db)
    (doc : FileDoc) options_arg wc fresh fresh' :
  WriteConcern._getWriteConcern StringToNumber database
    (GridStore.opt_concern (GridStore.or_default options_arg GridStore.no_options))
    (GridStore.opt_safe (GridStore.or_default options_arg GridStore.no_options))
  = inr wc ->
  match name with
  | IdString s => Collection.find (Collection.by_filename (Some s)) (files d)
  | IdObjectID _ => Collection.find (Collection.by_id (Some name)) (files d)
  end = Some doc ->
  is_Some (doc_id doc) ->
  exists d',
    GridStore.unlink_static StringToNumber DEFAULT_CHUNK_SIZE toHexString database
      (Some name) options_arg fresh fresh' d = (GridStore.Ok (), d')
    /\ Collection.chunks_of (doc_id doc) d' = ∅
    /\ Collection.find (Collection.by_id (doc_id doc)) (files d') = None
    /\ forall id, id <> doc_id doc -> Session.untouched id d d'.
Proof.
  intros Hwc Hfind [i Hid].
  unfold GridStore.unlink_static. rewrite Hwc.
  assert (Hopen : exists rd,
            GridStore.new StringToNumber DEFAULT_CHUNK_SIZE database (Some name)
              (GridStore.NameString "w")
              (GridStore.ModeObject
                 (GridStore.or_default options_arg GridStore.no_options)) None fresh
            = inr rd
            /\ exists rd',
                 GridStore.open StringToNumber toHexString rd d fresh'
                 = (GridStore.Ok (), rd',
                    Collection.remove_chunks (doc_id doc) d)
                 /\ GridStore.fileId rd' = doc_id doc).
  { unfold GridStore.new. destruct name as [n | s]; simpl; rewrite Hwc.
    - eexists. split; [ reflexivity | ].
      unfold GridStore.open. simpl. rewrite Hwc.
      unfold GridStore._open. simpl. rewrite Hfind.
      unfold GridStore.open_mode, GridStore.deleteChunks. simpl. rewrite Hid.
      eexists. split; reflexivity.
    - eexists. split; [ reflexivity | ].
      unfold GridStore.open. simpl. rewrite Hwc.
      unfold GridStore._open. simpl. rewrite Hfind.
      unfold GridStore.open_mode, GridStore.deleteChunks. simpl. rewrite Hid.
      eexists. split; reflexivity. }
  destruct Hopen as (rd & Hnew & rd' & Hopen & Hfile).
  rewrite Hnew, Hopen.
  eexists. split; [ reflexivity | ].
  unfold GridStore.deleteChunks. rewrite Hfile, Hid. rewrite <- Hid.
  split; [ | split ].
  - unfold Collection.chunks_of, Collection.remove_chunks. simpl.
    rewrite lookup_delete_eq. reflexivity.
  - simpl. apply find_remove_same.
  - intros id Hne.
    eapply untouched_trans; [ apply untouched_remove_chunks; exact Hne | ].
    eapply untouched_trans; [ apply untouched_remove_chunks; exact Hne | ].
    apply untouched_files_remove. exact Hne.
Qed.

End StaticUnlink.

Lemma unlink_static_removes_witness :
  exists d',
    GridStore.unlink_static Examples.no_number 261120 Examples.no_hex Examples.plain_db
      (Some (IdObjectID 1)) None 4%N 5%N Examples.hello_db = (GridStore.Ok (), d')
    /\ Collection.chunks_of (doc_id Examples.hello_doc) d' = ∅
    /\ Collection.find (Collection.by_id (doc_id Examples.hello_doc)) (files d') = None
    /\ forall id, id <> doc_id Examples.hello_doc ->
         Session.untouched id Examples.hello_db d'.
Proof.
  apply (unlink_static_removes Examples.no_number 261120 Examples.no_hex
           Examples.plain_db (IdObjectID 1) Examples.hello_db Examples.hello_doc None
           (WriteConcern.only_w 1) 4%N 5%N).
  - reflexivity.
  - reflexivity.
  - eexists. reflexivity.
Defined.

(** ** Appending to a file *)

Section Appending.

Variable filemd5 : gmap Z Buffer -> option string.

(** A write that reaches the end of the current chunk, which may be a
    stored one: the chunks it fills are saved, and the session goes on in a
    new current chunk. *)
Lemma append_rollover (self : GridStore.t) d (written b : Buffer) now (q r : nat) :
  let size := Z.to_nat (GridStore.chunkSize self) in
  length written = (q * size + r)%nat ->
  (r <= size)%nat ->
  (size <= r + length b)%nat ->
  GridStore.first_char_is "w" (GridStore.mode self) = true ->
  1 <= GridStore.chunkSize self ->
  GridStore.position self = Z.of_nat (length written) ->
  GridStore.currentChunk self
  = Some (Chunk.mk (Z.of_nat q) (drop (q * size) written) (Z.of_nat r)) ->
  (forall n : Z,
     n <> Z.of_nat q ->
     Collection.chunks_of (GridStore.fileId self) d !! n =
     if bool_decide (0 <= n /\ (n + 1) * GridStore.chunkSize self
                               <= Z.of_nat (length written))
     then Some (Layout.piece size written (Z.to_nat n)) else None) ->
  exists self' d',
    GridStore.write filemd5 self b false now d = Some (GridStore.Ok (), self', d')
    /\ Session.in_progress self' d' (written ++ b)
    /\ GridStore.fileId self' = GridStore.fileId self
    /\ GridStore.chunkSize self' = GridStore.chunkSize self
    /\ GridStore.uploadDate self' = GridStore.uploadDate self
    /\ files d' = files d.
Proof.
  intros size Hlen Hr Hroll Hmode Hc Hpos Hcur Hstore.
  assert (Hsize : GridStore.chunkSize self = Z.of_nat size) by (unfold size; lia).
  destruct (issue_rollover self _ b Hmode Hcur Hc ltac:(simpl; lia)) as [m [Hm Hissue]].
  simpl in Hm, Hissue.
  rewrite slice_to, slice_from in Hissue by lia.
  rewrite slice_from in Hm by lia.
  replace (Z.to_nat (GridStore.chunkSize self - Z.of_nat r)) with (size - r)%nat
    in Hm, Hissue by lia.
  fold size in Hm, Hissue.
  set (rest := drop (size - r) b) in *.
  set (whole := written ++ b).
  assert (Hrest : rest = drop ((q + 1) * size) whole).
  { unfold rest, whole. rewrite drop_app_ge by lia. f_equal. lia. }
  assert (Hrestlen : length rest = (length b - (size - r))%nat)
    by (unfold rest; apply length_drop).
  assert (Hwhole : length whole = (q * size + r + length b)%nat)
    by (unfold whole; rewrite length_app; lia).
  set (first := Chunk.write
                  (Chunk.mk (Z.of_nat q) (drop (q * size) written) (Z.of_nat r))
                  (take (size - r) b)) in *.
  assert (Hfirst : Chunk.chunkNumber first = Z.of_nat q
                   /\ Chunk.data first = Layout.piece size whole q).
  { split; [ reflexivity | ].
    unfold first.
    rewrite write_at_end by (rewrite length_drop, Nat2Z.id; lia).
    unfold Layout.piece, whole. simpl.
    rewrite drop_app_le by lia.
    rewrite take_app, length_drop.
    rewrite (take_ge (drop (q * size) written) size) by (rewrite length_drop; lia).
    do 2 f_equal. lia. }
  set (saves := first :: _) in Hissue.
  assert (Hsaves : forall ch, ch ∈ saves ->
            exists j, (j <= m)%nat
                      /\ Chunk.chunkNumber ch = Z.of_nat (q + j)
                      /\ Chunk.data ch = Layout.piece size whole (q + j)).
  { intros ch Hin. unfold saves in Hin.
    apply elem_of_cons in Hin as [-> | Hin].
    - exists 0%nat. rewrite Nat.add_0_r. split; [ lia | exact Hfirst ].
    - apply list_elem_of_fmap in Hin as [i [-> Hi]].
      apply elem_of_seq in Hi. exists (S i). simpl.
      split; [ lia | split; [ lia | ] ].
      rewrite Hrest, piece_of_drop. f_equal. lia. }
  assert (Hsaved : forall j, (j <= m)%nat ->
            exists ch, ch ∈ saves /\ Chunk.chunkNumber ch = Z.of_nat (q + j)).
  { intros [ | i] Hj.
    - exists first. split; [ apply list_elem_of_here | ].
      rewrite Nat.add_0_r. apply Hfirst.
    - eexists. split.
      + unfold saves. apply list_elem_of_further, list_elem_of_fmap.
        exists i. split; [ reflexivity | apply elem_of_seq; lia ].
      + simpl. lia. }
  eexists; eexists.
  split; [ | split; [ | split; [ | split; [ | split ] ] ] ].
  - unfold GridStore.write, GridStore.writeBuffer. rewrite Hissue. reflexivity.
  - exists (q + 1 + m)%nat, (length rest - m * size)%nat. cbn zeta.
    change (GridStore.chunkSize (GridStore.set_position _ _))
      with (GridStore.chunkSize self).
    fold size. fold whole.
    split; [ nia | ].
    split; [ lia | ].
    split; [ exact Hmode | ].
    split; [ exact Hc | ].
    split; [ simpl; rewrite Hpos; unfold whole; rewrite length_app; lia | ].
    split.
    + simpl. f_equal. f_equal.
      * lia.
      * rewrite Hrest, drop_drop. f_equal. lia.
      * rewrite length_drop. reflexivity.
    + intros n.
      change (GridStore.fileId (GridStore.set_position _ _))
        with (GridStore.fileId self).
      change (GridStore.complete_saves (GridStore.set_position _ _) saves d)
        with (GridStore.complete_saves self saves d).
      destruct (Z.lt_ge_cases n 0) as [Hneg | Hnn].
      { rewrite complete_saves_other.
        - rewrite Hstore by lia. rewrite !bool_decide_eq_false_2 by lia. reflexivity.
        - intros ch Hin. destruct (Hsaves ch Hin) as [j [_ [Hnum _]]]. lia. }
      destruct (Z.lt_ge_cases n (Z.of_nat q)) as [Hold | Hnew].
      { rewrite complete_saves_other.
        - rewrite Hstore by lia.
          rewrite !bool_decide_eq_true_2 by (rewrite ?Hwhole, Hsize; nia).
          unfold whole. rewrite piece_app_whole; [ reflexivity | nia ].
        - intros ch Hin. destruct (Hsaves ch Hin) as [j [_ [Hnum _]]]. lia. }
      destruct (Z.le_gt_cases n (Z.of_nat (q + m))) as [Hin | Hout].
      { rewrite bool_decide_eq_true_2 by (rewrite Hwhole, Hsize; nia).
        apply complete_saves_saved.
        - destruct (Hsaved (Z.to_nat n - q)%nat ltac:(lia)) as [ch [Hch Hnum]].
          exists ch. split; [ exact Hch | lia ].
        - intros ch Hch Hnum.
          destruct (Hsaves ch Hch) as [j [_ [Hnum' Hdata]]].
          rewrite Hdata. f_equal. lia. }
      rewrite complete_saves_other.
      * rewrite Hstore by lia.
        rewrite !bool_decide_eq_false_2 by (rewrite ?Hwhole, Hsize; nia).
        reflexivity.
      * intros ch Hch. destruct (Hsaves ch Hch) as [j [Hj [Hnum _]]]. lia.
  - reflexivity.
  - reflexivity.
  - reflexivity.
  - apply files_complete_saves.
Qed.


(** A write that stays within the current chunk. *)
Lemma append_in_place (self : GridStore.t) d (written b : Buffer) now (q r : nat) :
  let size := Z.to_nat (GridStore.chunkSize self) in
  length written = (q * size + r)%nat ->
  (r + length b < size)%nat ->
  GridStore.first_char_is "w" (GridStore.mode self) = true ->
  1 <= GridStore.chunkSize self ->
  GridStore.position self = Z.of_nat (length written) ->
  GridStore.currentChunk self
  = Some (Chunk.mk (Z.of_nat q) (drop (q * size) written) (Z.of_nat r)) ->
  (forall n : Z,
     n <> Z.of_nat q ->
     Collection.chunks_of (GridStore.fileId self) d !! n =
     if bool_decide (0 <= n /\ (n + 1) * GridStore.chunkSize self
                               <= Z.of_nat (length written))
     then Some (Layout.piece size written (Z.to_nat n)) else None) ->
  (r = 0%nat -> Collection.chunks_of (GridStore.fileId self) d !! Z.of_nat q = None) ->
  exists self',
    GridStore.write filemd5 self b false now d = Some (GridStore.Ok (), self', d)
    /\ Session.appending self' d (written ++ b)
    /\ GridStore.fileId self' = GridStore.fileId self
    /\ GridStore.chunkSize self' = GridStore.chunkSize self
    /\ GridStore.uploadDate self' = GridStore.uploadDate self.
Proof.
  intros size Hlen Hrfit Hmode Hc Hpos Hcur Hstore Hidle.
  assert (Hsize : GridStore.chunkSize self = Z.of_nat size) by (unfold size; lia).
  pose proof (issue_in_place self _ b Hmode Hcur) as Hissue.
  simpl in Hissue. specialize (Hissue ltac:(lia)).
  eexists. split; [ | split; [ | split; [ | split ] ] ].
  - unfold GridStore.write, GridStore.writeBuffer. rewrite Hissue. reflexivity.
  - exists q, (r + length b)%nat. cbn zeta.
    change (GridStore.chunkSize (GridStore.set_currentChunk _ _))
      with (GridStore.chunkSize self).
    fold size.
    split; [ rewrite length_app; lia | ].
    split; [ lia | ].
    split; [ exact Hmode | ].
    split; [ exact Hc | ].
    split; [ simpl; rewrite Hpos, length_app; lia | ].
    split; [ | split ].
    + simpl. f_equal.
      rewrite write_at_end by (rewrite length_drop, Nat2Z.id; lia).
      f_equal.
      * rewrite drop_app_le by lia. reflexivity.
      * lia.
    + intros n Hn. simpl. rewrite Hstore by exact Hn.
      destruct (decide (0 <= n /\ (n + 1) * GridStore.chunkSize self
                                  <= Z.of_nat (length written))) as [Hin | Hout].
      * rewrite (bool_decide_eq_true_2 _ Hin).
        rewrite bool_decide_eq_true_2 by (rewrite length_app; lia).
        rewrite piece_app_whole; [ reflexivity | ].
        destruct Hin as [Hn0 Hn1]. rewrite Hsize in Hn1.
        apply Nat2Z.inj_le. rewrite Nat2Z.inj_mul, Nat2Z.inj_add, Z2Nat.id by lia.
        exact Hn1.
      * rewrite (bool_decide_eq_false_2 _ Hout).
        rewrite bool_decide_eq_false_2; [ reflexivity | ].
        intros [Hn0 Hn1]. apply Hout. split; [ exact Hn0 | ].
        rewrite length_app, Hsize in Hn1. rewrite Hsize.
        assert (Hq : n + 1 <= Z.of_nat q) by nia.
        nia.
    + intros Hzero. simpl. apply Hidle. lia.
  - reflexivity.
  - reflexivity.
  - reflexivity.
Qed.

Lemma in_progress_appending (self : GridStore.t) d (written : Buffer) :
  Session.in_progress self d written -> Session.appending self d written.
Proof.
  intros (q & r & Hlen & Hr & Hmode & Hc & Hpos & Hcur & Hstore).
  exists q, r. cbn zeta.
  split; [ exact Hlen | ]. split; [ lia | ]. split; [ exact Hmode | ].
  split; [ exact Hc | ]. split; [ exact Hpos | ]. split; [ exact Hcur | ].
  split; [ intros n _; apply Hstore | ].
  intros Hzero. rewrite Hstore. rewrite bool_decide_eq_false_2 by nia. reflexivity.
Qed.

(** Every write of an appending session succeeds and keeps it going. *)
Lemma write_appending (self : GridStore.t) d (written b : Buffer) now :
  Session.appending self d written ->
  exists self' d',
    GridStore.write filemd5 self b false now d = Some (GridStore.Ok (), self', d')
    /\ Session.appending self' d' (written ++ b)
    /\ GridStore.fileId self' = GridStore.fileId self
    /\ GridStore.chunkSize self' = GridStore.chunkSize self
    /\ GridStore.uploadDate self' = GridStore.uploadDate self
    /\ files d' = files d.
Proof.
  intros Happ. assert (Happ' := Happ).
  destruct Happ' as (q & r & Hlen & Hr & Hmode & Hc & Hpos & Hcur & Hstore & Hidle).
  destruct (Nat.lt_ge_cases (r + length b) (Z.to_nat (GridStore.chunkSize self)))
    as [Hfit | Hroll].
  - destruct (append_in_place self d written b now q r Hlen Hfit Hmode Hc Hpos Hcur
                Hstore Hidle) as (self' & Hw & Hin & Hid & Hsz & Hdate).
    exists self', d. repeat split; assumption.
  - destruct (append_rollover self d written b now q r Hlen Hr Hroll Hmode Hc Hpos Hcur
                Hstore) as (self' & d' & Hw & Hin & Hrest).
    exists self', d'. split; [ exact Hw | ].
    split; [ apply in_progress_appending; exact Hin | exact Hrest ].
Qed.

Lemma write_all_appending (payloads : list Buffer) :
  forall (self : GridStore.t) d (written : Buffer) now,
    Session.appending self d written ->
    exists self' d',
      GridStore.write_all filemd5 self payloads now d
      = Some (GridStore.Ok (), self', d')
      /\ Session.appending self' d' (written ++ concat payloads)
      /\ GridStore.fileId self' = GridStore.fileId self
      /\ GridStore.chunkSize self' = GridStore.chunkSize self
      /\ GridStore.uploadDate self' = GridStore.uploadDate self
      /\ files d' = files d.
Proof.
  induction payloads as [ | b payloads IH]; intros self d written now Hin.
  - exists self, d. simpl. rewrite app_nil_r. repeat split; assumption.
  - destruct (write_appending self d written b now Hin)
      as (self1 & d1 & Hw & Hin1 & Hid1 & Hsz1 & Hdate1 & Hfiles1).
    destruct (IH self1 d1 (written ++ b) now Hin1)
      as (self2 & d2 & Hw2 & Hin2 & Hid2 & Hsz2 & Hdate2 & Hfiles2).
    exists self2, d2. simpl. rewrite Hw.
    split; [ exact Hw2 | ].
    split; [ rewrite app_assoc; exact Hin2 | ].
    repeat split; congruence.
Qed.

Ltac saved_is_found :=
  cbn [files];
  lazymatch goal with
  | |- Collection.find _ (Collection.save ?doc ?docs) = _ => exact (find_save doc docs)
  end.

(** Closing an appending session: the chunks are those of all that the
    file holds, and its document says so. *)
Lemma close_appending (self : GridStore.t) d (written : Buffer) now :
  Session.appending self d written ->
  exists doc self' d',
    GridStore.close filemd5 self now d = (GridStore.Ok (Some doc), self', d')
    /\ Layout.stored (GridStore.chunkSize self) written
         (Collection.chunks_of (GridStore.fileId self) d')
    /\ Collection.find (Collection.by_id (GridStore.fileId self)) (files d') = Some doc
    /\ doc_id doc = GridStore.fileId self
    /\ doc_length doc = Z.of_nat (length written)
    /\ doc_chunkSize doc = GridStore.chunkSize self.
Proof.
  intros (q & r & Hlen & Hr & Hmode & Hc & Hpos & Hcur & Hstore & Hnone).
  set (size := Z.to_nat (GridStore.chunkSize self)) in *.
  assert (Hsize : GridStore.chunkSize self = Z.of_nat size) by (unfold size; lia).
  assert (Hdoclen : forall p, p = Z.of_nat (length written) ->
            (if p =? 0 then 0 else p) = Z.of_nat (length written)).
  { intros p ->. destruct (Z.eqb_spec (Z.of_nat (length written)) 0); lia. }
  assert (Hothers : forall n, n <> Z.of_nat q ->
            Collection.chunks_of (GridStore.fileId self) d !! n
            = if bool_decide (0 <= n /\ n * GridStore.chunkSize self
                                        < Z.of_nat (length written))
              then Some (Layout.piece size written (Z.to_nat n)) else None).
  { intros n Hne. rewrite Hstore by exact Hne.
    destruct (decide (0 <= n /\ (n + 1) * GridStore.chunkSize self
                                <= Z.of_nat (length written))) as [Hn | Hn].
    - rewrite (bool_decide_eq_true_2 _ Hn).
      rewrite bool_decide_eq_true_2 by (rewrite Hsize in *; nia).
      reflexivity.
    - rewrite (bool_decide_eq_false_2 _ Hn).
      rewrite bool_decide_eq_false_2; [ reflexivity | ].
      intros [Hn0 Hn1]. apply Hn. split; [ exact Hn0 | ].
      rewrite Hsize in *.
      assert (n < Z.of_nat q) by nia. nia. }
  unfold GridStore.close. rewrite Hmode, Hcur. simpl Chunk.position.
  destruct (Z.gtb_spec (Z.of_nat r) 0) as [Hbuf | Hidle].
  - assert (Hstored : Layout.stored (GridStore.chunkSize self) written
              (Collection.chunks_of (GridStore.fileId self)
                 (Collection.save_chunk (GridStore.fileId self)
                    (Chunk.mk (Z.of_nat q) (drop (q * size) written) (Z.of_nat r)) d))).
    { intros n. rewrite chunks_of_save_chunk. simpl.
      destruct (decide (n = Z.of_nat q)) as [-> | Hne].
      - rewrite lookup_insert_eq.
        rewrite bool_decide_eq_true_2 by (rewrite Hsize; nia).
        rewrite Nat2Z.id. fold size. unfold Layout.piece.
        rewrite take_ge by (rewrite length_drop; lia). reflexivity.
      - rewrite lookup_insert_ne by congruence. apply Hothers. exact Hne. }
    destruct (bool_decide (GridStore.uploadDate self <> None));
      (eexists; eexists; eexists; split; [ reflexivity | ]);
      (split; [ exact Hstored | ]);
      (split; [ saved_is_found | ]);
      (split; [ reflexivity | ]);
      (split; [ simpl; apply Hdoclen, Hpos | reflexivity ]).
  - assert (r = 0%nat) by lia. subst r.
    eexists; eexists; eexists. split; [ reflexivity | ].
    split.
    + intros n.
      match goal with
      | |- ?docs !! n = _ =>
        change docs with (Collection.chunks_of (GridStore.fileId self) d)
      end.
      destruct (decide (n = Z.of_nat q)) as [-> | Hne].
      * rewrite (Hnone eq_refl).
        rewrite bool_decide_eq_false_2 by (rewrite Hsize; nia). reflexivity.
      * apply Hothers. exact Hne.
    + split; [ saved_is_found | ].
      split; [ reflexivity | ].
      split; [ simpl; apply Hdoclen, Hpos | reflexivity ].
Qed.

End Appending.

Section AppendSession.

Variable StringToNumber : string -> option Z.
Variable toHexString : N -> string.
Variable filemd5 : gmap Z Buffer -> option string.

(** The branch of [_open] for mode "w+", on a stored file: the last chunk
    is loaded, and the head is put at the end. *)
Lemma open_mode_append (self : GridStore.t) (d : Db) (old : Buffer) :
  GridStore.mode self = "w+" ->
  1 <= GridStore.chunkSize self ->
  Layout.stored (GridStore.chunkSize self) old
    (Collection.chunks_of (GridStore.fileId self) d) ->
  GridStore.length self = Z.of_nat (length old) ->
  exists self1,
    GridStore.open_mode true self d = (GridStore.Ok (), self1, d)
    /\ Session.appending self1 d old
    /\ GridStore.fileId self1 = GridStore.fileId self
    /\ GridStore.chunkSize self1 = GridStore.chunkSize self
    /\ GridStore.uploadDate self1 = GridStore.uploadDate self.
Proof.
  intros Hmode Hc Hstored Hlength.
  set (size := Z.to_nat (GridStore.chunkSize self)).
  assert (Hsize : GridStore.chunkSize self = Z.of_nat size) by (unfold size; lia).
  unfold GridStore.open_mode. rewrite Hmode. simpl.
  eexists. split; [ reflexivity | ].
  split; [ | repeat split ].
  unfold GridStore.lastChunkNumber, GridStore.nthChunk, Collection.find_chunk.
  rewrite Hstored, Hlength.
  destruct (decide (length old = 0%nat)) as [Hempty | Hsome'].
  - (* nothing stored yet *)
    rewrite Hempty. simpl (0 =? 0). cbv iota.
    rewrite Z.div_0_l by lia.
    rewrite bool_decide_eq_false_2 by lia.
    exists 0%nat, 0%nat. cbn zeta. unfold GridStore.chunkSize in *. simpl.
    apply nil_length_inv in Hempty. subst old.
    split; [ reflexivity | ]. split; [ lia | ].
    split; [ rewrite Hmode; reflexivity | ]. split; [ exact Hc | ].
    split; [ reflexivity | ]. split; [ reflexivity | ].
    split.
    + intros n Hn. rewrite Hstored. simpl.
      rewrite !bool_decide_eq_false_2 by nia. reflexivity.
    + intros _. rewrite Hstored.
      rewrite bool_decide_eq_false_2 by (simpl; lia). reflexivity.
  - (* the last chunk is loaded *)
    destruct (Z.eqb_spec (Z.of_nat (length old)) 0) as [? | _]; [ lia | ].
    set (last := (Z.of_nat (length old) - 1) `div` GridStore.chunkSize self).
    assert (Hlow : GridStore.chunkSize self * last <= Z.of_nat (length old) - 1)
      by (apply Z.mul_div_le; lia).
    assert (Hhigh : Z.of_nat (length old) - 1 < GridStore.chunkSize self * Z.succ last)
      by (apply Z.mul_succ_div_gt; lia).
    assert (Hnn : 0 <= last) by (apply Z.div_pos; lia).
    rewrite bool_decide_eq_true_2 by nia.
    fold size.
    pose proof (piece_size_length size old (Z.to_nat last)) as Hplen.
    exists (Z.to_nat last), (length (Layout.piece size old (Z.to_nat last))).
    cbn zeta. unfold GridStore.chunkSize in *. simpl. fold size.
    split; [ nia | ]. split; [ lia | ].
    split; [ rewrite Hmode; reflexivity | ]. split; [ exact Hc | ].
    split; [ reflexivity | ].
    split; [ | split ].
    + unfold Chunk.length. simpl. do 2 f_equal; [ lia | ].
      unfold Layout.piece. apply take_ge. rewrite length_drop. nia.
    + intros n Hn. rewrite Hstored.
      replace (Z.to_nat (Z.of_nat (Z.to_nat last))) with (Z.to_nat last) in * by lia.
      assert (Hq : Z.of_nat (Z.to_nat last) = last) by lia. rewrite Hq in Hn.
      destruct (decide (0 <= n < last)) as [Hless | Hmore].
      * assert (n + 1 <= last) by lia.
        rewrite !bool_decide_eq_true_2 by nia. reflexivity.
      * destruct (decide (n < 0)) as [Hneg | Hpos].
        { rewrite !bool_decide_eq_false_2 by lia. reflexivity. }
        assert (last + 1 <= n) by lia.
        rewrite !bool_decide_eq_false_2 by nia. reflexivity.
    + intros Hzero. exfalso. nia.
Qed.

(** Opening a stored file in mode "w+" by its identifier. *)
Lemma open_append (rd : GridStore.t) (d : Db) fresh (doc : FileDoc) wc (old : Buffer) :
  GridStore.mode rd = "w+" ->
  GridStore.referenceBy rd = GridStore.REFERENCE_BY_ID ->
  GridStore.fileId rd = doc_id doc ->
  is_Some (doc_id doc) ->
  Collection.find (Collection.by_id (doc_id doc)) (files d) = Some doc ->
  WriteConcern._getWriteConcern StringToNumber (GridStore.db rd)
    (GridStore.opt_concern (GridStore.options rd))
    (GridStore.opt_safe (GridStore.options rd)) = inr wc ->
  1 <= doc_chunkSize doc ->
  Layout.stored (doc_chunkSize doc) old (Collection.chunks_of (doc_id doc) d) ->
  doc_length doc = Z.of_nat (length old) ->
  exists self1,
    GridStore.open StringToNumber toHexString rd d fresh = (GridStore.Ok (), self1, d)
    /\ Session.appending self1 d old
    /\ GridStore.fileId self1 = doc_id doc
    /\ GridStore.chunkSize self1 = doc_chunkSize doc
    /\ GridStore.uploadDate self1 = doc_uploadDate doc.
Proof.
  intros Hmode Href Hid [id Hsome] Hfind Hwc Hc Hstored Hlength.
  unfold GridStore.open. rewrite Hmode, Hwc. simpl.
  unfold GridStore._open. rewrite Hid, Href, Hsome. simpl.
  rewrite <- Hsome, Hfind.
  match goal with
  | |- context [GridStore.open_mode true ?s d] =>
    destruct (open_mode_append s d old)
      as (self1 & Hopen & Happ & Hfile & Hsize & Hdate);
      [ destruct (_ || _); exact Hmode
      | destruct (_ || _); exact Hc
      | destruct (_ || _); exact Hstored
      | destruct (_ || _); exact Hlength
      | rewrite Hopen ]
  end.
  eexists. split; [ reflexivity | ].
  split; [ | split; [ | split ] ].
  - destruct Happ as (q & r & H1 & H2 & H3 & H4 & H5 & H6 & H7 & H8).
    exists q, r. repeat split; assumption.
  - change (GridStore.fileId self1 = doc_id doc). rewrite Hfile.
    destruct (_ || _); reflexivity.
  - change (GridStore.chunkSize self1 = doc_chunkSize doc). rewrite Hsize.
    destruct (_ || _); reflexivity.
  - change (GridStore.uploadDate self1 = doc_uploadDate doc). rewrite Hdate.
    destruct (_ || _); reflexivity.
Qed.

(** X17 (open in mode "w+", write, close): a stored file opened in mode
    "w+" by its identifier, written to and closed holds what it held
    followed by what was written: the chunks are those of the whole, the
    document records the new length and the old chunk size, and a reader
    opened afterwards has its head on byte 0 of the whole. *)
Theorem append_extends_file (ap : GridStore.t) (d : Db) fresh (doc : FileDoc) wc
    (old : Buffer) (payloads : list Buffer) now now' (rd : GridStore.t) fresh' wc' :
  GridStore.mode ap = "w+" ->
  GridStore.referenceBy ap = GridStore.REFERENCE_BY_ID ->
  GridStore.fileId ap = doc_id doc ->
  is_Some (doc_id doc) ->
  Collection.find (Collection.by_id (doc_id doc)) (files d) = Some doc ->
  WriteConcern._getWriteConcern StringToNumber (GridStore.db ap)
    (GridStore.opt_concern (GridStore.options ap))
    (GridStore.opt_safe (GridStore.options ap)) = inr wc ->
  1 <= doc_chunkSize doc ->
  Layout.stored (doc_chunkSize doc) old (Collection.chunks_of (doc_id doc) d) ->
  doc_length doc = Z.of_nat (length old) ->
  Session.reader_of (doc_id doc) rd ->
  WriteConcern._getWriteConcern StringToNumber (GridStore.db rd)
    (GridStore.opt_concern (GridStore.options rd))
    (GridStore.opt_safe (GridStore.options rd)) = inr wc' ->
  exists self1 self2 d2 doc' self3 d3 rd1,
    GridStore.open StringToNumber toHexString ap d fresh = (GridStore.Ok (), self1, d)
    /\ GridStore.write_all filemd5 self1 payloads now d
       = Some (GridStore.Ok (), self2, d2)
    /\ GridStore.close filemd5 self2 now' d2 = (GridStore.Ok (Some doc'), self3, d3)
    /\ Layout.stored (doc_chunkSize doc) (old ++ concat payloads)
         (Collection.chunks_of (doc_id doc) d3)
    /\ Collection.find (Collection.by_id (doc_id doc)) (files d3) = Some doc'
    /\ doc_length doc' = Z.of_nat (length (old ++ concat payloads))
    /\ doc_chunkSize doc' = doc_chunkSize doc
    /\ GridStore.open StringToNumber toHexString rd d3 fresh'
       = (GridStore.Ok (), rd1, d3)
    /\ Session.at_offset rd1 d3 (old ++ concat payloads) 0.
Proof.
  intros Hmode Href Hid Hsome Hfind Hwc Hc Hstored Hlength Hreader Hwc'.
  destruct (open_append ap d fresh doc wc old Hmode Href Hid Hsome Hfind Hwc Hc Hstored
              Hlength) as (self1 & Hopen & Happ & Hfile1 & Hsize1 & Hdate1).
  destruct (write_all_appending filemd5 payloads self1 d old now Happ)
    as (self2 & d2 & Hwrite & Happ2 & Hfile2 & Hsize2 & Hdate2 & _).
  destruct (close_appending filemd5 self2 d2 _ now' Happ2)
    as (doc' & self3 & d3 & Hclose & Hstored3 & Hfound & Hdocid & Hdoclen & Hdocsize).
  rewrite Hfile2, Hfile1 in Hstored3, Hfound, Hdocid.
  rewrite Hsize2, Hsize1 in Hstored3, Hdocsize.
  assert (Hreader' : Session.reader_of (doc_id doc') rd) by (rewrite Hdocid; exact Hreader).
  destruct (open_reader_at_start StringToNumber toHexString rd d3 fresh' doc' wc'
              (old ++ concat payloads) Hreader')
    as (rd1 & Hopen1 & Hat & _); try assumption; try (rewrite ?Hdocid, ?Hdocsize; assumption).
  exists self1, self2, d2, doc', self3, d3, rd1.
  repeat (split; [ assumption | ]). assumption.
Qed.

End AppendSession.

Lemma append_extends_file_witness :
  exists self1 self2 d2 doc' self3 d3 rd1,
    GridStore.open Examples.no_number Examples.no_hex Examples.appender_created
      Examples.hello_db 7%N = (GridStore.Ok (), self1, Examples.hello_db)
    /\ GridStore.write_all Examples.no_md5 self1 [list_byte_of_string "!"] 2000
         Examples.hello_db
       = Some (GridStore.Ok (), self2, d2)
    /\ GridStore.close Examples.no_md5 self2 3000 d2
       = (GridStore.Ok (Some doc'), self3, d3)
    /\ Layout.stored (doc_chunkSize Examples.hello_doc)
         (Examples.hello_world ++ concat [list_byte_of_string "!"])
         (Collection.chunks_of (doc_id Examples.hello_doc) d3)
    /\ Collection.find (Collection.by_id (doc_id Examples.hello_doc)) (files d3)
       = Some doc'
    /\ doc_length doc'
       = Z.of_nat (length (Examples.hello_world ++ concat [list_byte_of_string "!"]))
    /\ doc_chunkSize doc' = doc_chunkSize Examples.hello_doc
    /\ GridStore.open Examples.no_number Examples.no_hex Examples.reader_created d3 5%N
       = (GridStore.Ok (), rd1, d3)
    /\ Session.at_offset rd1 d3
         (Examples.hello_world ++ concat [list_byte_of_string "!"]) 0.
Proof.
  apply (append_extends_file Examples.no_number Examples.no_hex Examples.no_md5
           Examples.appender_created Examples.hello_db 7%N Examples.hello_doc
           (WriteConcern.only_w 1) Examples.hello_world [list_byte_of_string "!"]
           2000 3000 Examples.reader_created 5%N (WriteConcern.only_w 1)).
  - reflexivity.
  - reflexivity.
  - reflexivity.
  - eexists. reflexivity.
  - reflexivity.
  - reflexivity.
  - simpl. lia.
  - exact hello_stored.
  - reflexivity.
  - repeat split.
  - reflexivity.
Defined.

Section CursorStream.

Context {Core Doc Order : Type}.
Variable core_next : Core -> Cursor.Fetched Doc * Core.
Variable core_isDead : Core -> bool.
Variable formattedOrderClause : Order -> JsError + Order.
Variable core_kill : Core -> Core.

Variable remaining : Core -> list Doc.
Hypothesis next_contract : forall core,
  fst (core_next core) = Cursor.FetchDoc (head (remaining core))
  /\ remaining (snd (core_next core)) = tail (remaining core).
Hypothesis never_dead : forall core, core_isDead core = false.

Local Abbreviation _read :=
  (Cursor._read core_next core_isDead formattedOrderClause core_kill).
Local Abbreviation stream_run :=
  (Cursor.stream_run core_next core_isDead formattedOrderClause core_kill).

Lemma _read_next (transform : option (Doc -> Doc)) (c : @Cursor.t Core Order) :
  Cursor.state c <> Cursor.CLOSED ->
  Cursor.sort_ready formattedOrderClause c ->
  _read transform c
  = Some (match head (remaining (Cursor.core c)), transform with
          | Some doc, Some f => Some (f doc)
          | Some doc, None => Some doc
          | None, _ => None
          end,
          Cursor.set_state Cursor.OPEN
            (Cursor.set_core (snd (core_next (Cursor.core c))) c)).
Proof.
  intros Hstate Hsort.
  unfold Cursor._read, Cursor.isDead, Cursor.nextObject. rewrite never_dead.
  rewrite bool_decide_eq_false_2 by exact Hstate. cbn [orb].
  rewrite (loop_turn core_next core_isDead formattedOrderClause _ c [] Hstate
             (never_dead _) Hsort).
  cbn zeta. destruct (next_contract (Cursor.core c)) as [Hdoc _]. rewrite Hdoc.
  simpl. destruct (head (remaining (Cursor.core c))); [ | reflexivity ].
  destruct transform; reflexivity.
Qed.

Lemma stream_run_spec (transform : option (Doc -> Doc)) calls :
  forall (c : @Cursor.t Core Order) pushed,
    Cursor.state c <> Cursor.CLOSED ->
    Cursor.sort_ready formattedOrderClause c ->
    (length (remaining (Cursor.core c)) < calls)%nat ->
    exists c',
      stream_run calls transform c pushed
      = Some (pushed ++ (match transform with
                         | Some f => f
                         | None => fun doc => doc
                         end <$> remaining (Cursor.core c)), c')
      /\ Cursor.state c' = Cursor.OPEN
      /\ remaining (Cursor.core c') = [].
Proof.
  induction calls as [ | calls IH]; intros c pushed Hstate Hsort Hcalls; [ lia | ].
  simpl. rewrite (_read_next transform c Hstate Hsort).
  destruct (next_contract (Cursor.core c)) as [_ Hrest].
  destruct (remaining (Cursor.core c)) as [ | x rest] eqn:Hrem; simpl.
  - eexists. split; [ rewrite app_nil_r; reflexivity | ].
    split; [ reflexivity | exact Hrest ].
  - simpl in Hrest, Hcalls.
    assert (Hopen : forall doc,
              exists c',
                stream_run calls transform
                  (Cursor.set_state Cursor.OPEN
                     (Cursor.set_core (snd (core_next (Cursor.core c))) c))
                  (pushed ++ [doc])
                = Some ((pushed ++ [doc])
                        ++ (match transform with
                            | Some f => f
                            | None => fun doc => doc
                            end <$> rest), c')
                /\ Cursor.state c' = Cursor.OPEN
                /\ remaining (Cursor.core c') = []).
    { intros doc.
      destruct (IH (Cursor.set_state Cursor.OPEN
                      (Cursor.set_core (snd (core_next (Cursor.core c))) c))
                   (pushed ++ [doc])) as (c' & Hrun & Hend).
      - simpl. discriminate.
      - unfold Cursor.sort_ready. simpl.
        destruct (Cursor.orderby c); [ left; discriminate | exact I ].
      - simpl. rewrite Hrest. lia.
      - exists c'. simpl in Hrun. rewrite Hrest in Hrun. split; assumption. }
    destruct transform as [f | ].
    + destruct (Hopen (f x)) as (c' & Hrun & Hend).
      exists c'. rewrite Hrun, <- app_assoc. split; [ reflexivity | exact Hend ].
    + destruct (Hopen x) as (c' & Hrun & Hend).
      exists c'. rewrite Hrun, <- app_assoc. split; [ reflexivity | exact Hend ].
Qed.

(** X22 (_read, stream): the cursor read as a stream, over a core cursor
    that hands out its documents in order and does not die, pushes every
    remaining document in order, through the transformation when one is
    set, and then the null that ends the stream; the cursor is then in
    the state OPEN. *)
Theorem cursor_stream_delivers (transform : option (Doc -> Doc))
    (c : @Cursor.t Core Order) calls :
  Cursor.state c <> Cursor.CLOSED ->
  Cursor.sort_ready formattedOrderClause c ->
  (length (remaining (Cursor.core c)) < calls)%nat ->
  exists c',
    stream_run calls transform c []
    = Some (match transform with
            | Some f => f
            | None => fun doc => doc
            end <$> remaining (Cursor.core c), c')
    /\ Cursor.state c' = Cursor.OPEN
    /\ remaining (Cursor.core c') = [].
Proof.
  intros Hstate Hsort Hcalls.
  exact (stream_run_spec transform calls c [] Hstate Hsort Hcalls).
Qed.

End CursorStream.

Lemma cursor_stream_delivers_witness :
  exists c',
    Cursor.stream_run Examples.list_next Examples.list_isDead Examples.keep_order
      Examples.list_kill 4 (Some (fun doc => 2 * doc)) (Examples.list_cursor [1; 2; 3]) []
    = Some ([2; 4; 6], c')
    /\ Cursor.state c' = Cursor.OPEN
    /\ Cursor.core c' = [].
Proof.
  apply (cursor_stream_delivers Examples.list_next Examples.list_isDead
           Examples.keep_order Examples.list_kill (fun core => core)
           list_next_contract (fun core => eq_refl) (Some (fun doc => 2 * doc))
           (Examples.list_cursor [1; 2; 3]) 4).
  - discriminate.
  - exact I.
  - simpl. lia.
Defined.

(** ** Lines *)

Lemma append_cons (a : ascii) (s t : string) :
  (String a s ++ t)%string = String a (s ++ t)%string.
Proof. reflexivity. Qed.

Lemma append_empty_l (t : string) : ("" ++ t)%string = t.
Proof. reflexivity. Qed.

Lemma append_empty (s : string) : (s ++ "")%string = s.
Proof.
  induction s as [ | a s IH]; [ reflexivity | ].
  rewrite append_cons, IH. reflexivity.
Qed.

Lemma append_assoc (s1 s2 s3 : string) :
  ((s1 ++ s2) ++ s3)%string = (s1 ++ s2 ++ s3)%string.
Proof.
  induction s1 as [ | a s1 IH]; [ reflexivity | ].
  rewrite !append_cons, IH. reflexivity.
Qed.

Lemma prefix_empty (s : string) : String.prefix "" s = true.
Proof. destruct s; reflexivity. Qed.

(** A line without the separator, then the separator. *)
Lemma split_from_line (c : ascii) (line rest : string) : forall item : string,
  c ∉ list_ascii_of_string line ->
  GridStore.split_from (String c "") 0 item (line ++ String c rest)
  = (item ++ line)%string :: GridStore.split_from (String c "") 0 "" rest.
Proof.
  induction line as [ | a line IH]; intros item Hnot.
  - rewrite append_empty_l, append_empty. simpl.
    destruct (ascii_dec c c) as [_ | Hne]; [ | contradiction ].
    rewrite prefix_empty. reflexivity.
  - simpl in Hnot. apply not_elem_of_cons in Hnot as [Hca Hline].
    rewrite append_cons. simpl.
    destruct (ascii_dec c a) as [Heq | _]; [ contradiction | ].
    rewrite (IH _ Hline), append_assoc. reflexivity.
Qed.

(** Text without the separator is one item. *)
Lemma split_from_rest (c : ascii) (tail : string) : forall item : string,
  c ∉ list_ascii_of_string tail ->
  GridStore.split_from (String c "") 0 item tail = [(item ++ tail)%string].
Proof.
  induction tail as [ | a tail IH]; intros item Hnot.
  - simpl. rewrite append_empty. reflexivity.
  - simpl in Hnot. apply not_elem_of_cons in Hnot as [Hca Htail].
    simpl. destruct (ascii_dec c a) as [Heq | _]; [ contradiction | ].
    rewrite (IH _ Htail), append_assoc. reflexivity.
Qed.

Lemma split_lines (c : ascii) (lines : list string) (tail : string) :
  Forall (fun line => c ∉ list_ascii_of_string line) lines ->
  c ∉ list_ascii_of_string tail ->
  GridStore.split (String c "")
    (foldr (fun line rest => (line ++ String c rest)%string) tail lines)
  = lines ++ [tail].
Proof.
  intros Hlines Htail. unfold GridStore.split.
  induction Hlines as [ | line lines Hline Hlines IH]; simpl foldr.
  - apply (split_from_rest c tail "" Htail).
  - rewrite (split_from_line c line _ "" Hline). simpl. rewrite IH. reflexivity.
Qed.

Section Lines.

Variable toString : Buffer -> string.

(** The items of [readlines] for a separator of one character. *)
Lemma readlines_line_items (self : GridStore.t) (d : Db) (payload : Buffer)
    (c : ascii) (lines : list string) (tail : string) separator fuel :
  Session.at_offset self d payload 0 ->
  (0 < length payload)%nat ->
  (length payload <= fuel)%nat ->
  GridStore.or_default separator (String "010" "") = String c "" ->
  toString payload = foldr (fun line rest => (line ++ String c rest)%string) tail lines ->
  Forall (fun line => c ∉ list_ascii_of_string line) lines ->
  c ∉ list_ascii_of_string tail ->
  exists self',
    GridStore.readlines toString fuel self separator d
    = Some (GridStore.Ok ((fun line => (line ++ String c "")%string) <$> lines), self').
Proof.
  intros Hat Hsome Hfuel Hsep Htext Hlines Htail.
  destruct (read_at_offset self d payload 0 (length payload) None fuel Hat Hsome
              ltac:(lia) eq_refl Hfuel) as (index & self' & Hread & _).
  rewrite drop_0, firstn_all in Hread.
  unfold GridStore.readlines. rewrite Hread, Hsep. simpl GridStore.bytes.
  rewrite Htext, (split_lines c lines tail Hlines Htail), removelast_last.
  exists self'. reflexivity.
Qed.

(** X23 (readlines): for a separator of one character (a newline when
    none is given), [readlines] on a reader at the start of a file calls
    back with the lines that end with the separator, each with its
    separator; text after the last separator is left out. *)
Theorem readlines_drops_last_line (self : GridStore.t) (d : Db) (payload : Buffer)
    (c : ascii) (lines : list string) (tail : string) separator fuel :
  Session.at_offset self d payload 0 ->
  (0 < length payload)%nat ->
  (length payload <= fuel)%nat ->
  GridStore.or_default separator (String "010" "") = String c "" ->
  toString payload = foldr (fun line rest => (line ++ String c rest)%string) tail lines ->
  Forall (fun line => c ∉ list_ascii_of_string line) lines ->
  c ∉ list_ascii_of_string tail ->
  exists self',
    GridStore.readlines toString fuel self separator d
    = Some (GridStore.Ok ((fun line => (line ++ String c "")%string) <$> lines), self').
Proof.
  exact (readlines_line_items self d payload c lines tail separator fuel).
Qed.

End Lines.

Lemma no_newline_at_end (text : string) :
  "010"%char ∉ list_ascii_of_string text ->
  GridStore.ends_with_newline text = false.
Proof.
  induction text as [ | a text IH]; intros Hnot; [ reflexivity | ].
  simpl in Hnot. apply not_elem_of_cons in Hnot as [Hne Hrest].
  simpl. destruct text as [ | b text].
  - apply bool_decide_eq_false_2. congruence.
  - apply IH. exact Hrest.
Qed.

Section PutsLines.

Variable StringToNumber : string -> option Z.
Variable toHexString : N -> string.
Variable filemd5 : gmap Z Buffer -> option string.
Variable toString : Buffer -> string.
Variable binary : string -> Buffer.

(** A run of [puts] with lines that hold no newline is a run of [write]
    with the lines, each followed by a newline. *)
Lemma puts_all_writes (lines : list string) : forall (self : GridStore.t) now d,
  Forall (fun line => "010"%char ∉ list_ascii_of_string line) lines ->
  GridStore.puts_all filemd5 binary self lines now d
  = GridStore.write_all filemd5 self
      (binary <$> ((fun line => (line ++ String "010" "")%string) <$> lines)) now d.
Proof.
  induction lines as [ | line lines IH]; intros self now d Hlines; [ reflexivity | ].
  apply Forall_cons in Hlines as [Hline Hlines].
  simpl. unfold GridStore.puts. rewrite (no_newline_at_end line Hline).
  destruct (GridStore.write filemd5 self _ false now d) as [[[[] self1] d1] | ];
    try reflexivity.
  apply IH. exact Hlines.
Qed.

(** X24 (puts, readlines): lines without a newline that are written with
    [puts] to a file opened in mode "w" are, once the file is closed, what
    [readlines] of a reader calls back with, each followed by the newline
    that [puts] added; the text of the bytes written is taken to be the
    text written. *)
Theorem puts_then_readlines (self0 self1 : GridStore.t) (d0 d1 : Db) fresh
    (lines : list string) now now' (rd : GridStore.t) fresh' wc :
  GridStore.mode self0 = "w" ->
  GridStore.open StringToNumber toHexString self0 d0 fresh
  = (GridStore.Ok (), self1, d1) ->
  is_Some (GridStore.fileId self1) ->
  1 <= GridStore.chunkSize self1 ->
  Session.reader_of (GridStore.fileId self1) rd ->
  WriteConcern._getWriteConcern StringToNumber (GridStore.db rd)
    (GridStore.opt_concern (GridStore.options rd))
    (GridStore.opt_safe (GridStore.options rd)) = inr wc ->
  Forall (fun line => "010"%char ∉ list_ascii_of_string line) lines ->
  let written :=
    concat (binary <$> ((fun line => (line ++ String "010" "")%string) <$> lines)) in
  (0 < length written)%nat ->
  toString written
  = foldr (fun line rest => (line ++ String "010" rest)%string) "" lines ->
  exists self2 d2 doc self3 d3 rd1,
    GridStore.puts_all filemd5 binary self1 lines now d1
    = Some (GridStore.Ok (), self2, d2)
    /\ GridStore.close filemd5 self2 now' d2 = (GridStore.Ok (Some doc), self3, d3)
    /\ GridStore.open StringToNumber toHexString rd d3 fresh'
       = (GridStore.Ok (), rd1, d3)
    /\ forall fuel,
         (length written <= fuel)%nat ->
         exists rd2,
           GridStore.readlines toString fuel rd1 None d3
           = Some (GridStore.Ok
                     ((fun line => (line ++ String "010" "")%string) <$> lines), rd2).
Proof.
  intros Hmode Hopen Hid Hc Hreader Hwc Hlines written Hsome Htext.
  destruct (written_file_opens StringToNumber toHexString filemd5 self0 self1 d0 d1 fresh
              (binary <$> ((fun line => (line ++ String "010" "")%string) <$> lines))
              now now' rd fresh' wc Hmode Hopen Hid Hc Hreader Hwc)
    as (self2 & d2 & doc & self3 & d3 & rd1 & Hwrite & Hclose & Hopen1 & Hat & _).
  exists self2, d2, doc, self3, d3, rd1.
  split; [ rewrite puts_all_writes by exact Hlines; exact Hwrite | ].
  split; [ exact Hclose | ]. split; [ exact Hopen1 | ].
  intros fuel Hfuel.
  apply (readlines_line_items toString rd1 d3 written "010"%char lines "" None fuel);
    try assumption.
  - reflexivity.
  - apply not_elem_of_nil.
Qed.

End PutsLines.

Ltac not_in_text :=
  let H := fresh in
  intros H; simpl in H;
  repeat (apply elem_of_cons in H as [H | H]; [ discriminate H | ]);
  exact (proj1 (elem_of_nil _) H).

Lemma readlines_drops_last_line_witness :
  exists self',
    GridStore.readlines string_of_list_byte 11 Examples.hello_reader (Some " ")
      Examples.hello_db
    = Some (GridStore.Ok ((fun line => (line ++ String " " "")%string) <$> ["hello"]),
            self').
Proof.
  apply (readlines_drops_last_line string_of_list_byte Examples.hello_reader
           Examples.hello_db Examples.hello_world " "%char ["hello"] "world"
           (Some " ") 11 hello_reader_at_start).
  - vm_compute. lia.
  - vm_compute. lia.
  - reflexivity.
  - reflexivity.
  - repeat constructor. not_in_text.
  - not_in_text.
Defined.

Lemma puts_then_readlines_witness :
  exists self2 d2 doc self3 d3 rd1,
    GridStore.puts_all Examples.no_md5 list_byte_of_string Examples.writer
      ["ab"; "cde"] 0 (Examples.db_of Examples.writer_opened)
    = Some (GridStore.Ok (), self2, d2)
    /\ GridStore.close Examples.no_md5 self2 1000 d2
       = (GridStore.Ok (Some doc), self3, d3)
    /\ GridStore.open Examples.no_number Examples.no_hex Examples.reader_created d3 5%N
       = (GridStore.Ok (), rd1, d3)
    /\ forall fuel,
         (length (concat (list_byte_of_string
                            <$> ((fun line => (line ++ String "010" "")%string)
                                   <$> ["ab"; "cde"]))) <= fuel)%nat ->
         exists rd2,
           GridStore.readlines string_of_list_byte fuel rd1 None d3
           = Some (GridStore.Ok
                     ((fun line => (line ++ String "010" "")%string) <$> ["ab"; "cde"]),
                   rd2).
Proof.
  apply (puts_then_readlines Examples.no_number Examples.no_hex Examples.no_md5
           string_of_list_byte list_byte_of_string
           Examples.writer_created Examples.writer Examples.empty_db
           (Examples.db_of Examples.writer_opened) 3%N ["ab"; "cde"] 0 1000
           Examples.reader_created 5%N (WriteConcern.only_w 1)).
  - reflexivity.
  - reflexivity.
  - eexists. reflexivity.
  - vm_compute. discriminate.
  - repeat split.
  - reflexivity.
  - repeat constructor; not_in_text.
  - vm_compute. lia.
  - reflexivity.
Defined.
